(** * helpers.py: a shallow embedding of the tweet-dataset helpers

    The Python module [helpers.py] loads, types and lightly reformats a
    dataset of tweets held in a pandas or Dask dataframe.  This file
    embeds its functions as Rocq definitions and proves properties of
    them.

    Conventions of the embedding:
    - Python text is a [string] (a sequence of bytes);
    - a Python function that can raise returns a [result]: [Ok v] for a
      returned value, [Raise e] for a raised exception;
    - a pandas row ([Series] with unique labels) is a [gmap string value];
      a dataframe is a list of column names with a list of rows;
    - floating-point cells other than NaN are not represented. *)

From Stdlib Require Import ZArith Ascii String DecimalString.
From stdpp Require Import gmap strings list fin_maps.

Set Warnings "-register-all".

Open Scope string_scope.
Open Scope list_scope.
Open Scope stdpp_scope.
Open Scope Z_scope.

(** ** Exceptions and fallible computations *)

(** The Python exceptions the helpers can raise.  [LiteralError] stands
    for the family that [ast.literal_eval] raises on text that is not a
    literal ([ValueError], [SyntaxError], ...). *)
Inductive exn : Type :=
| KeyError
| IndexError
| TypeError
| ValueError
| AttributeError
| LiteralError
| FileNotFoundError.

Inductive result (A : Type) : Type :=
| Ok (a : A)
| Raise (e : exn).

Arguments Ok {A} a.
Arguments Raise {A} e.

#[global] Instance result_ret : MRet result := fun A a => Ok a.
#[global] Instance result_bind : MBind result := fun A B f m =>
  match m with
  | Ok a => f a
  | Raise e => Raise e
  end.
#[global] Instance result_fmap : FMap result := fun A B f m =>
  match m with
  | Ok a => Ok (f a)
  | Raise e => Raise e
  end.

(** [try_except_TypeError body handler]: a [try] block whose only
    handler is [except TypeError]. *)
Definition try_except_TypeError {A} (body handler : result A) : result A :=
  match body with
  | Raise TypeError => handler
  | r => r
  end.

(** ** Python values *)

(** What [ast.literal_eval] can produce (on the fragment modelled
    below): [None], booleans, integers, text, lists and dicts. *)
Inductive literal : Type :=
| LNone
| LBool (b : bool)
| LInt (z : Z)
| LStr (s : string)
| LList (l : list literal)
| LDict (kvs : list (literal * literal)).

(** A pandas [Timestamp].  As in pandas, the instant is held as
    nanoseconds since 1970-01-01T00:00:00: UTC nanoseconds when the
    timestamp carries a time zone, wall-clock nanoseconds when it is
    naive.  A time zone is a fixed offset from UTC, in minutes. *)
Record Timestamp : Type := mkTimestamp {
  ts_value : Z;
  ts_tz : option Z
}.

(** The content of a dataframe cell: one of the missing-value markers
    ([None], NaN, [pd.NA], [NaT]), a scalar, a timestamp, or a Python
    list or dict. *)
Inductive value : Type :=
| VNone
| VNaN
| VNA
| VNaT
| VBool (b : bool)
| VInt (z : Z)
| VStr (s : string)
| VTimestamp (t : Timestamp)
| VList (l : list literal)
| VDict (kvs : list (literal * literal)).

Definition value_of_literal (x : literal) : value :=
  match x with
  | LNone => VNone
  | LBool b => VBool b
  | LInt z => VInt z
  | LStr s => VStr s
  | LList l => VList l
  | LDict kvs => VDict kvs
  end.

(** *** [pd.isna] *)

(** [pd.isna] on something that is not a list: true for the
    missing-value markers only. *)
Definition isna_scalar (v : value) : bool :=
  match v with
  | VNone | VNaN | VNA | VNaT => true
  | _ => false
  end.

(** [pd.isna] of a list is element-wise, over the array that
    [np.asarray(l, dtype=object)] builds.  Only an array of exactly one
    element has a truth value; [sole_element] finds that element (a
    chain of one-element lists around something that is not a list). *)
Fixpoint sole_of (x : literal) : option literal :=
  match x with
  | LList [y] => sole_of y
  | LList _ => None
  | _ => Some x
  end.

Definition sole_element (l : list literal) : option literal :=
  match l with
  | [y] => sole_of y
  | _ => None
  end.

(** The test [not pd.isna(v)] used as an [if] condition.  On a list
    the array's truth value is taken, which raises [ValueError] unless
    the array has one element (so has it NumPy from 2.2 on; before, an
    empty array was false, with a warning). *)
Definition not_isna (v : value) : result bool :=
  match v with
  | VList l =>
      match sole_element l with
      | Some x => Ok (negb (isna_scalar (value_of_literal x)))
      | None => Raise ValueError
      end
  | _ => Ok (negb (isna_scalar v))
  end.

(** A cell that is not a Python list: what a typed column holds. *)
Definition is_scalar_cell (v : value) : bool :=
  match v with
  | VList _ => false
  | _ => true
  end.

(** ** Rows *)

Abbreviation Series := (gmap string value).

(** [tweet[label]] *)
Definition series_get (tweet : Series) (label : string) : result value :=
  match tweet !! label with
  | Some v => Ok v
  | None => Raise KeyError
  end.

(** ** Tweet type *)

Definition RETWEETED_ID : string := "referenced_tweets.retweeted.id".
Definition QUOTED_ID : string := "referenced_tweets.quoted.id".
Definition REPLIED_TO_ID : string := "referenced_tweets.replied_to.id".

(** [find_tweet_type(tweet)] *)
Definition find_tweet_type (tweet : Series) : result value :=
  r ← series_get tweet RETWEETED_ID;
  c1 ← not_isna r;
  if c1 : bool then Ok (VStr "retweet")
  else
    q ← series_get tweet QUOTED_ID;
    c2 ← not_isna q;
    if c2 : bool then
      p ← series_get tweet REPLIED_TO_ID;
      c3 ← not_isna p;
      if c3 : bool then Ok (VStr "quote/reply")
      else Ok (VStr "quote")
    else
      p ← series_get tweet REPLIED_TO_ID;
      c3 ← not_isna p;
      if c3 : bool then Ok (VStr "reply")
      else Ok (VStr "original").

(** ** Text: [str()] and [repr()] *)

Definition DQUOTE : ascii := "034"%char.
Definition SQUOTE : ascii := "'"%char.
Definition BACKSLASH : ascii := "\"%char.

Definition str1 (c : ascii) : string := String c EmptyString.

(** Decimal text of an integer, as [str(int)] prints it. *)
Definition string_of_Z (z : Z) : string :=
  NilZero.string_of_int (Z.to_int z).

Fixpoint join (sep : string) (l : list string) : string :=
  match l with
  | [] => EmptyString
  | [x] => x
  | x :: rest => x +:+ sep +:+ join sep rest
  end.

Fixpoint string_mem (c : ascii) (s : string) : bool :=
  match s with
  | EmptyString => false
  | String d rest => Ascii.eqb c d || string_mem c rest
  end.

Definition hex_digit (n : N) : ascii :=
  Ascii.ascii_of_N (if (n <? 10)%N then 48 + n else 87 + n)%N.

(** One character of text inside [repr(str)], quoted with [q]: the
    quote and the backslash are escaped, control characters are written
    as escapes, everything else (non-ASCII bytes included) stands for
    itself. *)
Definition repr_char (q c : ascii) : string :=
  let n := Ascii.N_of_ascii c in
  if Ascii.eqb c q || Ascii.eqb c BACKSLASH then String BACKSLASH (str1 c)
  else if (n =? 9)%N then "\t"
  else if (n =? 10)%N then "\n"
  else if (n =? 13)%N then "\r"
  else if (n <? 32)%N || (n =? 127)%N then
    "\x" +:+ String (hex_digit (n / 16)) (str1 (hex_digit (n mod 16)))
  else str1 c.

Fixpoint repr_chars (q : ascii) (s : string) : string :=
  match s with
  | EmptyString => EmptyString
  | String c rest => repr_char q c +:+ repr_chars q rest
  end.

(** [repr(s)] of text: single quotes, unless the text has a single
    quote and no double quote. *)
Definition repr_str (s : string) : string :=
  let q := if string_mem SQUOTE s && negb (string_mem DQUOTE s)
           then DQUOTE else SQUOTE in
  String q (repr_chars q s) +:+ str1 q.

Definition str_bool (b : bool) : string := if b then "True" else "False".

(** [repr(x)] of a literal value. *)
Fixpoint repr_literal (x : literal) : string :=
  match x with
  | LNone => "None"
  | LBool b => str_bool b
  | LInt z => string_of_Z z
  | LStr s => repr_str s
  | LList l => "[" +:+ join ", " (map repr_literal l) +:+ "]"
  | LDict kvs =>
      "{" +:+ join ", "
        (map (fun kv => repr_literal kv.1 +:+ ": " +:+ repr_literal kv.2) kvs)
      +:+ "}"
  end.

(** *** Calendar arithmetic, for the text of a timestamp *)

Definition NS_PER_SECOND : Z := 1000000000.
Definition NS_PER_MINUTE : Z := 60 * NS_PER_SECOND.
Definition NS_PER_DAY : Z := 86400 * NS_PER_SECOND.

(** Days since 1970-01-01 of a proleptic Gregorian date. *)
Definition days_from_civil (y m d : Z) : Z :=
  let y' := if m <=? 2 then y - 1 else y in
  let era := y' / 400 in
  let yoe := y' - era * 400 in
  let doy := (153 * (if 2 <? m then m - 3 else m + 9) + 2) / 5 + d - 1 in
  let doe := yoe * 365 + yoe / 4 - yoe / 100 + doy in
  era * 146097 + doe - 719468.

(** The proleptic Gregorian date (year, month, day) of a day number. *)
Definition civil_from_days (days : Z) : Z * Z * Z :=
  let z := days + 719468 in
  let era := z / 146097 in
  let doe := z - era * 146097 in
  let yoe := (doe - doe / 1460 + doe / 36524 - doe / 146096) / 365 in
  let doy := doe - (365 * yoe + yoe / 4 - yoe / 100) in
  let mp := (5 * doy + 2) / 153 in
  let d := doy - (153 * mp + 2) / 5 + 1 in
  let m := if mp <? 10 then mp + 3 else mp - 9 in
  let y := yoe + era * 400 in
  (if m <=? 2 then y + 1 else y, m, d).

(** The wall-clock nanoseconds of a timestamp: its value, shifted by
    the UTC offset when it has a time zone. *)
Definition wall_ns (t : Timestamp) : Z :=
  match ts_tz t with
  | Some offset => ts_value t + offset * NS_PER_MINUTE
  | None => ts_value t
  end.

(** A naive timestamp from calendar fields. *)
Definition timestamp_of_civil (y m d hh mm ss ns : Z) : Timestamp :=
  mkTimestamp
    (days_from_civil y m d * NS_PER_DAY
     + (hh * 3600 + mm * 60 + ss) * NS_PER_SECOND + ns)
    None.

Fixpoint zeros (n : nat) : string :=
  match n with
  | O => EmptyString
  | S n' => "0" +:+ zeros n'
  end.

(** [s] with zeros before it, up to [width] characters. *)
Definition zero_pad (width : nat) (s : string) : string :=
  zeros (width - String.length s) +:+ s.

Definition digits (width : nat) (z : Z) : string :=
  zero_pad width (string_of_Z z).

(** [str(t)] of a timestamp: date and time separated by a space, the
    fraction of a second when it is not zero (six digits, nine when
    there are nanoseconds), then the UTC offset when there is one. *)
Definition str_timestamp (t : Timestamp) : string :=
  let w := wall_ns t in
  let '(y, m, d) := civil_from_days (w / NS_PER_DAY) in
  let r := w mod NS_PER_DAY in
  let secs := r / NS_PER_SECOND in
  let frac := r mod NS_PER_SECOND in
  let fraction :=
    if frac =? 0 then EmptyString
    else if frac mod 1000 =? 0 then "." +:+ digits 6 (frac / 1000)
    else "." +:+ digits 9 frac in
  let zone :=
    match ts_tz t with
    | None => EmptyString
    | Some offset =>
        (if offset <? 0 then "-" else "+")
        +:+ digits 2 (Z.abs offset / 60) +:+ ":" +:+ digits 2 (Z.abs offset mod 60)
    end in
  digits 4 y +:+ "-" +:+ digits 2 m +:+ "-" +:+ digits 2 d +:+ " "
  +:+ digits 2 (secs / 3600) +:+ ":" +:+ digits 2 (secs / 60 mod 60) +:+ ":"
  +:+ digits 2 (secs mod 60) +:+ fraction +:+ zone.

(** [str(v)], which is also what an f-string writes for [{v}]. *)
Definition py_str (v : value) : string :=
  match v with
  | VNone => "None"
  | VNaN => "nan"
  | VNA => "<NA>"
  | VNaT => "NaT"
  | VBool b => str_bool b
  | VInt z => string_of_Z z
  | VStr s => s
  | VTimestamp t => str_timestamp t
  | VList l => repr_literal (LList l)
  | VDict kvs => repr_literal (LDict kvs)
  end.

(** ** Tweet URL and media markup *)

(** in place of no image *)
Definition NO_IMAGE : string := "No image URL".

(** [tweets[i]] on the two-cell row that [df[[username, 'id']]] hands to
    [make_tweet_url]: its labels are column names, so an integer index
    is positional. *)
Definition row_at (tweets : list value) (i : nat) : result value :=
  match tweets !! i with
  | Some v => Ok v
  | None => Raise IndexError
  end.

(** [make_tweet_url(tweets)] *)
Definition make_tweet_url (tweets : list value) : result value :=
  username ← row_at tweets 0;
  tweet_id ← row_at tweets 1;
  Ok (VStr ("https://twitter.com/" +:+ py_str username
            +:+ "/status/" +:+ py_str tweet_id)).

(** [url != NO_IMAGE] as an [if] condition.  Text is compared with
    text; [pd.NA != ...] is [pd.NA], which has no truth value; anything
    else differs from text. *)
Definition ne_NO_IMAGE (url : value) : result bool :=
  match url with
  | VStr s => Ok (negb (String.eqb s NO_IMAGE))
  | VNA => Raise TypeError
  | _ => Ok true
  end.

(** [get_image_html(url)] *)
Definition get_image_html (url : value) : result value :=
  c ← ne_NO_IMAGE url;
  if c : bool then
    Ok (VStr ("<a href='" +:+ py_str url +:+ "'>'<img src='" +:+ py_str url
              +:+ "' width='500px'></a>"))
  else Ok url.

(** ** Decoding a media descriptor: [ast.literal_eval] *)

(** [literal_eval] is modelled on a fragment of Python's literal
    syntax, enough for the text of a list of media records: [None],
    [True], [False], decimal integers with an optional sign, text in
    single or double quotes without backslash escapes, lists and dicts
    (a trailing comma allowed), with spaces and tabs between tokens.
    Text outside the fragment (floats, tuples, sets, bytes, escapes,
    digit separators, adjacent or triple-quoted text, line breaks, ...)
    is reported as [LiteralError], although Python evaluates some of
    it. *)

Inductive token : Type :=
| TLBracket
| TRBracket
| TLBrace
| TRBrace
| TComma
| TColon
| TPlus
| TMinus
| TStr (s : string)
| TInt (z : Z)
| TName (s : string).

Inductive lex_mode : Type :=
| LexDefault
| LexStr (q : ascii) (acc : list ascii)
| LexNum (acc : list ascii)
| LexName (acc : list ascii).

(** What a character starts when no token is open. *)
Inductive lex_start : Type :=
| StartToken (t : token)
| StartMode (m : lex_mode)
| StartSkip
| StartError.

Definition is_digit (c : ascii) : bool :=
  let n := Ascii.N_of_ascii c in ((48 <=? n) && (n <=? 57))%N.

Definition is_name_start (c : ascii) : bool :=
  let n := Ascii.N_of_ascii c in
  (((65 <=? n) && (n <=? 90)) || ((97 <=? n) && (n <=? 122)) || (n =? 95))%N.

Definition is_blank (c : ascii) : bool :=
  let n := Ascii.N_of_ascii c in ((n =? 32) || (n =? 9))%N.

Definition is_line_break (c : ascii) : bool :=
  let n := Ascii.N_of_ascii c in ((n =? 10) || (n =? 13))%N.

Definition lex_begin (c : ascii) : lex_start :=
  if Ascii.eqb c "["%char then StartToken TLBracket
  else if Ascii.eqb c "]"%char then StartToken TRBracket
  else if Ascii.eqb c "{"%char then StartToken TLBrace
  else if Ascii.eqb c "}"%char then StartToken TRBrace
  else if Ascii.eqb c ","%char then StartToken TComma
  else if Ascii.eqb c ":"%char then StartToken TColon
  else if Ascii.eqb c "+"%char then StartToken TPlus
  else if Ascii.eqb c "-"%char then StartToken TMinus
  else if Ascii.eqb c SQUOTE || Ascii.eqb c DQUOTE then StartMode (LexStr c [])
  else if is_digit c then StartMode (LexNum [c])
  else if is_name_start c then StartMode (LexName [c])
  else if is_blank c then StartSkip
  else StartError.

Definition digit_value (c : ascii) : Z :=
  Z.of_N (Ascii.N_of_ascii c) - 48.

(** The integer written by a run of digits (given last digit first); a
    leading zero is allowed only when every digit is zero. *)
Definition number_token (acc : list ascii) : option token :=
  let ds := rev acc in
  let all_zero := forallb (fun c => Ascii.eqb c "0"%char) ds in
  match ds with
  | d :: _ :: _ =>
      if Ascii.eqb d "0"%char && negb all_zero then None
      else Some (TInt (fold_left (fun n c => 10 * n + digit_value c) ds 0))
  | _ => Some (TInt (fold_left (fun n c => 10 * n + digit_value c) ds 0))
  end.

Definition name_token (acc : list ascii) : token :=
  TName (string_of_list_ascii (rev acc)).

(** After a finished token [t], the character [c] starts afresh. *)
Definition lex_after (t : token) (c : ascii)
    (continue : lex_mode -> option (list token)) : option (list token) :=
  match lex_begin c with
  | StartToken t' => cons t <$> (cons t' <$> continue LexDefault)
  | StartMode m => cons t <$> continue m
  | StartSkip => cons t <$> continue LexDefault
  | StartError => None
  end.

Fixpoint lex (mode : lex_mode) (s : string) : option (list token) :=
  match s with
  | EmptyString =>
      match mode with
      | LexDefault => Some []
      | LexStr _ _ => None
      | LexNum acc => t ← number_token acc; Some [t]
      | LexName acc => Some [name_token acc]
      end
  | String c rest =>
      match mode with
      | LexDefault =>
          match lex_begin c with
          | StartToken t => cons t <$> lex LexDefault rest
          | StartMode m => lex m rest
          | StartSkip => lex LexDefault rest
          | StartError => None
          end
      | LexStr q acc =>
          if Ascii.eqb c q then
            cons (TStr (string_of_list_ascii (rev acc))) <$> lex LexDefault rest
          else if Ascii.eqb c BACKSLASH || is_line_break c then None
          else lex (LexStr q (c :: acc)) rest
      | LexNum acc =>
          if is_digit c then lex (LexNum (c :: acc)) rest
          else t ← number_token acc; lex_after t c (fun m => lex m rest)
      | LexName acc =>
          if is_name_start c || is_digit c then lex (LexName (c :: acc)) rest
          else lex_after (name_token acc) c (fun m => lex m rest)
      end
  end.

(** Python's equality of dict keys: [True == 1] and [False == 0]. *)
Definition key_number (x : literal) : option Z :=
  match x with
  | LInt z => Some z
  | LBool b => Some (if b then 1 else 0)
  | _ => None
  end.

Definition key_eqb (a b : literal) : bool :=
  match a, b with
  | LNone, LNone => true
  | LStr s, LStr s' => String.eqb s s'
  | _, _ =>
      match key_number a, key_number b with
      | Some x, Some y => x =? y
      | _, _ => false
      end
  end.

Definition hashable (x : literal) : bool :=
  match x with
  | LList _ | LDict _ => false
  | _ => true
  end.

(** [d[k] = v] on a dict held in insertion order. *)
Fixpoint dict_set (kvs : list (literal * literal)) (k v : literal)
    : list (literal * literal) :=
  match kvs with
  | [] => [(k, v)]
  | (k', v') :: rest =>
      if key_eqb k' k then (k', v) :: rest else (k', v') :: dict_set rest k v
  end.

Fixpoint dict_lookup (kvs : list (literal * literal)) (k : literal)
    : option literal :=
  match kvs with
  | [] => None
  | (k', v') :: rest => if key_eqb k' k then Some v' else dict_lookup rest k
  end.

Fixpoint parse_value (fuel : nat) (ts : list token)
    : option (literal * list token) :=
  match fuel with
  | O => None
  | S fuel' =>
      match ts with
      | TName name :: rest =>
          if String.eqb name "None" then Some (LNone, rest)
          else if String.eqb name "True" then Some (LBool true, rest)
          else if String.eqb name "False" then Some (LBool false, rest)
          else None
      | TStr s :: rest => Some (LStr s, rest)
      | TInt z :: rest => Some (LInt z, rest)
      | TPlus :: TInt z :: rest => Some (LInt z, rest)
      | TMinus :: TInt z :: rest => Some (LInt (- z), rest)
      | TLBracket :: rest => parse_items fuel' rest []
      | TLBrace :: rest => parse_entries fuel' rest []
      | _ => None
      end
  end
with parse_items (fuel : nat) (ts : list token) (acc : list literal)
    : option (literal * list token) :=
  match fuel with
  | O => None
  | S fuel' =>
      match ts with
      | TRBracket :: rest => Some (LList (rev acc), rest)
      | _ =>
          match parse_value fuel' ts with
          | Some (x, TComma :: rest) => parse_items fuel' rest (x :: acc)
          | Some (x, TRBracket :: rest) => Some (LList (rev (x :: acc)), rest)
          | _ => None
          end
      end
  end
with parse_entries (fuel : nat) (ts : list token)
    (acc : list (literal * literal)) : option (literal * list token) :=
  match fuel with
  | O => None
  | S fuel' =>
      match ts with
      | TRBrace :: rest => Some (LDict acc, rest)
      | _ =>
          match parse_value fuel' ts with
          | Some (k, TColon :: rest) =>
              match parse_value fuel' rest with
              | Some (v, TComma :: rest') =>
                  if hashable k then parse_entries fuel' rest' (dict_set acc k v)
                  else None
              | Some (v, TRBrace :: rest') =>
                  if hashable k then Some (LDict (dict_set acc k v), rest')
                  else None
              | _ => None
              end
          | _ => None
          end
      end
  end.

Definition parse_literal (s : string) : option literal :=
  ts ← lex LexDefault s;
  match parse_value (2 * List.length ts + 2) ts with
  | Some (x, []) => Some x
  | _ => None
  end.

(** [literal_eval(node_or_string)]: only text is evaluated; anything
    else is a malformed node. *)
Definition literal_eval (node_or_string : value) : result literal :=
  match node_or_string with
  | VStr s =>
      match parse_literal s with
      | Some x => Ok x
      | None => Raise LiteralError
      end
  | _ => Raise LiteralError
  end.

(** ** Media URL *)

(** [x[0]] *)
Definition subscript0 (x : literal) : result literal :=
  match x with
  | LList (first :: _) => Ok first
  | LList [] => Raise IndexError
  | LStr (String c _) => Ok (LStr (str1 c))
  | LStr EmptyString => Raise IndexError
  | LDict kvs =>
      match dict_lookup kvs (LInt 0) with
      | Some v => Ok v
      | None => Raise KeyError
      end
  | _ => Raise TypeError
  end.

(** [x.get(key, default)]: only a dict has the method. *)
Definition dict_get (x : literal) (key default : string) : result literal :=
  match x with
  | LDict kvs =>
      match dict_lookup kvs (LStr key) with
      | Some v => Ok v
      | None => Ok (LStr default)
      end
  | _ => Raise AttributeError
  end.

(** [get_image_url(media)] *)
Definition get_image_url (media : value) : result value :=
  c ← not_isna media;
  if c : bool then
    decoded ← literal_eval media;
    media' ← subscript0 decoded;
    url ← dict_get media' "url" NO_IMAGE;
    Ok (value_of_literal url)
  else Ok (VStr NO_IMAGE).

(** ** Dataframes *)

(** A pandas dataframe: column names (unique in a well-formed frame)
    and rows, each row holding one cell per column. *)
Record DataFrame : Type := mkDataFrame {
  columns : list string;
  rows : list (list value)
}.

Definition well_formed (df : DataFrame) : Prop :=
  NoDup (columns df) ∧
  Forall (fun row => List.length row = List.length (columns df)) (rows df).

(** The place of column [c] among the column names. *)
Fixpoint index_of (cols : list string) (c : string) : option nat :=
  match cols with
  | [] => None
  | c' :: rest => if String.eqb c' c then Some O else S <$> index_of rest c
  end.

(** The cell of a row at place [i] (a well-formed row has one). *)
Definition cell (i : nat) (row : list value) : value :=
  default VNaN (row !! i).

(** Looking a column up by name: [KeyError] when there is none. *)
Definition locate (cols : list string) (c : string) : result nat :=
  match index_of cols c with
  | Some i => Ok i
  | None => Raise KeyError
  end.

(** The column names after [df[c] = ...]: [c] is added at the end
    unless it is there already. *)
Definition columns_set (cols : list string) (c : string) : list string :=
  match index_of cols c with
  | Some _ => cols
  | None => cols ++ [c]
  end.

(** One row after [df[c] = ...], [v] being the row's new cell. *)
Definition row_set (cols : list string) (c : string) (v : value)
    (row : list value) : list value :=
  match index_of cols c with
  | Some i => <[i := v]> row
  | None => row ++ [v]
  end.

(** [c in df] *)
Definition pd_contains (df : DataFrame) (c : string) : bool :=
  bool_decide (is_Some (index_of (columns df) c)).

(** [df[[c1, c2, ...]]] *)
Definition pd_select (df : DataFrame) (cs : list string) : result DataFrame :=
  idxs ← mapM (locate (columns df)) cs;
  Ok (mkDataFrame cs (map (fun row => map (fun i => cell i row) idxs) (rows df))).

(** [df[c]] *)
Definition pd_getitem (df : DataFrame) (c : string) : result (list value) :=
  i ← locate (columns df) c;
  Ok (map (cell i) (rows df)).

(** [df[c] = series] *)
Definition pd_setitem (df : DataFrame) (c : string) (series : list value)
    : DataFrame :=
  mkDataFrame (columns_set (columns df) c)
    (zip_with (fun row v => row_set (columns df) c v row) (rows df) series).

(** [df[c] = v], the same cell in every row *)
Definition pd_setitem_const (df : DataFrame) (c : string) (v : value)
    : DataFrame :=
  mkDataFrame (columns_set (columns df) c)
    (map (row_set (columns df) c v) (rows df)).

(** [df.rename(columns=...)] *)
Definition pd_rename (df : DataFrame) (f : string -> string) : DataFrame :=
  mkDataFrame (map f (columns df)) (rows df).

(** A function applied to each row receives the row's labels and
    cells. *)
Definition row_function : Type := list string -> list value -> result value.

Definition positional (g : list value -> result value) : row_function :=
  fun _ cells => g cells.

Definition labelled (g : Series -> result value) : row_function :=
  fun labels cells => g (list_to_map (zip labels cells)).

(** [df.apply(f, axis=1)] and [df.apply(f, axis=1, meta=...)].  pandas
    hands keyword arguments it does not know on to [f]; the helpers
    take none, so with [meta] the call raises [TypeError]. *)
Definition pd_apply (df : DataFrame) (f : row_function) (meta : bool)
    : result (list value) :=
  if meta then Raise TypeError else mapM (f (columns df)) (rows df).

(** [series.apply(g)] and [series.apply(g, meta=...)] *)
Definition pd_series_apply (series : list value) (g : value -> result value)
    (meta : bool) : result (list value) :=
  if meta then Raise TypeError else mapM g series.

(** A Dask dataframe: the column names it announces, and its
    partitions.  A partition is a pandas dataframe that is computed on
    demand, so what is held is the outcome its computation will have. *)
Record DaskDataFrame : Type := mkDaskDataFrame {
  dd_columns : list string;
  dd_partitions : list (result DataFrame)
}.

(** A Dask series: one deferred pandas series per partition. *)
Definition DaskSeries : Type := list (result (list value)).

Definition dd_contains (ddf : DaskDataFrame) (c : string) : bool :=
  bool_decide (is_Some (index_of (dd_columns ddf) c)).

(** Selecting columns checks the names when the graph is built; the
    selection itself is deferred. *)
Definition dd_select (ddf : DaskDataFrame) (cs : list string)
    : result DaskDataFrame :=
  _ ← mapM (locate (dd_columns ddf)) cs;
  Ok (mkDaskDataFrame cs
        (map (fun part => df ← part; pd_select df cs) (dd_partitions ddf))).

Definition dd_getitem (ddf : DaskDataFrame) (c : string) : result DaskSeries :=
  _ ← locate (dd_columns ddf) c;
  Ok (map (fun part => df ← part; pd_getitem df c) (dd_partitions ddf)).

Definition dd_setitem (ddf : DaskDataFrame) (c : string) (series : DaskSeries)
    : DaskDataFrame :=
  mkDaskDataFrame (columns_set (dd_columns ddf) c)
    (zip_with (fun part s => df ← part; vals ← s; Ok (pd_setitem df c vals))
              (dd_partitions ddf) series).

Definition dd_setitem_const (ddf : DaskDataFrame) (c : string) (v : value)
    : DaskDataFrame :=
  mkDaskDataFrame (columns_set (dd_columns ddf) c)
    (map (fun part => df ← part; Ok (pd_setitem_const df c v))
         (dd_partitions ddf)).

Definition dd_rename (ddf : DaskDataFrame) (f : string -> string)
    : DaskDataFrame :=
  mkDaskDataFrame (map f (dd_columns ddf))
    (map (fun part => df ← part; Ok (pd_rename df f)) (dd_partitions ddf)).

(** Dask's [apply] maps the function over the rows of each partition
    when the partition is computed; [meta] only announces the type of
    the result. *)
Definition dd_apply (ddf : DaskDataFrame) (f : row_function) (meta : bool)
    : result DaskSeries :=
  Ok (map (fun part => df ← part; pd_apply df f false) (dd_partitions ddf)).

Definition dd_series_apply (series : DaskSeries) (g : value -> result value)
    (meta : bool) : result DaskSeries :=
  Ok (map (fun s => vals ← s; pd_series_apply vals g false) series).

(** [ddf.compute()]: the partitions are computed and their rows put
    one after the other. *)
Definition dd_compute (ddf : DaskDataFrame) : result DataFrame :=
  parts ← mapM id (dd_partitions ddf);
  Ok (mkDataFrame (dd_columns ddf) (concat (map rows parts))).

(** A Dask dataframe over rows that are already in memory, cut into
    partitions. *)
Definition dd_from_partitions (cols : list string)
    (chunks : list (list (list value))) : DaskDataFrame :=
  mkDaskDataFrame cols (map (fun chunk => Ok (mkDataFrame cols chunk)) chunks).

(** The operations [format_df] uses, which both kinds of dataframe
    offer. *)
Class DataFrameAPI (F S : Type) : Type := {
  df_contains : F -> string -> bool;
  df_select : F -> list string -> result F;
  df_getitem : F -> string -> result S;
  df_apply : F -> row_function -> bool -> result S;
  series_apply : S -> (value -> result value) -> bool -> result S;
  df_setitem : F -> string -> S -> F;
  df_setitem_const : F -> string -> value -> F;
  df_rename : F -> (string -> string) -> F
}.

#[global] Instance pandas_api : DataFrameAPI DataFrame (list value) := {
  df_contains := pd_contains;
  df_select := pd_select;
  df_getitem := pd_getitem;
  df_apply := pd_apply;
  series_apply := pd_series_apply;
  df_setitem := pd_setitem;
  df_setitem_const := pd_setitem_const;
  df_rename := pd_rename
}.

#[global] Instance dask_api : DataFrameAPI DaskDataFrame DaskSeries := {
  df_contains := dd_contains;
  df_select := dd_select;
  df_getitem := dd_getitem;
  df_apply := dd_apply;
  series_apply := dd_series_apply;
  df_setitem := dd_setitem;
  df_setitem_const := dd_setitem_const;
  df_rename := dd_rename
}.

(** ** The format pass *)

(** The rename table of [format_df]. *)
Definition RENAMES : list (string * string) :=
  [ ("author.name", "name");
    ("author.username", "username");
    ("author.verified", "verified");
    ("public_metrics.impression_count", "impressions");
    ("public_metrics.like_count", "likes");
    ("public_metrics.quote_count", "quotes");
    ("public_metrics.reply_count", "replies");
    ("public_metrics.retweet_count", "retweets");
    ("author.description", "user_bio") ].

Fixpoint assoc (table : list (string * string)) (c : string) : option string :=
  match table with
  | [] => None
  | (k, v) :: rest => if String.eqb k c then Some v else assoc rest c
  end.

Definition rename_column (c : string) : string :=
  default c (assoc RENAMES c).

(** The columns that [format_df] adds. *)
Definition DERIVED : list string := ["tweet_url"; "media"; "type"; "tweet_count"].

Section format_df.
Context {F S : Type} `{!DataFrameAPI F S}.

(** The statements that add the tweet_url, media and type columns.
    They appear twice in [format_df]: in the [try] block with the
    [meta] keyword, in the [except] block without it. *)
Definition add_columns (meta : bool) (username : string) (df : F)
    (incl_html : bool) : result F :=
  pair ← df_select df [username; "id"];
  urls ← df_apply pair (positional make_tweet_url) meta;
  let df := df_setitem df "tweet_url" urls in
  raw ← df_getitem df "attachments.media";
  media ← series_apply raw get_image_url meta;
  let df := df_setitem df "media" media in
  df ← (if incl_html then
          media ← df_getitem df "media";
          html ← series_apply media get_image_html meta;
          Ok (df_setitem df "media" html)
        else Ok df);
  types ← df_apply df (labelled find_tweet_type) meta;
  Ok (df_setitem df "type" types).

(** [format_df(df, incl_html)] *)
Definition format_df (df : F) (incl_html : bool) : result F :=
  let username :=
    if df_contains df "author.username" then "author.username"
    else "username" in
  df ← try_except_TypeError
         (add_columns true username df incl_html)
         (add_columns false username df incl_html);
  let df := df_setitem_const df "tweet_count" (VInt 1) in
  Ok (df_rename df rename_column).
End format_df.

(** nice columns to keep *)
Definition KEEPERS : list string :=
  [ "context_annotations";
    "created_at";
    "date";
    "in_reply_to_user_id";
    "lang";
    "likes";
    "media";
    "name";
    "quotes";
    "replies";
    "retweets";
    "text";
    "tweet_url";
    "tweet_count";
    "type";
    "user_bio";
    "username";
    "verified" ].

(** ** The column-to-dtype dictionary *)

(** A Python dict literal: a later entry for a key replaces an earlier
    one. *)
Definition dict_literal (entries : list (string * string)) : gmap string string :=
  foldl (fun m kv => <[kv.1 := kv.2]> m) ∅ entries.

(** [create_dtypes()] *)
Definition create_dtypes : gmap string string :=
  let object_dtype := "object" in
  let str_dtype := "string" in
  let int_dtype := "Int64" in
  let float_dtype := "Float64" in
  let enum_dtype := "string" in
  let dt_dtype := "object" in
  let bool_dtype := "boolean" in
  dict_literal [
      ("attachments.media", object_dtype);
      ("attachments.media_keys", object_dtype);
      ("attachments.poll.options", object_dtype);
      ("attachments.poll_ids", object_dtype);
      ("author.entities.description.cashtags", object_dtype);
      ("author.entities.description.hashtags", object_dtype);
      ("author.entities.description.mentions", object_dtype);
      ("author.entities.description.urls", object_dtype);
      ("author.entities.url.urls", object_dtype);
      ("author.withheld.country_codes", object_dtype);
      ("context_annotations", object_dtype);
      ("edit_history_tweet_ids", object_dtype);
      ("entities.annotations", object_dtype);
      ("entities.cashtags", object_dtype);
      ("entities.hashtags", object_dtype);
      ("entities.mentions", object_dtype);
      ("entities.urls", object_dtype);
      ("geo.coordinates.coordinates", object_dtype);
      ("geo.geo.bbox", object_dtype);
      ("matching_rules", object_dtype);
      ("withheld.country_codes", object_dtype);
      ("Unnamed: 78", object_dtype);
      ("attachments.poll.id", str_dtype);
      ("attachments.poll.voting_status", str_dtype);
      ("author.description", str_dtype);
      ("author.id", str_dtype);
      ("author.location", str_dtype);
      ("author.name", str_dtype);
      ("author.pinned_tweet_id", str_dtype);
      ("author.profile_image_url", str_dtype);
      ("author.url", str_dtype);
      ("author.username", str_dtype);
      ("author_id", str_dtype);
      ("conversation_id", str_dtype);
      ("geo.coordinates.type", str_dtype);
      ("geo.country", str_dtype);
      ("geo.country_code", str_dtype);
      ("geo.full_name", str_dtype);
      ("geo.geo.type", str_dtype);
      ("geo.id", str_dtype);
      ("geo.name", str_dtype);
      ("geo.place_id", str_dtype);
      ("geo.place_type", str_dtype);
      ("id", str_dtype);
      ("in_reply_to_user_id", str_dtype);
      ("lang", str_dtype);
      ("quoted_user_id", str_dtype);
      ("referenced_tweets.quoted.id", str_dtype);
      ("referenced_tweets.replied_to.id", str_dtype);
      ("referenced_tweets.retweeted.id", str_dtype);
      ("reply_settings", str_dtype);
      ("retweeted_user_id", str_dtype);
      ("source", str_dtype);
      ("text", str_dtype);
      ("__twarc.url", str_dtype);
      ("__twarc.version", str_dtype);
      ("media", str_dtype);
      ("tweet_url", str_dtype);
      ("username", str_dtype);
      ("user_bio", str_dtype);
      ("attachments.poll.duration_minutes", float_dtype);
      ("author.public_metrics.followers_count", int_dtype);
      ("author.public_metrics.following_count", int_dtype);
      ("author.public_metrics.listed_count", int_dtype);
      ("author.public_metrics.tweet_count", int_dtype);
      ("edit_controls.edits_remaining", int_dtype);
      ("public_metrics.impression_count", int_dtype);
      ("public_metrics.like_count", int_dtype);
      ("public_metrics.quote_count", int_dtype);
      ("public_metrics.reply_count", int_dtype);
      ("public_metrics.retweet_count", int_dtype);
      ("tweet_count", int_dtype);
      ("likes", int_dtype);
      ("quotes", int_dtype);
      ("replies", int_dtype);
      ("retweets", int_dtype);
      ("author.protected", bool_dtype);
      ("author.verified", bool_dtype);
      ("author.withheld.copyright", bool_dtype);
      ("edit_controls.is_edit_eligible", bool_dtype);
      ("possibly_sensitive", bool_dtype);
      ("withheld.copyright", bool_dtype);
      ("verified", bool_dtype);
      ("author.withheld.scope", enum_dtype);
      ("withheld.scope", enum_dtype);
      ("type", enum_dtype);
      ("attachments.poll.end_datetime", dt_dtype);
      ("author.created_at", dt_dtype);
      ("created_at", dt_dtype);
      ("edit_controls.editable_until", dt_dtype);
      ("__twarc.retrieved_at", dt_dtype);
      ("date", dt_dtype) ].

Definition TWITTER_DTYPES : gmap string string := create_dtypes.

(** ** Datetime columns *)

Module TWITTER_DT.

(** the strftime representation of Twitter timestamps *)
Definition parse : string := "%Y-%m-%dT%H:%M:%S.%fZ".

(** The class attribute [_columns] when the module is loaded.  The
    attribute is a list that the class methods change in place, so
    each method below takes the list as it is and returns the list
    as it leaves it. *)
Definition _columns : list string :=
  [ "attachments.poll.end_datetime";
    "author.created_at";
    "created_at";
    "edit_controls.editable_until";
    "__twarc.retrieved_at" ].

(** The property [columns]: a shallow copy of the list. *)
Definition columns (cols : list string) : list string := cols.

(** [list.append(x)] *)
Definition list_append (l : list string) (x : string) : list string :=
  l ++ [x].

(** [list.remove(x)]: the first [x] is removed; [ValueError] when
    there is none. *)
Fixpoint list_remove (l : list string) (x : string) : result (list string) :=
  match l with
  | [] => Raise ValueError
  | y :: rest =>
      if String.eqb y x then Ok rest
      else rest' ← list_remove rest x; Ok (y :: rest')
  end.

(** [incl_date()] *)
Definition incl_date (cols : list string) : list string :=
  list_append cols "date".

(** [remove_date()]: a [ValueError] is passed over, the list then
    being as it was. *)
Definition remove_date (cols : list string) : list string :=
  match list_remove cols "date" with
  | Ok cols' => cols'
  | Raise _ => cols
  end.

(** The [.dt] accessor of a series: the series must be a datetime
    series, which is one whose cells are timestamps or [NaT] and whose
    timestamps share one time zone (or are all naive). *)
Definition as_datetime (v : value) : result (option Timestamp) :=
  match v with
  | VTimestamp t => Ok (Some t)
  | VNaT => Ok None
  | _ => Raise AttributeError
  end.

Definition same_zone (tz : option Z) (c : option Timestamp) : bool :=
  match c with
  | Some t => bool_decide (ts_tz t = tz)
  | None => true
  end.

Definition zones_agree (cells : list (option Timestamp)) : bool :=
  match omap id cells with
  | [] => true
  | t :: _ => forallb (same_zone (ts_tz t)) cells
  end.

Definition dt (series : list value) : result (list (option Timestamp)) :=
  cells ← mapM as_datetime series;
  if zones_agree cells then Ok cells else Raise AttributeError.

Definition of_datetime (c : option Timestamp) : value :=
  match c with
  | Some t => VTimestamp t
  | None => VNaT
  end.

(** [Timestamp.normalize()]: the time of day is set to midnight, on
    the timestamp's own clock; the time zone is kept. *)
Definition normalize (t : Timestamp) : Timestamp :=
  let midnight := wall_ns t - wall_ns t mod NS_PER_DAY in
  match ts_tz t with
  | Some offset => mkTimestamp (midnight - offset * NS_PER_MINUTE) (Some offset)
  | None => mkTimestamp midnight None
  end.

(** [Timestamp.tz_localize(None)]: the time zone is dropped, the
    wall-clock time kept. *)
Definition tz_localize_None (t : Timestamp) : Timestamp :=
  mkTimestamp (wall_ns t) None.

(** [series.dt.normalize()] *)
Definition dt_normalize (series : list value) : result (list value) :=
  cells ← dt series;
  Ok (map (fun c => of_datetime (normalize <$> c)) cells).

(** [series.dt.tz_localize(None)] *)
Definition dt_tz_localize_None (series : list value) : result (list value) :=
  cells ← dt series;
  Ok (map (fun c => of_datetime (tz_localize_None <$> c)) cells).

(** [add_date(df)] *)
Definition add_date (df : DataFrame) : result DataFrame :=
  created_at ← pd_getitem df "created_at";
  date ← dt_normalize created_at;
  let df := pd_setitem df "date" date in
  date ← pd_getitem df "date";
  date ← dt_tz_localize_None date;
  Ok (pd_setitem df "date" date).

End TWITTER_DT.

(** ** Loading datasets *)

(** A CSV file as [pd.read_csv] sees it: the header line and the
    records, cell by cell. *)
Record CsvFile : Type := mkCsvFile {
  csv_header : list string;
  csv_records : list (list value)
}.

(** The files that can be read, by path. *)
Abbreviation FileSystem := (gmap string CsvFile).

(** A dataframe with a named index. *)
Record IndexedDataFrame : Type := mkIndexedDataFrame {
  index_name : string;
  index : list value;
  data : DataFrame
}.

(** [pd.read_csv(path, index_col=..., parse_dates=True)]: the column
    named [index_col] becomes the index and leaves the columns. *)
Definition pd_read_csv (fs : FileSystem) (path : string) (index_col : string)
    : result IndexedDataFrame :=
  match fs !! path with
  | None => Raise FileNotFoundError
  | Some file =>
      match index_of (csv_header file) index_col with
      | None => Raise ValueError
      | Some i =>
          Ok (mkIndexedDataFrame index_col
                (map (cell i) (csv_records file))
                (mkDataFrame (delete i (csv_header file))
                             (map (delete i) (csv_records file))))
      end
  end.

Fixpoint ends_with_slash (s : string) : bool :=
  match s with
  | EmptyString => false
  | String c EmptyString => Ascii.eqb c "/"%char
  | String _ rest => ends_with_slash rest
  end.

(** [os.path.join(a, b)] on POSIX paths *)
Definition op_join (a b : string) : string :=
  match b with
  | String "/"%char _ => b
  | _ =>
      match a with
      | EmptyString => b
      | _ => if ends_with_slash a then a +:+ b else a +:+ "/" +:+ b
      end
  end.

Module Data.

(** The attributes of the object.  Its storage options hold the two
    credentials of [config], which the loaders embedded here do not
    read. *)
Record t : Type := mk {
  resampled_dir : string;
  full_parquet_dataset_dir : string
}.

(** [Data(resampled_dir)] *)
Definition init (resampled_dir : string) : t :=
  mk resampled_dir "s3://melwalshtweets/full_baldwin_tweets_2006-2023/".

Definition default_resampled_dir : string := "./data/baldwin/resampled/".

(** [read_resampled_df(self, fn, index_col)] *)
Definition read_resampled_df (self : t) (fs : FileSystem) (fn : string)
    (index_col : string) : result IndexedDataFrame :=
  let fn := op_join (resampled_dir self) fn in
  pd_read_csv fs fn "date".

Definition day_count_fn : string := "day_tweet-count.csv".
Definition day_type_count_fn : string := "day_type_tweet-count.csv".
Definition day_retweet_count_fn : string := "day_retweet-count.csv".

(** [get_resampled_day_count_df(self, fn)] *)
Definition get_resampled_day_count_df (self : t) (fs : FileSystem)
    (fn : string) : result IndexedDataFrame :=
  read_resampled_df self fs fn "date".

(** [get_resampled_day_type_count_df(self, fn)] *)
Definition get_resampled_day_type_count_df (self : t) (fs : FileSystem)
    (fn : string) : result IndexedDataFrame :=
  read_resampled_df self fs fn "date".

(** [get_resampled_day_retweet_count_df(self, fn)] *)
Definition get_resampled_day_retweet_count_df (self : t) (fs : FileSystem)
    (fn : string) : result IndexedDataFrame :=
  read_resampled_df self fs fn "retweet_date".

End Data.

(** * Definitions for the properties *)

(** ** Tweet type *)

(** A cell is present when it is not a missing-value marker. *)
Definition present (v : value) : bool := negb (isna_scalar v).

(** The precedence table of the tweet types, on the presence of the
    retweeted, quoted and replied-to ids. *)
Definition tweet_type_by_precedence (retweeted quoted replied : bool) : string :=
  if retweeted then "retweet"
  else if quoted && replied then "quote/reply"
  else if quoted then "quote"
  else if replied then "reply"
  else "original".

Definition TWEET_TYPES : list string :=
  ["retweet"; "quote/reply"; "quote"; "reply"; "original"].

(** A quote of a tweet that is also a reply. *)
Definition quote_reply_tweet : Series :=
  list_to_map
    [ ("id", VStr "3"); (RETWEETED_ID, VNaN); (QUOTED_ID, VStr "1");
      (REPLIED_TO_ID, VStr "2") ].

(** ** Media markup *)

(** An anchor element and an image element, as text. *)
Definition anchor_tag (href content : string) : string :=
  "<a href='" +:+ href +:+ "'>" +:+ content +:+ "</a>".

Definition img_tag (src width : string) : string :=
  "<img src='" +:+ src +:+ "' width='" +:+ width +:+ "'>".

(** ** Media URL *)

(** The url of a media record, or the sentinel when the record has
    none. *)
Definition record_url (record : list (literal * literal)) : value :=
  match dict_lookup record (LStr "url") with
  | Some url => value_of_literal url
  | None => VStr NO_IMAGE
  end.

(** ** The tracked datetime columns *)

Fixpoint occurrences (x : string) (l : list string) : nat :=
  match l with
  | [] => O
  | y :: rest => ((if String.eqb y x then 1 else 0) + occurrences x rest)%nat
  end.

(** ** The schema map *)

(** The names that the rename table of [format_df] gives to columns. *)
Definition RENAME_TARGETS : list string := map snd RENAMES.

Definition has_dtype (c : string) : bool :=
  bool_decide (is_Some (TWITTER_DTYPES !! c)).

(** ** The resampled retweet counts *)

(** A directory of resampled files whose retweet counts are indexed by
    "retweet_date" alone, and one whose file has a "date" column too. *)
Definition retweet_counts : CsvFile :=
  mkCsvFile ["retweet_date"; "retweets"]
    [ [VStr "2023-05-01"; VInt 12]; [VStr "2023-05-02"; VInt 7] ].

Definition retweet_counts_with_date : CsvFile :=
  mkCsvFile ["retweet_date"; "date"; "retweets"]
    [ [VStr "2023-05-01"; VStr "2023-04-30"; VInt 12] ].

Definition resampled_files (file : CsvFile) : FileSystem :=
  {[ "./data/baldwin/resampled/day_retweet-count.csv" := file ]}.

(** ** The date column *)

(** Midnight of a timestamp's own day, without a time zone. *)
Definition midnight (t : Timestamp) : Timestamp :=
  mkTimestamp (wall_ns t - wall_ns t mod NS_PER_DAY) None.

(** A tweet created on 2023-05-01 at 14:32:00. *)
Definition may_day_tweets : DataFrame :=
  mkDataFrame ["id"; "created_at"]
    [ [VStr "1"; VTimestamp (timestamp_of_civil 2023 5 1 14 32 0 0)];
      [VStr "2"; VNaT] ].

(** ** Outcomes: results without the identity of the exception *)

(** Two runs of the format pass on the same data need not raise the
    same exception when several rows are at fault: pandas works column
    by column, Dask partition by partition.  [outcome] keeps what a
    computation returns and forgets which exception it raised. *)
Definition outcome {A : Type} (r : result A) : option A :=
  match r with
  | Ok a => Some a
  | Raise _ => None
  end.

(** ** The format pass, statement by statement *)

(** The four groups of statements of [add_columns], each adding one
    column. *)
Section stages.
Context {F S : Type} `{!DataFrameAPI F S}.

Definition add_tweet_url (meta : bool) (username : string) (df : F)
    : result F :=
  pair ← df_select df [username; "id"];
  urls ← df_apply pair (positional make_tweet_url) meta;
  Ok (df_setitem df "tweet_url" urls).

Definition add_media (meta : bool) (df : F) : result F :=
  raw ← df_getitem df "attachments.media";
  media ← series_apply raw get_image_url meta;
  Ok (df_setitem df "media" media).

Definition add_html (meta : bool) (incl_html : bool) (df : F) : result F :=
  if incl_html then
    media ← df_getitem df "media";
    html ← series_apply media get_image_html meta;
    Ok (df_setitem df "media" html)
  else Ok df.

Definition add_type (meta : bool) (df : F) : result F :=
  types ← df_apply df (labelled find_tweet_type) meta;
  Ok (df_setitem df "type" types).

Definition add_count_and_rename (df : F) : F :=
  df_rename (df_setitem_const df "tweet_count" (VInt 1)) rename_column.
End stages.

(** ** The format pass, row by row *)

(** One statement [df[c] = ...] of the format pass as it acts on a
    row: [g] computes the row's new cell. *)
Definition row_step (cols : list string) (c : string)
    (g : list value -> result value) (row : list value)
    : result (list value) :=
  v ← g row; Ok (row_set cols c v row).

Definition username_of (cols : list string) : string :=
  if bool_decide (is_Some (index_of cols "author.username"))
  then "author.username" else "username".

(** What each group of statements does to one row of a dataframe with
    columns [cols]. *)
Definition row_tweet_url (cols : list string) (row : list value)
    : result (list value) :=
  idxs ← mapM (locate cols) [username_of cols; "id"];
  row_step cols "tweet_url"
    (fun row => make_tweet_url (map (fun i => cell i row) idxs)) row.

Definition row_media (cols : list string) (row : list value)
    : result (list value) :=
  i ← locate cols "attachments.media";
  row_step cols "media" (fun row => get_image_url (cell i row)) row.

Definition row_html (incl_html : bool) (cols : list string)
    (row : list value) : result (list value) :=
  if incl_html then
    i ← locate cols "media";
    row_step cols "media" (fun row => get_image_html (cell i row)) row
  else Ok row.

Definition row_type (cols : list string) (row : list value)
    : result (list value) :=
  row_step cols "type" (labelled find_tweet_type cols) row.

Definition row_count (cols : list string) (row : list value)
    : result (list value) :=
  Ok (row_set cols "tweet_count" (VInt 1) row).

(** The column names while the format pass runs: after tweet_url,
    after media, after the optional markup, after type. *)
Definition columns_1 (cols : list string) : list string :=
  columns_set cols "tweet_url".
Definition columns_2 (cols : list string) : list string :=
  columns_set (columns_1 cols) "media".
Definition columns_3 (cols : list string) (incl_html : bool) : list string :=
  if incl_html then columns_set (columns_2 cols) "media" else columns_2 cols.
Definition columns_4 (cols : list string) (incl_html : bool) : list string :=
  columns_set (columns_3 cols incl_html) "type".

(** What the format pass does to one row. *)
Definition format_row (cols : list string) (incl_html : bool)
    (row : list value) : result (list value) :=
  row ← row_tweet_url cols row;
  row ← row_media (columns_1 cols) row;
  row ← row_html incl_html (columns_2 cols) row;
  row ← row_type (columns_3 cols incl_html) row;
  row_count (columns_4 cols incl_html) row.

(** The checks of column names that each group of statements makes,
    with the column names it leaves. *)
Definition check_tweet_url (cols : list string) : result (list string) :=
  _ ← mapM (locate cols) [username_of cols; "id"]; Ok (columns_1 cols).

Definition check_media (cols : list string) : result (list string) :=
  _ ← locate (columns_1 cols) "attachments.media"; Ok (columns_2 cols).

Definition check_html (cols : list string) (incl_html : bool)
    : result (list string) :=
  if incl_html then
    _ ← locate (columns_2 cols) "media"; Ok (columns_3 cols incl_html)
  else Ok (columns_3 cols incl_html).

(** The columns that the format pass returns, when the columns it
    reads exist. *)
Definition format_columns (cols : list string) (incl_html : bool)
    : result (list string) :=
  _ ← check_tweet_url cols;
  _ ← check_media cols;
  _ ← check_html cols incl_html;
  _ ← Ok (columns_4 cols incl_html);
  Ok (map rename_column
        (columns_set (columns_4 cols incl_html) "tweet_count")).

(** [G], a computation of a dataframe from rows, works row by row:
    it returns the columns that [check] returns and the rows that [step]
    makes of its rows, or raises when [check] or some [step] raises. *)
Definition rowwise (G : list (list value) -> result DataFrame)
    (check : result (list string))
    (step : list value -> result (list value)) : Prop :=
  ∀ rs, outcome (G rs)
        = outcome (cols' ← check; rs' ← mapM step rs;
                   Ok (mkDataFrame cols' rs')).

(** ** The format pass on a Dask dataframe *)

(** A Dask dataframe whose partitions are computed by [E] from the
    items of [chunks]. *)
Definition dask_over {C : Type} (chunks : list C) (cols : list string)
    (E : C -> result DataFrame) : DaskDataFrame :=
  mkDaskDataFrame cols (map E chunks).

(** ** The columns that the format pass leaves alone *)

(** The names that the rename table of [format_df] renames. *)
Definition RENAME_SOURCES : list string := map fst RENAMES.

(** What a row, its columns and one of its cells look like while the
    format pass runs: the row has a cell per column, column [i] is
    still named [c], and its cell is still [v]. *)
Definition row_kept (i : nat) (c : string) (v : value) (cols : list string)
    (row : list value) : Prop :=
  length row = length cols ∧ cols !! i = Some c ∧ cell i row = v.

(** A dataset of three tweets, with a column ("text") that the format
    pass has no business with. *)
Definition three_tweets : DataFrame :=
  mkDataFrame
    [ "id"; "author.username"; "attachments.media"; RETWEETED_ID; QUOTED_ID;
      REPLIED_TO_ID; "text" ]
    [ [ VStr "1"; VStr "ann"; VNaN; VNaN; VNaN; VNaN; VStr "hello" ];
      [ VStr "2"; VStr "bob"; VStr "[{'url': 'http://x/y.png'}]"; VNaN;
        VStr "1"; VStr "1"; VStr "hi" ];
      [ VStr "3"; VStr "cy"; VStr "[{'type': 'video'}]"; VStr "2"; VNaN;
        VNaN; VStr "rt" ] ].

Definition three_tweets_formatted : DataFrame :=
  mkDataFrame
    [ "id"; "username"; "attachments.media"; RETWEETED_ID; QUOTED_ID;
      REPLIED_TO_ID; "text"; "tweet_url"; "media"; "type"; "tweet_count" ]
    [ [ VStr "1"; VStr "ann"; VNaN; VNaN; VNaN; VNaN; VStr "hello";
        VStr "https://twitter.com/ann/status/1"; VStr "No image URL";
        VStr "original"; VInt 1 ];
      [ VStr "2"; VStr "bob"; VStr "[{'url': 'http://x/y.png'}]"; VNaN;
        VStr "1"; VStr "1"; VStr "hi";
        VStr "https://twitter.com/bob/status/2"; VStr "http://x/y.png";
        VStr "quote/reply"; VInt 1 ];
      [ VStr "3"; VStr "cy"; VStr "[{'type': 'video'}]"; VStr "2"; VNaN;
        VNaN; VStr "rt"; VStr "https://twitter.com/cy/status/3";
        VStr "No image URL"; VStr "retweet"; VInt 1 ] ].

(** ** The columns that the format pass adds *)

(** The cell of a row under the column named [c]. *)
Definition cell_of (cols : list string) (c : string) (row : list value)
    : value :=
  match index_of cols c with
  | Some i => cell i row
  | None => VNaN
  end.

(** The row as the [Series] that a row function receives. *)
Definition row_series (cols : list string) (row : list value) : Series :=
  list_to_map (zip cols row).

(** The link of a tweet, from the username and id cells of its row. *)
Definition tweet_url_of (cols : list string) (row : list value) : value :=
  VStr ("https://twitter.com/"
        +:+ py_str (cell_of cols (username_of cols) row)
        +:+ "/status/" +:+ py_str (cell_of cols "id" row)).

(** The media cell of a row: the url of its media, as markup when
    [incl_html] is set. *)
Definition media_of (cols : list string) (incl_html : bool)
    (row : list value) : result value :=
  url ← get_image_url (cell_of cols "attachments.media" row);
  if incl_html then get_image_html url else Ok url.

(** The column names that the format pass leaves. *)
Definition columns_5 (cols : list string) (incl_html : bool) : list string :=
  columns_set (columns_4 cols incl_html) "tweet_count".

(** ** Further datasets and predicates *)

(** Three tweets whose authors have a name. *)
Definition named_tweets : DataFrame :=
  mkDataFrame
    [ "id"; "author.username"; "author.name"; "attachments.media";
      RETWEETED_ID; QUOTED_ID; REPLIED_TO_ID ]
    [ [ VStr "1"; VStr "ann"; VStr "Ann A."; VNaN; VNaN; VNaN; VNaN ];
      [ VStr "2"; VStr "bob"; VNA; VNaN; VStr "1"; VNaN; VNaN ] ].

Definition named_tweets_formatted : DataFrame :=
  Eval vm_compute in
    match format_df named_tweets false with
    | Ok out => out
    | Raise _ => named_tweets
    end.

(** Tweets without an "id" column. *)
Definition tweets_without_id : list string :=
  [ "author.username"; "attachments.media"; RETWEETED_ID; QUOTED_ID;
    REPLIED_TO_ID ].

(** Two partitions, the second with a media cell that is the text of
    an empty list. *)
Definition tweets_columns : list string :=
  [ "id"; "username"; "attachments.media"; RETWEETED_ID; QUOTED_ID;
    REPLIED_TO_ID ].

Definition good_chunk : list (list value) :=
  [ [ VStr "1"; VStr "ann"; VNaN; VNaN; VNaN; VNaN ] ].

Definition bad_chunk : list (list value) :=
  [ [ VStr "2"; VStr "bob"; VStr "[]"; VNaN; VNaN; VNaN ] ].

(** The dataframe has the columns that the format pass reads. *)
Definition has_read_columns (cols : list string) : Prop :=
  is_Some (index_of cols (username_of cols))
  ∧ is_Some (index_of cols "id")
  ∧ is_Some (index_of cols "attachments.media").

(** The row's media cell decodes and the row can be classified. *)
Definition formattable_row (cols : list string) (row : list value) : Prop :=
  is_Some (outcome (get_image_url (cell_of cols "attachments.media" row)))
  ∧ is_Some (outcome (find_tweet_type (row_series cols row))).

(** ** The tracked datetime columns as a shared list *)

(** The class attribute [_columns] holds one Python list, which
    [incl_date] and [remove_date] change in place and of which the
    property [columns] hands out copies.  A heap of lists, by address,
    tells the list from its copies.  (Reading an address that the heap
    does not hold gives the empty list; the addresses that the methods
    below use are held.) *)
Module Shared.

Abbreviation heap := (gmap nat (list string)).

(** The heap, and the address that the class attribute [_columns]
    holds. *)
Record state : Type := mk {
  lists : heap;
  _columns : nat
}.

(** The state when the module is loaded. *)
Definition initial : state := mk {[ O := TWITTER_DT._columns ]} O.

(** [l.copy()]: a new list with the items of [l], at an address that
    the heap does not use yet. *)
Definition list_copy (h : heap) (a : nat) : nat * heap :=
  let a' := fresh (dom h) in (a', <[a' := h !!! a]> h).

(** [l.append(x)], in place *)
Definition list_append (h : heap) (a : nat) (x : string) : heap :=
  <[a := TWITTER_DT.list_append (h !!! a) x]> h.

(** The property [columns]: [self._columns.copy()] *)
Definition columns (st : state) : nat * state :=
  let (a, h) := list_copy (lists st) (_columns st) in
  (a, mk h (_columns st)).

(** [incl_date()]: [cls._columns.append('date')] *)
Definition incl_date (st : state) : state :=
  mk (list_append (lists st) (_columns st) "date") (_columns st).

(** [remove_date()]: [cls._columns.remove('date')], a [ValueError]
    passed over *)
Definition remove_date (st : state) : state :=
  mk (<[_columns st := TWITTER_DT.remove_date (lists st !!! _columns st)]>
        (lists st))
     (_columns st).

End Shared.

(** * Properties *)

(** ** Tweet type *)

Lemma not_isna_scalar (v : value) :
  is_scalar_cell v = true -> not_isna v = Ok (present v).
Proof. destruct v; simpl; intros H; try reflexivity; discriminate. Qed.

Lemma tweet_type_by_precedence_in (a b c : bool) :
  tweet_type_by_precedence a b c ∈ TWEET_TYPES.
Proof.
  unfold TWEET_TYPES. destruct a, b, c; simpl; rewrite !elem_of_cons; tauto.
Qed.

(** A present retweeted id decides the type, whatever the row holds
    elsewhere (the other two ids may even be missing columns). *)
Lemma find_tweet_type_retweet (tweet : Series) (r : value) :
  tweet !! RETWEETED_ID = Some r ->
  is_scalar_cell r = true ->
  present r = true ->
  find_tweet_type tweet = Ok (VStr "retweet").
Proof.
  intros Hr Hs Hp. unfold find_tweet_type, series_get. rewrite Hr. simpl.
  rewrite (not_isna_scalar r Hs), Hp. reflexivity.
Qed.

(** C1.  For a row whose three referenced-tweet id cells are [r]
    (retweeted), [q] (quoted) and [p] (replied-to), [find_tweet_type]
    returns the type that the precedence table gives: "retweet" when [r]
    is present, else "quote/reply" when [q] and [p] are present, else
    "quote" when [q] is present, else "reply" when [p] is present, else
    "original"; and that type is one of the five tweet types. *)
Theorem find_tweet_type_precedence (tweet : Series) (r q p : value) :
  tweet !! RETWEETED_ID = Some r ->
  tweet !! QUOTED_ID = Some q ->
  tweet !! REPLIED_TO_ID = Some p ->
  is_scalar_cell r = true ->
  is_scalar_cell q = true ->
  is_scalar_cell p = true ->
  find_tweet_type tweet
    = Ok (VStr (tweet_type_by_precedence (present r) (present q) (present p)))
  ∧ tweet_type_by_precedence (present r) (present q) (present p) ∈ TWEET_TYPES.
Proof.
  intros Hr Hq Hp Sr Sq Sp. split; [| apply tweet_type_by_precedence_in].
  unfold find_tweet_type, series_get. rewrite Hr, Hq, Hp. simpl.
  rewrite (not_isna_scalar r Sr), (not_isna_scalar q Sq), (not_isna_scalar p Sp).
  unfold tweet_type_by_precedence.
  destruct (present r), (present q), (present p); reflexivity.
Qed.

(** C1 on a row that quotes one tweet and replies to another. *)
Lemma find_tweet_type_precedence_witness :
  find_tweet_type quote_reply_tweet = Ok (VStr "quote/reply")
  ∧ "quote/reply" ∈ TWEET_TYPES.
Proof.
  apply (find_tweet_type_precedence quote_reply_tweet VNaN (VStr "1") (VStr "2"));
    reflexivity.
Defined.

(** The retweet check wins over a present quoted id. *)
Example find_tweet_type_retweet_wins :
  find_tweet_type
    (list_to_map [ (RETWEETED_ID, VStr "7"); (QUOTED_ID, VStr "1");
                   (REPLIED_TO_ID, VNaN) ])
  = Ok (VStr "retweet").
Proof. reflexivity. Qed.

(** ** Tweet URL *)

(** C6.  For every pair of cells (username, tweet id),
    [make_tweet_url] returns the text "https://twitter.com/", the
    username as [str] writes it, "/status/", and the id as [str] writes
    it; for a username and an id that are text, these are the two texts
    themselves. *)
Theorem make_tweet_url_exact (username tweet_id : value) :
  make_tweet_url [username; tweet_id]
    = Ok (VStr ("https://twitter.com/" +:+ py_str username
                +:+ "/status/" +:+ py_str tweet_id))
  ∧ ∀ u i : string,
      make_tweet_url [VStr u; VStr i]
        = Ok (VStr ("https://twitter.com/" +:+ u +:+ "/status/" +:+ i)).
Proof. split; reflexivity. Qed.

Example make_tweet_url_jack :
  make_tweet_url [VStr "jack"; VStr "20"]
  = Ok (VStr "https://twitter.com/jack/status/20").
Proof. reflexivity. Qed.

(** ** Media markup *)

Lemma append_assoc (a b c : string) : (a +:+ b) +:+ c = a +:+ (b +:+ c).
Proof.
  induction a as [| x a IH]; [reflexivity |].
  change (String x ((a +:+ b) +:+ c) = String x (a +:+ (b +:+ c))).
  now rewrite IH.
Qed.

(** C8.  On text, [get_image_html] returns the sentinel "No image URL"
    as it is, and wraps any other text [url] in an anchor element whose
    href is [url] and whose content is an apostrophe followed by an
    image element with src [url] and width 500px. *)
Theorem get_image_html_markup (url : string) :
  get_image_html (VStr url)
    = Ok (VStr (if String.eqb url NO_IMAGE then url
                else anchor_tag url ("'" +:+ img_tag url "500px"))).
Proof.
  unfold get_image_html, ne_NO_IMAGE. simpl.
  destruct (String.eqb url NO_IMAGE); simpl; [reflexivity |].
  unfold anchor_tag, img_tag. simpl. do 2 f_equal.
  rewrite !append_assoc. simpl. reflexivity.
Qed.

Example get_image_html_real_url :
  get_image_html (VStr "http://x/y.png")
  = Ok (VStr "<a href='http://x/y.png'>'<img src='http://x/y.png' width='500px'></a>").
Proof. reflexivity. Qed.

Example get_image_html_sentinel :
  get_image_html (VStr NO_IMAGE) = Ok (VStr NO_IMAGE).
Proof. reflexivity. Qed.

(** ** Media URL *)

Lemma isna_scalar_not_isna (media : value) :
  isna_scalar media = true -> not_isna media = Ok false.
Proof. destruct media; simpl; intros H; try discriminate; reflexivity. Qed.

Lemma literal_eval_text (media : value) (x : literal) :
  literal_eval media = Ok x -> ∃ s, media = VStr s.
Proof. destruct media; simpl; intros H; try discriminate. eauto. Qed.

(** C2, as the code has it.  [get_image_url] returns a value on a
    missing-value marker (the sentinel "No image URL") and on text that
    decodes to a list whose first element is a record (the record's url
    when it has one, the sentinel when it has none). *)
Theorem get_image_url_decodable (media : value)
    (record : list (literal * literal)) (rest : list literal) :
  isna_scalar media = true
  ∨ literal_eval media = Ok (LList (LDict record :: rest)) ->
  get_image_url media
    = Ok (if isna_scalar media then VStr NO_IMAGE else record_url record).
Proof.
  intros [Hna | Hdec]; unfold get_image_url.
  - rewrite (isna_scalar_not_isna media Hna), Hna. reflexivity.
  - destruct (literal_eval_text media _ Hdec) as [s ->].
    rewrite Hdec. simpl. unfold record_url.
    destruct (dict_lookup record (LStr "url")); reflexivity.
Qed.

(** C2 on the text of a list of one record with a url. *)
Lemma get_image_url_decodable_witness :
  get_image_url (VStr "[{'url': 'http://x/y.png'}]") = Ok (VStr "http://x/y.png").
Proof.
  apply (get_image_url_decodable (VStr "[{'url': 'http://x/y.png'}]")
           [(LStr "url", LStr "http://x/y.png")] []).
  right. reflexivity.
Defined.

(** C2 does not hold as stated: [get_image_url] raises on the text of
    an empty list ([IndexError] from the subscript) and on text that is
    not a literal (from [literal_eval]). *)
Lemma get_image_url_raises :
  get_image_url (VStr "[]") = Raise IndexError
  ∧ get_image_url (VStr "not a list") = Raise LiteralError.
Proof. split; reflexivity. Qed.

(** More generally: on text, whatever [literal_eval] raises is raised,
    and text that decodes to an empty list raises [IndexError]. *)
Lemma get_image_url_undecodable (s : string) (e : exn) :
  literal_eval (VStr s) = Raise e ∨ (literal_eval (VStr s) = Ok (LList []) ∧ e = IndexError) ->
  get_image_url (VStr s) = Raise e.
Proof.
  unfold get_image_url. cbn [not_isna isna_scalar negb mbind result_bind].
  intros [-> | [-> ->]]; reflexivity.
Qed.

Example get_image_url_missing : get_image_url VNaN = Ok (VStr NO_IMAGE).
Proof. reflexivity. Qed.

Example get_image_url_no_url_key :
  get_image_url (VStr "[{'media_key': '3_1', 'type': 'video'}]")
  = Ok (VStr NO_IMAGE).
Proof. reflexivity. Qed.

Example get_image_url_first_record :
  get_image_url
    (VStr "[{'type': 'photo', 'url': 'https://pbs.twimg.com/media/a.jpg', 'width': 1200}, {'url': 'b'}]")
  = Ok (VStr "https://pbs.twimg.com/media/a.jpg").
Proof. reflexivity. Qed.

(** ** The tracked datetime columns *)

Lemma occurrences_app (x : string) (l l' : list string) :
  occurrences x (l ++ l') = (occurrences x l + occurrences x l')%nat.
Proof. induction l as [| y l IH]; simpl; [reflexivity | rewrite IH; lia]. Qed.

(** C3, as the code has it.  Each call of [incl_date] appends one
    "date" entry to the tracked list: after two calls the list is the
    starting list followed by two "date" entries, and holds two more
    "date" entries than it started with. *)
Theorem incl_date_appends (cols : list string) :
  TWITTER_DT.incl_date (TWITTER_DT.incl_date cols) = cols ++ ["date"; "date"]
  ∧ occurrences "date" (TWITTER_DT.incl_date cols)
    = (occurrences "date" cols + 1)%nat
  ∧ occurrences "date" (TWITTER_DT.incl_date (TWITTER_DT.incl_date cols))
    = (occurrences "date" cols + 2)%nat.
Proof.
  unfold TWITTER_DT.incl_date, TWITTER_DT.list_append.
  rewrite <- app_assoc. simpl. repeat split.
  - rewrite occurrences_app. reflexivity.
  - rewrite occurrences_app. reflexivity.
Qed.

(** C3 does not hold as stated: from the list the module starts with,
    two calls of [incl_date] leave two "date" entries, where one call
    leaves one. *)
Lemma incl_date_twice_two_entries :
  occurrences "date"
    (TWITTER_DT.incl_date (TWITTER_DT.incl_date TWITTER_DT._columns)) = 2%nat
  ∧ occurrences "date" (TWITTER_DT.incl_date TWITTER_DT._columns) = 1%nat.
Proof. split; reflexivity. Qed.

(** Removing "date" from a list without it leaves the list as it
    is. *)
Lemma remove_date_absent (cols : list string) :
  occurrences "date" cols = O -> TWITTER_DT.remove_date cols = cols.
Proof.
  intros H. unfold TWITTER_DT.remove_date.
  assert (TWITTER_DT.list_remove cols "date" = Raise ValueError) as ->; [| reflexivity].
  induction cols as [| y cols IH]; simpl in *; [reflexivity |].
  destruct (String.eqb y "date"); [discriminate |].
  rewrite IH; [reflexivity | lia].
Qed.

(** ** The schema map *)

(** C4 at the columns it fails on.  The schema map has no entry for
    "name" and none for "impressions", two names that the rename table
    of [format_df] gives to columns. *)
Theorem create_dtypes_lacks_name_and_impressions :
  "name" ∈ RENAME_TARGETS ∧ create_dtypes !! "name" = None
  ∧ "impressions" ∈ RENAME_TARGETS ∧ create_dtypes !! "impressions" = None.
Proof.
  repeat split; try reflexivity;
    unfold RENAME_TARGETS; simpl; rewrite !elem_of_cons; tauto.
Qed.

(** Every other name that exists after the format pass has an entry:
    the four derived columns and the other seven rename targets. *)
Lemma create_dtypes_covers_the_rest :
  filter (fun c => has_dtype c = false) (DERIVED ++ RENAME_TARGETS)
  = ["name"; "impressions"].
Proof. vm_compute. reflexivity. Qed.

(** ** The resampled retweet counts *)

(** [read_resampled_df] reads with the index column "date", whatever
    index column it is given. *)
Lemma read_resampled_df_ignores_index_col (self : Data.t) (fs : FileSystem)
    (fn index_col : string) :
  Data.read_resampled_df self fs fn index_col
  = pd_read_csv fs (op_join (Data.resampled_dir self) fn) "date".
Proof. reflexivity. Qed.

(** C5 at a failing input.  On a file whose date column is named
    "retweet_date", the loader of the day retweet counts raises
    [ValueError] (there is no "date" column to index by); on a file
    that has a "date" column as well, the result is indexed by "date",
    not by "retweet_date". *)
Theorem get_resampled_day_retweet_count_df_indexes_by_date :
  Data.get_resampled_day_retweet_count_df
    (Data.init Data.default_resampled_dir) (resampled_files retweet_counts)
    Data.day_retweet_count_fn
  = Raise ValueError
  ∧ index_name <$>
      Data.get_resampled_day_retweet_count_df
        (Data.init Data.default_resampled_dir)
        (resampled_files retweet_counts_with_date)
        Data.day_retweet_count_fn
    = Ok "date".
Proof. split; reflexivity. Qed.

(** ** Lists of fallible computations *)

Section mapM_result.
Context {A B : Type}.
Implicit Types (f : A -> result B) (l : list A).

Lemma mapM_cons f x l :
  mapM f (x :: l) = y ← f x; k ← mapM f l; Ok (y :: k).
Proof. reflexivity. Qed.

Lemma mapM_ok_length f l (l' : list B) :
  mapM f l = Ok l' -> length l' = length l.
Proof.
  revert l'. induction l as [| x l IH]; intros l' H.
  - injection H as <-. reflexivity.
  - rewrite mapM_cons in H. destruct (f x) as [y |]; [| discriminate].
    simpl in H. destruct (mapM f l) as [k |]; [| discriminate].
    injection H as <-. simpl. f_equal. apply IH. reflexivity.
Qed.

Lemma mapM_app f l1 l2 :
  mapM f (l1 ++ l2) = a ← mapM f l1; b ← mapM f l2; Ok (a ++ b).
Proof.
  induction l1 as [| x l1 IH].
  - simpl. destruct (mapM f l2); reflexivity.
  - rewrite <- app_comm_cons, !mapM_cons, IH.
    destruct (f x); [| reflexivity]. simpl.
    destruct (mapM f l1); [| reflexivity]. simpl.
    destruct (mapM f l2); reflexivity.
Qed.

Lemma mapM_all_ok f (g : A -> B) l :
  (∀ x, x ∈ l -> f x = Ok (g x)) -> mapM f l = Ok (map g l).
Proof.
  induction l as [| x l IH]; intros H; [reflexivity |].
  rewrite mapM_cons, (H x), IH.
  - reflexivity.
  - intros y Hy. apply H. now right.
  - now left.
Qed.
End mapM_result.

Lemma mapM_map {A B C : Type} (f : B -> result C) (g : A -> B) (l : list A) :
  mapM f (map g l) = mapM (fun x => f (g x)) l.
Proof.
  induction l as [| x l IH]; [reflexivity |].
  simpl map. rewrite !mapM_cons, IH. reflexivity.
Qed.

(** ** Columns of a well-formed dataframe *)

Lemma index_of_lookup (cols : list string) (c : string) (i : nat) :
  index_of cols c = Some i -> cols !! i = Some c.
Proof.
  revert i. induction cols as [| c' cols IH]; intros i H; [discriminate |].
  simpl in H. destruct (String.eqb_spec c' c) as [-> | Hne].
  - injection H as <-. reflexivity.
  - destruct (index_of cols c) as [j |]; [| discriminate].
    injection H as <-. simpl. apply IH. reflexivity.
Qed.

Lemma index_of_lt (cols : list string) (c : string) (i : nat) :
  index_of cols c = Some i -> (i < length cols)%nat.
Proof. intros H. eapply lookup_lt_Some, index_of_lookup, H. Qed.

Lemma index_of_None (cols : list string) (c : string) :
  index_of cols c = None -> c ∉ cols.
Proof.
  induction cols as [| c' cols IH]; intros H; [apply not_elem_of_nil |].
  simpl in H. destruct (String.eqb_spec c' c) as [-> | Hne]; [discriminate |].
  destruct (index_of cols c); [discriminate |].
  rewrite not_elem_of_cons. split; [congruence | now apply IH].
Qed.

Lemma index_of_app_fresh (cols : list string) (c : string) :
  index_of cols c = None -> index_of (cols ++ [c]) c = Some (length cols).
Proof.
  induction cols as [| c' cols IH]; intros H; simpl.
  - now rewrite String.eqb_refl.
  - simpl in H. destruct (String.eqb c' c); [discriminate |].
    destruct (index_of cols c); [discriminate |]. now rewrite IH.
Qed.

Lemma index_of_app_old (cols : list string) (c c' : string) (i : nat) :
  index_of cols c = Some i -> index_of (cols ++ [c']) c = Some i.
Proof.
  revert i. induction cols as [| d cols IH]; intros i H; [discriminate |].
  simpl in *. destruct (String.eqb d c); [assumption |].
  destruct (index_of cols c) as [j |]; [| discriminate].
  now rewrite (IH j).
Qed.

(** Where column [c] is after [df[c] = ...]. *)
Lemma index_of_columns_set (cols : list string) (c : string) :
  ∃ j, index_of (columns_set cols c) c = Some j
       ∧ (j < length (columns_set cols c))%nat
       ∧ (index_of cols c = None -> j = length cols).
Proof.
  unfold columns_set. destruct (index_of cols c) as [i |] eqn:E.
  - exists i. rewrite E. split; [reflexivity |].
    split; [eapply index_of_lt, E | discriminate].
  - exists (length cols). rewrite index_of_app_fresh by assumption.
    rewrite length_app. simpl. split; [reflexivity |]. split; [lia | reflexivity].
Qed.

Lemma cell_row_set (cols : list string) (c : string) (v : value)
    (row : list value) (j : nat) :
  index_of (columns_set cols c) c = Some j ->
  length row = length cols ->
  cell j (row_set cols c v row) = v.
Proof.
  unfold columns_set, row_set, cell. intros Hj Hlen.
  destruct (index_of cols c) as [i |] eqn:E.
  - rewrite E in Hj. injection Hj as <-.
    rewrite list_lookup_insert_eq; [reflexivity |].
    rewrite Hlen. eapply index_of_lt, E.
  - rewrite index_of_app_fresh in Hj by assumption. injection Hj as <-.
    rewrite <- Hlen. rewrite lookup_app_r by lia.
    now rewrite Nat.sub_diag.
Qed.

Lemma length_row_set (cols : list string) (c : string) (v : value)
    (row : list value) :
  length row = length cols ->
  length (row_set cols c v row) = length (columns_set cols c).
Proof.
  unfold columns_set, row_set. intros H.
  destruct (index_of cols c).
  - now rewrite length_insert.
  - rewrite !length_app. simpl. lia.
Qed.

Lemma NoDup_columns_set (cols : list string) (c : string) :
  NoDup cols -> NoDup (columns_set cols c).
Proof.
  unfold columns_set. intros H. destruct (index_of cols c) eqn:E; [assumption |].
  apply NoDup_app. split; [assumption |]. split.
  - intros x Hx Hc. apply list_elem_of_singleton in Hc as ->.
    now apply index_of_None in E.
  - apply NoDup_singleton.
Qed.

Lemma Forall_zip_with_row_set (cols : list string) (c : string)
    (rs : list (list value)) (vals : list value) :
  Forall (fun row => length row = length cols) rs ->
  Forall (fun row => length row = length (columns_set cols c))
         (zip_with (fun row v => row_set cols c v row) rs vals).
Proof.
  intros H. revert vals. induction H as [| row rs Hrow _ IH]; intros vals.
  - constructor.
  - destruct vals as [| v vals]; [constructor |]. simpl.
    constructor; [now apply length_row_set | apply IH].
Qed.

Lemma well_formed_setitem (df : DataFrame) (c : string) (vals : list value) :
  well_formed df -> well_formed (pd_setitem df c vals).
Proof.
  intros [Hnd Hrows]. split; simpl.
  - now apply NoDup_columns_set.
  - now apply Forall_zip_with_row_set.
Qed.

Lemma length_rows_setitem (df : DataFrame) (c : string) (vals : list value) :
  length vals = length (rows df) ->
  length (rows (pd_setitem df c vals)) = length (rows df).
Proof. intros H. simpl. rewrite length_zip_with. lia. Qed.

Lemma pd_getitem_length (df : DataFrame) (c : string) (vals : list value) :
  pd_getitem df c = Ok vals -> length vals = length (rows df).
Proof.
  unfold pd_getitem. destruct (locate (columns df) c); [| discriminate].
  simpl. intros H. injection H as <-. apply length_map.
Qed.

(** Reading back the column that was just set. *)
Lemma pd_getitem_setitem (df : DataFrame) (c : string) (vals : list value) :
  well_formed df ->
  length vals = length (rows df) ->
  pd_getitem (pd_setitem df c vals) c = Ok vals.
Proof.
  intros [_ Hrows] Hlen. unfold pd_getitem, locate. simpl.
  destruct (index_of_columns_set (columns df) c) as (j & Hj & _).
  rewrite Hj. simpl. f_equal.
  revert vals Hlen. induction Hrows as [| row rs Hrow _ IH]; intros vals Hlen.
  - destruct vals; [reflexivity | discriminate].
  - destruct vals as [| v vals]; [discriminate |]. simpl.
    rewrite (cell_row_set _ _ _ _ _ Hj Hrow). f_equal. apply IH.
    simpl in Hlen. lia.
Qed.

(** ** The date column *)

Lemma tz_localize_None_normalize (t : Timestamp) :
  TWITTER_DT.tz_localize_None (TWITTER_DT.normalize t) = midnight t.
Proof.
  unfold TWITTER_DT.tz_localize_None, TWITTER_DT.normalize, midnight.
  destruct t as [v [offset |]]; unfold wall_ns; simpl; f_equal; lia.
Qed.

Lemma ts_tz_normalize (t : Timestamp) :
  ts_tz (TWITTER_DT.normalize t) = ts_tz t.
Proof. destruct t as [v [offset |]]; reflexivity. Qed.

(** [midnight t] is naive, is a whole number of days, and is the
    start of the day that holds the wall-clock time of [t]. *)
Lemma midnight_start_of_day (t : Timestamp) :
  ts_tz (midnight t) = None
  ∧ ts_value (midnight t) mod NS_PER_DAY = 0
  ∧ ts_value (midnight t) <= wall_ns t < ts_value (midnight t) + NS_PER_DAY.
Proof.
  unfold midnight. simpl.
  assert (0 < NS_PER_DAY) as Hpos by reflexivity.
  pose proof (Z.mod_pos_bound (wall_ns t) NS_PER_DAY Hpos) as Hb.
  split; [reflexivity |]. split; [| lia].
  rewrite Zminus_mod_idemp_r, Z.sub_diag. reflexivity.
Qed.

Lemma forallb_same_zone_map (f : Timestamp -> Timestamp) (tz tz' : option Z)
    (cells : list (option Timestamp)) :
  (∀ t, ts_tz t = tz -> ts_tz (f t) = tz') ->
  forallb (TWITTER_DT.same_zone tz) cells = true ->
  forallb (TWITTER_DT.same_zone tz') (map (fmap f) cells) = true.
Proof.
  intros Hf. induction cells as [| c cells IH]; [reflexivity |].
  simpl. rewrite !andb_true_iff. intros [Hc Hrest]. split; [| now apply IH].
  destruct c as [t |]; [| reflexivity]. simpl in *.
  apply bool_decide_eq_true in Hc. apply bool_decide_eq_true. now apply Hf.
Qed.

Lemma omap_id_fmap (f : Timestamp -> Timestamp) (cells : list (option Timestamp)) :
  omap id (map (fmap f) cells) = map f (omap id cells).
Proof.
  induction cells as [| [t |] cells IH]; simpl; [reflexivity | | assumption].
  f_equal. exact IH.
Qed.

(** A function on timestamps whose result zone depends on the zone
    only keeps a datetime series a datetime series. *)
Lemma zones_agree_map (f : Timestamp -> Timestamp)
    (cells : list (option Timestamp)) :
  (∀ t t', ts_tz t = ts_tz t' -> ts_tz (f t) = ts_tz (f t')) ->
  TWITTER_DT.zones_agree cells = true ->
  TWITTER_DT.zones_agree (map (fmap f) cells) = true.
Proof.
  unfold TWITTER_DT.zones_agree. intros Hf. rewrite omap_id_fmap.
  destruct (omap id cells) as [| t ts]; [reflexivity |]. simpl.
  apply forallb_same_zone_map. intros t' Ht'. symmetry. apply Hf. now symmetry.
Qed.

Lemma mapM_as_datetime_of_datetime (cells : list (option Timestamp)) :
  mapM TWITTER_DT.as_datetime (map TWITTER_DT.of_datetime cells) = Ok cells.
Proof.
  rewrite mapM_map.
  rewrite (mapM_all_ok _ id); [now rewrite map_id |].
  intros [t |] _; reflexivity.
Qed.

Lemma dt_zones_agree (series : list value) (cells : list (option Timestamp)) :
  TWITTER_DT.dt series = Ok cells ->
  TWITTER_DT.zones_agree cells = true ∧ length cells = length series.
Proof.
  unfold TWITTER_DT.dt. intros H.
  destruct (mapM TWITTER_DT.as_datetime series) as [cs |] eqn:E; [| discriminate].
  simpl in H. destruct (TWITTER_DT.zones_agree cs) eqn:Z; [| discriminate].
  injection H as <-. split; [assumption | eapply mapM_ok_length, E].
Qed.

Lemma dt_of_datetime_map (f : Timestamp -> Timestamp)
    (cells : list (option Timestamp)) :
  (∀ t t', ts_tz t = ts_tz t' -> ts_tz (f t) = ts_tz (f t')) ->
  TWITTER_DT.zones_agree cells = true ->
  TWITTER_DT.dt (map (fun c => TWITTER_DT.of_datetime (f <$> c)) cells)
  = Ok (map (fmap f) cells).
Proof.
  intros Hf Hz. unfold TWITTER_DT.dt.
  rewrite <- (map_map (fmap f) TWITTER_DT.of_datetime).
  rewrite mapM_as_datetime_of_datetime. simpl.
  now rewrite zones_agree_map.
Qed.

(** C7.  On a well-formed dataframe whose "created_at" column is a
    datetime series, [add_date] returns a dataframe whose "date" column
    holds, row by row, midnight of the day of the row's "created_at"
    timestamp, with no time zone ([NaT] where the timestamp is [NaT]);
    that midnight is a whole number of days and is the start of the day
    holding the timestamp's wall-clock time. *)
Theorem add_date_midnight (df : DataFrame) (created_at : list value)
    (cells : list (option Timestamp)) :
  well_formed df ->
  pd_getitem df "created_at" = Ok created_at ->
  TWITTER_DT.dt created_at = Ok cells ->
  (∃ df',
      TWITTER_DT.add_date df = Ok df'
      ∧ pd_getitem df' "date"
        = Ok (map (fun c => TWITTER_DT.of_datetime (midnight <$> c)) cells))
  ∧ ∀ t, ts_tz (midnight t) = None
         ∧ ts_value (midnight t) mod NS_PER_DAY = 0
         ∧ ts_value (midnight t) <= wall_ns t < ts_value (midnight t) + NS_PER_DAY.
Proof.
  intros Hwf Hget Hdt. split; [| apply midnight_start_of_day].
  destruct (dt_zones_agree _ _ Hdt) as [Hz Hlen].
  pose proof (pd_getitem_length _ _ _ Hget) as Hrows.
  unfold TWITTER_DT.add_date, TWITTER_DT.dt_normalize, TWITTER_DT.dt_tz_localize_None.
  rewrite Hget. simpl. rewrite Hdt. simpl.
  set (date := map (fun c => TWITTER_DT.of_datetime (TWITTER_DT.normalize <$> c)) cells).
  assert (length date = length (rows df)) as Hdate.
  { unfold date. rewrite length_map. congruence. }
  rewrite (pd_getitem_setitem df "date" date Hwf Hdate). simpl.
  assert (TWITTER_DT.dt date = Ok (map (fmap TWITTER_DT.normalize) cells)) as ->.
  { apply dt_of_datetime_map; [| assumption].
    intros t t' H. now rewrite !ts_tz_normalize. }
  simpl. rewrite map_map. eexists. split; [reflexivity |].
  rewrite pd_getitem_setitem.
  - f_equal. apply map_ext. intros [t |]; simpl; [| reflexivity].
    now rewrite tz_localize_None_normalize.
  - now apply well_formed_setitem.
  - rewrite length_map, length_rows_setitem by assumption. congruence.
Qed.

Lemma well_formed_may_day_tweets : well_formed may_day_tweets.
Proof.
  split.
  - apply (bool_decide_unpack _). reflexivity.
  - repeat constructor.
Qed.

(** C7 on two tweets, one created on 2023-05-01 at 14:32:00, one
    without a timestamp. *)
Lemma add_date_midnight_witness :
  (∃ df',
      TWITTER_DT.add_date may_day_tweets = Ok df'
      ∧ pd_getitem df' "date"
        = Ok [VTimestamp (timestamp_of_civil 2023 5 1 0 0 0 0); VNaT])
  ∧ ∀ t, ts_tz (midnight t) = None
         ∧ ts_value (midnight t) mod NS_PER_DAY = 0
         ∧ ts_value (midnight t) <= wall_ns t < ts_value (midnight t) + NS_PER_DAY.
Proof.
  apply (add_date_midnight may_day_tweets
           [VTimestamp (timestamp_of_civil 2023 5 1 14 32 0 0); VNaT]
           [Some (timestamp_of_civil 2023 5 1 14 32 0 0); None]).
  - exact well_formed_may_day_tweets.
  - reflexivity.
  - reflexivity.
Defined.

(** The timestamp 2023-05-01T14:32:00.000Z, read as UTC or read as a
    naive timestamp, yields naive midnight of May 1 2023. *)
Example add_date_may_day :
  TWITTER_DT.add_date may_day_tweets
  = Ok (mkDataFrame ["id"; "created_at"; "date"]
          [ [VStr "1"; VTimestamp (timestamp_of_civil 2023 5 1 14 32 0 0);
             VTimestamp (timestamp_of_civil 2023 5 1 0 0 0 0)];
            [VStr "2"; VNaT; VNaT] ])
  ∧ midnight (mkTimestamp (ts_value (timestamp_of_civil 2023 5 1 14 32 0 0)) (Some 0))
    = timestamp_of_civil 2023 5 1 0 0 0 0
  ∧ py_str (VTimestamp (timestamp_of_civil 2023 5 1 0 0 0 0)) = "2023-05-01 00:00:00".
Proof. repeat split; vm_compute; reflexivity. Qed.

(** ** Outcomes: results without the identity of the exception *)

Lemma bind_ok_inv {A B : Type} (m : result A) (k : A -> result B) (b : B) :
  m ≫= k = Ok b -> ∃ a, m = Ok a ∧ k a = Ok b.
Proof. destruct m as [a |]; [eauto | discriminate]. Qed.

Lemma outcome_bind_ext {A B : Type} (m m' : result A) (k k' : A -> result B) :
  outcome m = outcome m' ->
  (∀ a, outcome (k a) = outcome (k' a)) ->
  outcome (m ≫= k) = outcome (m' ≫= k').
Proof.
  intros Hm Hk. destruct m, m'; simpl in *; try discriminate; try reflexivity.
  injection Hm as <-. apply Hk.
Qed.

Lemma outcome_bind_raise {A B : Type} (m : result A) (e : exn) :
  outcome (m ≫= fun _ => @Raise B e) = None.
Proof. destruct m; reflexivity. Qed.

Lemma outcome_ok_inv {A : Type} (r : result A) (a : A) :
  outcome r = Some a -> r = Ok a.
Proof. destruct r; simpl; intros H; [now injection H as <- | discriminate]. Qed.

Lemma bind_assoc {A B C : Type} (m : result A) (f : A -> result B)
    (g : B -> result C) :
  (m ≫= f) ≫= g = m ≫= (fun a => f a ≫= g).
Proof. destruct m; reflexivity. Qed.

(** Computing a column from the rows and then storing it row by row
    is one pass over the rows. *)
Lemma mapM_then_zip {A B C X : Type} (g : A -> result B) (upd : B -> A -> C)
    (l : list A) (K : list C -> result X) :
  (vals ← mapM g l; K (zip_with (fun x v => upd v x) l vals))
  = (l' ← mapM (fun x => v ← g x; Ok (upd v x)) l; K l').
Proof.
  revert K. induction l as [| x l IH]; intros K; [reflexivity |].
  rewrite !mapM_cons. destruct (g x) as [v |]; [| reflexivity]. simpl.
  specialize (IH (fun l' => K (upd v x :: l'))). simpl in IH.
  destruct (mapM g l) as [vals |];
    destruct (mapM (fun x => v ← g x; Ok (upd v x)) l) as [l' |];
    simpl in *; assumption.
Qed.

(** Two passes over the rows, one after the other, return what one
    pass doing both steps on each row returns. *)
Lemma outcome_mapM_fuse {A B C X : Type} (f : A -> result B)
    (g : B -> result C) (l : list A) (K : list C -> result X) :
  outcome (r1 ← mapM f l; r2 ← mapM g r1; K r2)
  = outcome (r2 ← mapM (fun x => y ← f x; g y) l; K r2).
Proof.
  revert K. induction l as [| x l IH]; intros K; [reflexivity |].
  rewrite !mapM_cons, !bind_assoc. destruct (f x) as [y |]; [| reflexivity].
  simpl. rewrite !bind_assoc. simpl.
  destruct (g y) as [z |] eqn:Hg; simpl.
  - rewrite !bind_assoc. simpl.
    rewrite <- (IH (fun r => K (z :: r))).
    apply outcome_bind_ext; [reflexivity |]. intros r1.
    rewrite !bind_assoc. reflexivity.
  - apply outcome_bind_raise.
Qed.

Lemma outcome_mapM_app {A B X : Type} (f : A -> result B) (l1 l2 : list A)
    (K : list B -> result X) :
  (r ← mapM f (l1 ++ l2); K r)
  = (a ← mapM f l1; b ← mapM f l2; K (a ++ b)).
Proof.
  rewrite mapM_app. destruct (mapM f l1); [| reflexivity]. simpl.
  destruct (mapM f l2); reflexivity.
Qed.

(** ** The format pass, statement by statement *)

Section stage_lemmas.
Context {F S : Type} `{!DataFrameAPI F S}.

Lemma add_columns_stages (meta : bool) (username : string) (df : F)
    (incl_html : bool) :
  add_columns meta username df incl_html
  = df ← add_tweet_url meta username df;
    df ← add_media meta df;
    df ← add_html meta incl_html df;
    add_type meta df.
Proof.
  unfold add_columns, add_tweet_url, add_media, add_html, add_type.
  destruct (df_select df [username; "id"]) as [pair |]; [| reflexivity].
  simpl. destruct (df_apply pair _ meta) as [urls |]; [| reflexivity].
  simpl. destruct (df_getitem _ "attachments.media") as [raw |];
    [| reflexivity].
  simpl. destruct (series_apply raw _ meta) as [media |]; [| reflexivity].
  simpl. destruct incl_html; [| reflexivity].
  destruct (df_getitem _ "media") as [media' |]; [| reflexivity].
  simpl. destruct (series_apply media' _ meta) as [html |]; reflexivity.
Qed.
End stage_lemmas.

(** ** The format pass, row by row *)

Lemma rowwise_bind (G : list (list value) -> result DataFrame)
    (H : DataFrame -> result DataFrame)
    (check1 check2 : result (list string))
    (step1 step2 : list value -> result (list value)) :
  rowwise G check1 step1 ->
  (∀ cols1, check1 = Ok cols1 ->
            rowwise (fun rs => H (mkDataFrame cols1 rs)) check2 step2) ->
  rowwise (fun rs => df ← G rs; H df)
          (_ ← check1; check2)
          (fun row => row ← step1 row; step2 row).
Proof.
  intros HG HH rs. specialize (HG rs).
  destruct check1 as [cols1 | e1]; simpl in *.
  - specialize (HH cols1 eq_refl).
    etransitivity; [apply outcome_bind_ext; [exact HG | reflexivity] |].
    rewrite bind_assoc. simpl.
    etransitivity;
      [apply outcome_bind_ext; [reflexivity | intros rs1; apply HH] |].
    destruct check2 as [cols2 | e2]; simpl.
    + apply outcome_mapM_fuse.
    + apply outcome_bind_raise.
  - destruct (G rs); [discriminate | reflexivity].
Qed.

Lemma pd_setitem_step {X : Type} (cols : list string) (rs : list (list value))
    (c : string) (g : list value -> result value) (K : DataFrame -> result X) :
  (vals ← mapM g rs; K (pd_setitem (mkDataFrame cols rs) c vals))
  = (rs' ← mapM (row_step cols c g) rs;
     K (mkDataFrame (columns_set cols c) rs')).
Proof.
  unfold pd_setitem, row_step. simpl.
  apply (mapM_then_zip g (fun v row => row_set cols c v row) rs
           (fun l' => K (mkDataFrame (columns_set cols c) l'))).
Qed.

(** The operations of the dataframe interface, on pandas and on Dask. *)
Ltac pandas_ops :=
  cbn [df_contains df_select df_getitem df_apply series_apply df_setitem
       df_setitem_const df_rename pandas_api].

Ltac dask_ops :=
  cbn [df_contains df_select df_getitem df_apply series_apply df_setitem
       df_setitem_const df_rename dask_api].

Lemma rowwise_add_tweet_url (cols : list string) :
  rowwise (fun rs => add_tweet_url false (username_of cols) (mkDataFrame cols rs))
          (check_tweet_url cols) (row_tweet_url cols).
Proof.
  intros rs. unfold add_tweet_url, check_tweet_url, row_tweet_url.
  pandas_ops. unfold pd_select. cbn [columns rows].
  destruct (mapM (locate cols) [username_of cols; "id"]) as [idxs |];
    [| reflexivity].
  simpl. unfold pd_apply, positional. simpl. rewrite mapM_map.
  rewrite (pd_setitem_step cols rs "tweet_url" _ Ok). reflexivity.
Qed.

Lemma rowwise_add_media (cols : list string) :
  rowwise (fun rs => add_media false (mkDataFrame (columns_1 cols) rs))
          (check_media cols) (row_media (columns_1 cols)).
Proof.
  intros rs. unfold add_media, check_media, row_media.
  pandas_ops. unfold pd_getitem. cbn [columns rows].
  destruct (locate (columns_1 cols) "attachments.media") as [i |];
    [| reflexivity].
  simpl. unfold pd_series_apply. rewrite mapM_map.
  rewrite (pd_setitem_step (columns_1 cols) rs "media" _ Ok). reflexivity.
Qed.

Lemma mapM_Ok {A : Type} (l : list A) : mapM Ok l = Ok l.
Proof. rewrite (mapM_all_ok Ok id); [now rewrite map_id | reflexivity]. Qed.

Lemma rowwise_add_html (cols : list string) (incl_html : bool) :
  rowwise (fun rs => add_html false incl_html (mkDataFrame (columns_2 cols) rs))
          (check_html cols incl_html) (row_html incl_html (columns_2 cols)).
Proof.
  intros rs. unfold add_html, check_html, row_html, columns_3.
  destruct incl_html.
  - pandas_ops. unfold pd_getitem. cbn [columns rows].
    destruct (locate (columns_2 cols) "media") as [i |]; [| reflexivity].
    simpl. unfold pd_series_apply. rewrite mapM_map.
    rewrite (pd_setitem_step (columns_2 cols) rs "media" _ Ok). reflexivity.
  - simpl. now rewrite mapM_Ok.
Qed.

Lemma rowwise_add_type (cols : list string) (incl_html : bool) :
  rowwise (fun rs => add_type false (mkDataFrame (columns_3 cols incl_html) rs))
          (Ok (columns_4 cols incl_html))
          (row_type (columns_3 cols incl_html)).
Proof.
  intros rs. unfold add_type, row_type. simpl. unfold pd_apply. simpl.
  rewrite (pd_setitem_step (columns_3 cols incl_html) rs "type" _ Ok).
  reflexivity.
Qed.

Lemma rowwise_add_count_and_rename (cols : list string) :
  rowwise (fun rs => Ok (add_count_and_rename (mkDataFrame cols rs)))
          (Ok (map rename_column (columns_set cols "tweet_count")))
          (row_count cols).
Proof.
  intros rs. unfold add_count_and_rename, row_count. simpl.
  rewrite (mapM_all_ok _ (row_set cols "tweet_count" (VInt 1)));
    reflexivity.
Qed.

(** On a pandas dataframe the [try] block raises [TypeError] at its
    first [apply] (or [KeyError] before it), so the columns are added
    by the [except] block. *)
Lemma format_df_pandas_unfold (df : DataFrame) (incl_html : bool) :
  format_df df incl_html
  = df' ← add_columns false (username_of (columns df)) df incl_html;
    Ok (add_count_and_rename df').
Proof.
  unfold format_df. f_equal.
  unfold add_columns, username_of. simpl.
  destruct (pd_select df _) as [pair | e];
    [reflexivity | destruct e; reflexivity].
Qed.

Lemma mapM_ext_result {A B : Type} (f g : A -> result B) (l : list A) :
  (∀ x, f x = g x) -> mapM f l = mapM g l.
Proof.
  intros H. induction l as [| x l IH]; [reflexivity |].
  now rewrite !mapM_cons, H, IH.
Qed.

Lemma rowwise_ext (G : list (list value) -> result DataFrame)
    (check check' : result (list string))
    (step step' : list value -> result (list value)) :
  check = check' ->
  (∀ row, step row = step' row) ->
  rowwise G check step -> rowwise G check' step'.
Proof.
  intros <- Hstep HG rs. rewrite (HG rs).
  now rewrite (mapM_ext_result step step' rs Hstep).
Qed.

Lemma check_tweet_url_columns (cols cols1 : list string) :
  check_tweet_url cols = Ok cols1 -> cols1 = columns_1 cols.
Proof.
  unfold check_tweet_url. intros (? & _ & H)%bind_ok_inv. congruence.
Qed.

Lemma check_media_columns (cols cols2 : list string) :
  check_media cols = Ok cols2 -> cols2 = columns_2 cols.
Proof.
  unfold check_media. intros (? & _ & H)%bind_ok_inv. congruence.
Qed.

Lemma check_html_columns (cols cols3 : list string) (incl_html : bool) :
  check_html cols incl_html = Ok cols3 -> cols3 = columns_3 cols incl_html.
Proof.
  unfold check_html. destruct incl_html.
  - intros (? & _ & H)%bind_ok_inv. congruence.
  - congruence.
Qed.

(** The [except] block on a pandas dataframe works row by row. *)
Lemma add_columns_rowwise (cols : list string) (incl_html : bool) :
  rowwise
    (fun rs => add_columns false (username_of cols) (mkDataFrame cols rs)
                 incl_html)
    (_ ← check_tweet_url cols; _ ← check_media cols;
     _ ← check_html cols incl_html; Ok (columns_4 cols incl_html))
    (fun row =>
       row ← row_tweet_url cols row;
       row ← row_media (columns_1 cols) row;
       row ← row_html incl_html (columns_2 cols) row;
       row_type (columns_3 cols incl_html) row).
Proof.
  intros rs. rewrite add_columns_stages. revert rs.
  apply (rowwise_bind _ _ _ _ _ _ (rowwise_add_tweet_url cols)).
  intros ? ->%check_tweet_url_columns.
  apply (rowwise_bind _ _ _ _ _ _ (rowwise_add_media cols)).
  intros ? ->%check_media_columns.
  apply (rowwise_bind _ _ _ _ _ _ (rowwise_add_html cols incl_html)).
  intros ? ->%check_html_columns.
  apply rowwise_add_type.
Qed.

(** The format pass on a pandas dataframe works row by row. *)
Lemma format_df_rowwise (cols : list string) (incl_html : bool) :
  rowwise (fun rs => format_df (mkDataFrame cols rs) incl_html)
          (format_columns cols incl_html) (format_row cols incl_html).
Proof.
  eapply rowwise_ext; cycle 2.
  - intros rs. rewrite format_df_pandas_unfold. revert rs.
    eapply (rowwise_bind _ (fun df => Ok (add_count_and_rename df))).
    + apply add_columns_rowwise.
    + intros cols4 H.
      apply bind_ok_inv in H as (? & _ & H).
      apply bind_ok_inv in H as (? & _ & H).
      apply bind_ok_inv in H as (? & _ & H).
      injection H as <-. apply rowwise_add_count_and_rename.
  - unfold format_columns.
    destruct (check_tweet_url cols); [| reflexivity]. simpl.
    destruct (check_media cols); [| reflexivity]. simpl.
    destruct (check_html cols incl_html); reflexivity.
  - intros row. unfold format_row.
    destruct (row_tweet_url cols row); [| reflexivity]. simpl.
    destruct (row_media _ _); [| reflexivity]. simpl.
    destruct (row_html _ _ _); [| reflexivity]. simpl.
    destruct (row_type _ _); reflexivity.
Qed.

(** ** The format pass on a Dask dataframe *)

Lemma zip_with_map_map {A B C D : Type} (f : B -> C -> D) (g : A -> B)
    (h : A -> C) (l : list A) :
  zip_with f (map g l) (map h l) = map (fun x => f (g x) (h x)) l.
Proof. induction l as [| x l IH]; simpl; [reflexivity | now rewrite IH]. Qed.

(** A partition either was computed or raised; either way the two
    sides are the same binds, nested differently. *)
Ltac partition_case part :=
  destruct part; cbn [mbind result_bind]; rewrite ?bind_assoc; reflexivity.

Section dask_stages.
Context {C : Type} (chunks : list C) (cols : list string)
        (E : C -> result DataFrame).

Lemma dd_add_tweet_url (username : string) :
  add_tweet_url true username (dask_over chunks cols E)
  = _ ← mapM (locate cols) [username; "id"];
    Ok (dask_over chunks (columns_set cols "tweet_url")
          (fun ch => df ← E ch; add_tweet_url false username df)).
Proof.
  unfold add_tweet_url. dask_ops.
  unfold dd_select, dd_apply, dd_setitem, dask_over.
  cbn [dd_columns dd_partitions].
  destruct (mapM (locate cols) [username; "id"]); [| reflexivity].
  cbn [mbind result_bind dd_partitions]. do 2 f_equal.
  rewrite !map_map, zip_with_map_map. apply map_ext. intros ch.
  pandas_ops. partition_case (E ch).
Qed.

Lemma dd_add_media :
  add_media true (dask_over chunks cols E)
  = _ ← locate cols "attachments.media";
    Ok (dask_over chunks (columns_set cols "media")
          (fun ch => df ← E ch; add_media false df)).
Proof.
  unfold add_media. dask_ops.
  unfold dd_getitem, dd_series_apply, dd_setitem, dask_over.
  cbn [dd_columns dd_partitions].
  destruct (locate cols "attachments.media"); [| reflexivity].
  cbn [mbind result_bind]. do 2 f_equal.
  rewrite !map_map, zip_with_map_map. apply map_ext. intros ch.
  pandas_ops. partition_case (E ch).
Qed.

Lemma dd_add_html (incl_html : bool) :
  add_html true incl_html (dask_over chunks cols E)
  = _ ← (if incl_html then locate cols "media" else Ok O);
    Ok (dask_over chunks
          (if incl_html then columns_set cols "media" else cols)
          (fun ch => df ← E ch; add_html false incl_html df)).
Proof.
  unfold add_html. destruct incl_html.
  - dask_ops. unfold dd_getitem, dd_series_apply, dd_setitem, dask_over.
    cbn [dd_columns dd_partitions].
    destruct (locate cols "media"); [| reflexivity].
    cbn [mbind result_bind]. do 2 f_equal.
    rewrite !map_map, zip_with_map_map. apply map_ext. intros ch.
    pandas_ops. partition_case (E ch).
  - cbn [mbind result_bind]. unfold dask_over. do 2 f_equal.
    rewrite <- (map_id (map E chunks)) at 1. rewrite map_map.
    apply map_ext. intros ch. partition_case (E ch).
Qed.

Lemma dd_add_type :
  add_type true (dask_over chunks cols E)
  = Ok (dask_over chunks (columns_set cols "type")
          (fun ch => df ← E ch; add_type false df)).
Proof.
  unfold add_type. dask_ops. unfold dd_apply, dd_setitem, dask_over.
  cbn [dd_columns dd_partitions mbind result_bind]. do 2 f_equal.
  rewrite !map_map, zip_with_map_map. apply map_ext. intros ch.
  pandas_ops. partition_case (E ch).
Qed.

Lemma dd_add_count_and_rename :
  add_count_and_rename (dask_over chunks cols E)
  = dask_over chunks (map rename_column (columns_set cols "tweet_count"))
      (fun ch => df ← E ch; Ok (add_count_and_rename df)).
Proof.
  unfold add_count_and_rename. dask_ops.
  unfold dd_rename, dd_setitem_const, dask_over.
  cbn [dd_columns dd_partitions]. f_equal.
  rewrite !map_map. apply map_ext. intros ch.
  pandas_ops. partition_case (E ch).
Qed.
End dask_stages.

Lemma locate_raise (cols : list string) (c : string) (e : exn) :
  locate cols c = Raise e -> e = KeyError.
Proof. unfold locate. destruct (index_of cols c); congruence. Qed.

Lemma mapM_locate_raise (cols cs : list string) (e : exn) :
  mapM (locate cols) cs = Raise e -> e = KeyError.
Proof.
  induction cs as [| c cs IH]; [discriminate |]. rewrite mapM_cons.
  destruct (locate cols c) eqn:E; simpl.
  - destruct (mapM (locate cols) cs); simpl; [discriminate |].
    intros [= <-]. now apply IH.
  - intros [= <-]. eapply locate_raise, E.
Qed.

Lemma add_columns_partition (part : result DataFrame) (username : string)
    (incl_html : bool) :
  (((part ≫= fun df => add_tweet_url false username df)
    ≫= fun df => add_media false df)
   ≫= fun df => add_html false incl_html df)
  ≫= (fun df => add_type false df)
  = part ≫= fun df => add_columns false username df incl_html.
Proof.
  destruct part as [df |]; [| reflexivity]. cbn [mbind result_bind].
  rewrite add_columns_stages.
  destruct (add_tweet_url false username df) as [df1 |]; [| reflexivity].
  cbn [mbind result_bind].
  destruct (add_media false df1) as [df2 |]; reflexivity.
Qed.

(** The [try] block on a Dask dataframe checks the column names and
    defers the rest: each partition will go through the statements of
    the [except] block. *)
Lemma add_columns_dask {C : Type} (chunks : list C) (cols : list string)
    (E : C -> result DataFrame) (incl_html : bool) :
  add_columns true (username_of cols) (dask_over chunks cols E) incl_html
  = _ ← check_tweet_url cols;
    _ ← check_media cols;
    _ ← check_html cols incl_html;
    Ok (dask_over chunks (columns_4 cols incl_html)
          (fun ch => df ← E ch;
                     add_columns false (username_of cols) df incl_html)).
Proof.
  rewrite add_columns_stages, dd_add_tweet_url.
  unfold check_tweet_url, check_media, check_html.
  destruct (mapM (locate cols) _); [| reflexivity].
  cbn [mbind result_bind]. rewrite dd_add_media. fold (columns_1 cols).
  destruct (locate (columns_1 cols) _); [| reflexivity].
  cbn [mbind result_bind]. rewrite dd_add_html. fold (columns_2 cols).
  assert (dd_add_type' := fun E' =>
            dd_add_type chunks (columns_3 cols incl_html) E').
  unfold columns_4. unfold columns_3 in *.
  destruct incl_html.
  - destruct (locate (columns_2 cols) "media"); [| reflexivity].
    cbn [mbind result_bind]. rewrite dd_add_type'. f_equal.
    unfold dask_over. f_equal. apply map_ext. intros ch.
    apply add_columns_partition.
  - cbn [mbind result_bind]. rewrite dd_add_type'. f_equal.
    unfold dask_over. f_equal. apply map_ext. intros ch.
    apply add_columns_partition.
Qed.

Lemma check_tweet_url_raise (cols : list string) (e : exn) :
  check_tweet_url cols = Raise e -> e = KeyError.
Proof.
  unfold check_tweet_url.
  destruct (mapM (locate cols) _) eqn:E; [discriminate |].
  intros [= <-]. eapply mapM_locate_raise, E.
Qed.

Lemma check_media_raise (cols : list string) (e : exn) :
  check_media cols = Raise e -> e = KeyError.
Proof.
  unfold check_media. destruct (locate _ _) eqn:E; [discriminate |].
  intros [= <-]. eapply locate_raise, E.
Qed.

Lemma check_html_raise (cols : list string) (incl_html : bool) (e : exn) :
  check_html cols incl_html = Raise e -> e = KeyError.
Proof.
  unfold check_html. destruct incl_html; [| discriminate].
  destruct (locate _ _) eqn:E; [discriminate |].
  intros [= <-]. eapply locate_raise, E.
Qed.

(** The format pass on a Dask dataframe: the column names are checked
    at once, and each partition will be formatted as a pandas
    dataframe is. *)
Lemma format_df_dask (cols : list string) (chunks : list (list (list value)))
    (incl_html : bool) :
  format_df (dd_from_partitions cols chunks) incl_html
  = cols' ← format_columns cols incl_html;
    Ok (mkDaskDataFrame cols'
          (map (fun chunk => format_df (mkDataFrame cols chunk) incl_html)
               chunks)).
Proof.
  unfold format_df at 1.
  change (dd_from_partitions cols chunks)
    with (dask_over chunks cols (fun chunk => Ok (mkDataFrame cols chunk))).
  change (if df_contains (dask_over chunks cols _) "author.username"
          then "author.username" else "username")
    with (username_of cols).
  rewrite add_columns_dask. unfold format_columns.
  destruct (check_tweet_url cols) as [? | e] eqn:E1;
    [| apply check_tweet_url_raise in E1 as ->; reflexivity].
  cbn [mbind result_bind].
  destruct (check_media cols) as [? | e] eqn:E2;
    [| apply check_media_raise in E2 as ->; reflexivity].
  cbn [mbind result_bind].
  destruct (check_html cols incl_html) as [? | e] eqn:E3;
    [| apply check_html_raise in E3 as ->; reflexivity].
  cbn [mbind result_bind try_except_TypeError].
  pose proof (fun E => dd_add_count_and_rename chunks
                         (columns_4 cols incl_html) E) as Hcount.
  unfold add_count_and_rename at 1 in Hcount.
  rewrite Hcount. f_equal. unfold dask_over. f_equal.
  apply map_ext. intros chunk. rewrite format_df_pandas_unfold.
  cbn [mbind result_bind columns]. reflexivity.
Qed.

(** ** The two evaluation modes *)

Lemma mapM_id_map {A B : Type} (f : A -> result B) (l : list A) :
  mapM id (map f l) = mapM f l.
Proof. rewrite mapM_map. now apply mapM_ext_result. Qed.

(** Formatting the partitions one by one and putting their rows one
    after the other returns the rows that formatting all the rows at
    once returns. *)
Lemma outcome_partitions (cols' : list string)
    (G : list (list value) -> result DataFrame)
    (step : list value -> result (list value))
    (chunks : list (list (list value))) :
  rowwise G (Ok cols') step ->
  outcome (parts ← mapM G chunks; Ok (concat (map rows parts)))
  = outcome (mapM step (concat chunks)).
Proof.
  intros HG. induction chunks as [| chunk chunks IH]; [reflexivity |].
  rewrite mapM_cons. cbn [concat]. rewrite mapM_app.
  specialize (HG chunk). cbn [mbind result_bind] in HG.
  destruct (mapM step chunk) as [rs |]; cbn [mbind result_bind] in *.
  - apply outcome_ok_inv in HG as ->. cbn [mbind result_bind].
    rewrite bind_assoc. cbn [mbind result_bind mret result_ret map concat rows].
    destruct (mapM G chunks) as [parts |];
      destruct (mapM step (concat chunks)) as [rs' |];
      cbn [mbind result_bind outcome] in *; try congruence.
  - destruct (G chunk); [discriminate | reflexivity].
Qed.


(** ** The columns that the format pass leaves alone *)

Lemma assoc_None (table : list (string * string)) (c : string) :
  c ∉ map fst table -> assoc table c = None.
Proof.
  induction table as [| [k v] table IH]; [reflexivity |].
  simpl. rewrite not_elem_of_cons. intros [Hne Hrest].
  destruct (String.eqb_spec k c) as [-> | _]; [congruence | now apply IH].
Qed.

Lemma rename_column_other (c : string) :
  c ∉ RENAME_SOURCES -> rename_column c = c.
Proof. intros H. unfold rename_column. now rewrite assoc_None. Qed.

Lemma lookup_columns_set (cols : list string) (c' c : string) (i : nat) :
  cols !! i = Some c -> columns_set cols c' !! i = Some c.
Proof.
  intros H. unfold columns_set. destruct (index_of cols c'); [assumption |].
  now apply lookup_app_l_Some.
Qed.

(** Setting column [c'] leaves the cell of any other column as it
    is. *)
Lemma cell_row_set_other (cols : list string) (c' c : string) (v : value)
    (row : list value) (i : nat) :
  length row = length cols ->
  cols !! i = Some c ->
  c ≠ c' ->
  cell i (row_set cols c' v row) = cell i row.
Proof.
  intros Hlen Hi Hne. unfold cell, row_set.
  destruct (index_of cols c') as [j |] eqn:E.
  - rewrite list_lookup_insert_ne; [reflexivity |].
    intros ->. apply index_of_lookup in E. congruence.
  - rewrite lookup_app_l; [reflexivity |].
    rewrite Hlen. eapply lookup_lt_Some, Hi.
Qed.

Lemma row_kept_set (i : nat) (c c' : string) (v v' : value)
    (cols : list string) (row : list value) :
  c ≠ c' ->
  row_kept i c v cols row ->
  row_kept i c v (columns_set cols c') (row_set cols c' v' row).
Proof.
  intros Hne (Hlen & Hi & Hv). repeat split.
  - now apply length_row_set.
  - now apply lookup_columns_set.
  - rewrite <- Hv. eapply cell_row_set_other; eassumption.
Qed.

Lemma row_kept_step (i : nat) (c c' : string) (v : value)
    (cols : list string) (g : list value -> result value)
    (row row' : list value) :
  c ≠ c' ->
  row_step cols c' g row = Ok row' ->
  row_kept i c v cols row ->
  row_kept i c v (columns_set cols c') row'.
Proof.
  unfold row_step. intros Hne (v' & _ & [= <-])%bind_ok_inv.
  now apply row_kept_set.
Qed.

Lemma format_row_kept (i : nat) (c : string) (v : value) (cols : list string)
    (incl_html : bool) (row row' : list value) :
  c ∉ DERIVED ->
  format_row cols incl_html row = Ok row' ->
  row_kept i c v cols row ->
  row_kept i c v (columns_set (columns_4 cols incl_html) "tweet_count") row'.
Proof.
  unfold DERIVED. rewrite !not_elem_of_cons.
  intros (Hurl & Hmedia & Htype & Hcount & _) Hrow Hkept.
  unfold format_row in Hrow.
  apply bind_ok_inv in Hrow as (row1 & H1 & Hrow).
  apply bind_ok_inv in Hrow as (row2 & H2 & Hrow).
  apply bind_ok_inv in Hrow as (row3 & H3 & Hrow).
  apply bind_ok_inv in Hrow as (row4 & H4 & Hrow).
  unfold row_tweet_url in H1. apply bind_ok_inv in H1 as (idxs & _ & H1).
  apply (row_kept_step i c "tweet_url" v _ _ _ _ Hurl H1) in Hkept.
  unfold row_media in H2. apply bind_ok_inv in H2 as (j & _ & H2).
  apply (row_kept_step i c "media" v _ _ _ _ Hmedia H2) in Hkept.
  assert (row_kept i c v (columns_3 cols incl_html) row3) as Hkept3.
  { unfold row_html, columns_3 in *. destruct incl_html.
    - apply bind_ok_inv in H3 as (k & _ & H3).
      apply (row_kept_step i c "media" v _ _ _ _ Hmedia H3), Hkept.
    - injection H3 as <-. exact Hkept. }
  apply (row_kept_step i c "type" v _ _ _ _ Htype H4) in Hkept3.
  unfold row_count in Hrow. injection Hrow as <-.
  now apply row_kept_set.
Qed.

Lemma mapM_ok_Forall2 {A B : Type} (f : A -> result B) (l : list A)
    (l' : list B) :
  mapM f l = Ok l' -> Forall2 (fun x y => f x = Ok y) l l'.
Proof.
  revert l'. induction l as [| x l IH]; intros l' H.
  - injection H as <-. constructor.
  - rewrite mapM_cons in H.
    apply bind_ok_inv in H as (y & Hy & H).
    apply bind_ok_inv in H as (k & Hk & [= <-]).
    constructor; [assumption | now apply IH].
Qed.

(** The rows and the column names that the row-by-row form of the
    format pass returns keep every column that is neither derived nor
    renamed. *)
Lemma format_rows_kept (cols cols' : list string) (incl_html : bool)
    (rs rs' : list (list value)) (i : nat) (c : string) :
  Forall (fun row => length row = length cols) rs ->
  format_columns cols incl_html = Ok cols' ->
  mapM (format_row cols incl_html) rs = Ok rs' ->
  cols !! i = Some c ->
  c ∉ DERIVED ->
  c ∉ RENAME_SOURCES ->
  cols' !! i = Some c ∧ map (cell i) rs' = map (cell i) rs.
Proof.
  intros Hrows Ecols Erows Hi Hder Hren.
  unfold format_columns in Ecols.
  apply bind_ok_inv in Ecols as (? & _ & Ecols).
  apply bind_ok_inv in Ecols as (? & _ & Ecols).
  apply bind_ok_inv in Ecols as (? & _ & Ecols).
  cbn [mbind result_bind] in Ecols. injection Ecols as <-.
  split.
  - rewrite list_lookup_fmap, (lookup_columns_set _ "tweet_count" c i).
    + simpl. f_equal. now apply rename_column_other.
    + unfold columns_4, columns_3, columns_2, columns_1.
      destruct incl_html; repeat apply lookup_columns_set; exact Hi.
  - apply mapM_ok_Forall2 in Erows.
    induction Erows as [| row row' rs rs' Hrow _ IH]; [reflexivity |].
    apply Forall_cons in Hrows as [Hlen Hrows].
    destruct (format_row_kept i c (cell i row) cols incl_html row row'
                Hder Hrow) as (_ & _ & Hcell).
    { repeat split; assumption. }
    simpl. now rewrite Hcell, IH.
Qed.

(** C10.  On a well-formed dataframe on which the format pass
    returns, every column whose name is neither one of the four derived
    columns nor a name that the rename table renames is, in the result,
    at the same place, under the same name, with the same cells. *)
Theorem format_df_keeps_other_columns (df out : DataFrame) (incl_html : bool)
    (i : nat) (c : string) :
  well_formed df ->
  format_df df incl_html = Ok out ->
  columns df !! i = Some c ->
  c ∉ DERIVED ->
  c ∉ RENAME_SOURCES ->
  columns out !! i = Some c
  ∧ map (cell i) (rows out) = map (cell i) (rows df).
Proof.
  destruct df as [cols rs]. intros [_ Hrows] Hout Hi Hder Hren.
  cbn [columns rows] in *.
  pose proof (format_df_rowwise cols incl_html rs) as H.
  cbn beta in H. rewrite Hout in H. cbn [outcome] in H.
  destruct (format_columns cols incl_html) as [cols' |] eqn:Ecols;
    [| discriminate].
  cbn [mbind result_bind] in H.
  destruct (mapM (format_row cols incl_html) rs) as [rs' |] eqn:Erows;
    [| discriminate].
  injection H as ->. cbn [columns rows].
  eapply format_rows_kept; eassumption.
Qed.

(** The same holds of a Dask dataframe: once computed, the formatted
    dataframe has every such column at its place, under its name, with
    the cells of the partitions' rows. *)
Lemma format_df_dask_keeps_other_columns (cols : list string)
    (chunks : list (list (list value))) (out : DataFrame) (incl_html : bool)
    (i : nat) (c : string) :
  Forall (Forall (fun row => length row = length cols)) chunks ->
  (ddf ← format_df (dd_from_partitions cols chunks) incl_html; dd_compute ddf)
  = Ok out ->
  cols !! i = Some c ->
  c ∉ DERIVED ->
  c ∉ RENAME_SOURCES ->
  columns out !! i = Some c
  ∧ map (cell i) (rows out) = map (cell i) (concat chunks).
Proof.
  intros Hrows Hout Hi Hder Hren. rewrite format_df_dask in Hout.
  pose proof (format_df_rowwise cols incl_html) as Hrow.
  destruct (format_columns cols incl_html) as [cols' |] eqn:Ecols;
    [| discriminate].
  cbn [mbind result_bind] in Hout. unfold dd_compute in Hout.
  cbn [dd_partitions dd_columns] in Hout. rewrite mapM_id_map in Hout.
  pose proof (outcome_partitions cols' _ _ chunks Hrow) as H.
  destruct (mapM _ chunks) as [parts |]; [| discriminate].
  cbn [mbind result_bind outcome] in *. injection Hout as <-.
  symmetry in H. apply outcome_ok_inv in H. cbn [columns rows].
  eapply format_rows_kept; try eassumption.
  now apply Forall_concat.
Qed.

Lemma well_formed_three_tweets : well_formed three_tweets.
Proof.
  split.
  - apply (bool_decide_unpack _). reflexivity.
  - repeat constructor.
Qed.

Lemma format_df_three_tweets :
  format_df three_tweets false = Ok three_tweets_formatted.
Proof. vm_compute. reflexivity. Qed.

(** C10 on the "text" column of three tweets. *)
Lemma format_df_keeps_other_columns_witness :
  columns three_tweets_formatted !! 6%nat = Some "text"
  ∧ map (cell 6) (rows three_tweets_formatted)
    = map (cell 6) (rows three_tweets).
Proof.
  apply (format_df_keeps_other_columns three_tweets three_tweets_formatted
           false 6 "text").
  - exact well_formed_three_tweets.
  - exact format_df_three_tweets.
  - reflexivity.
  - apply (bool_decide_unpack _). reflexivity.
  - apply (bool_decide_unpack _). reflexivity.
Defined.

(** The same dataset in two partitions (and an empty one), formatted
    through Dask and computed. *)
Example format_df_three_tweets_dask :
  (ddf ← format_df
           (dd_from_partitions (columns three_tweets)
              [ take 1 (rows three_tweets); []; drop 1 (rows three_tweets) ])
           false;
   dd_compute ddf)
  = Ok three_tweets_formatted.
Proof. vm_compute. reflexivity. Qed.


(** ** The columns that the format pass adds *)

Lemma NoDup_index_of (cols : list string) (c : string) (j : nat) :
  NoDup cols -> cols !! j = Some c -> index_of cols c = Some j.
Proof.
  intros Hnd Hj. destruct (index_of cols c) as [i |] eqn:E.
  - f_equal. eapply NoDup_lookup; [exact Hnd | | exact Hj].
    now apply index_of_lookup.
  - apply index_of_None in E. exfalso. apply E.
    eapply list_elem_of_lookup_2, Hj.
Qed.

Lemma index_of_columns_set_old (cols : list string) (c c' : string) (i : nat) :
  index_of cols c = Some i -> index_of (columns_set cols c') c = Some i.
Proof.
  intros H. unfold columns_set. destruct (index_of cols c'); [assumption |].
  now apply index_of_app_old.
Qed.

Lemma assoc_Some_in (table : list (string * string)) (c t : string) :
  assoc table c = Some t -> (c, t) ∈ table.
Proof.
  induction table as [| [k v] table IH]; [discriminate |]. simpl.
  destruct (String.eqb_spec k c) as [-> | _].
  - intros [= ->]. now left.
  - intros H. right. now apply IH.
Qed.

(** No derived column is renamed, and no column is renamed to the
    name of a derived column. *)
Lemma rename_column_derived (c d : string) :
  d ∈ DERIVED -> rename_column c = d -> c = d.
Proof.
  intros Hd. unfold rename_column.
  destruct (assoc RENAMES c) as [t |] eqn:E; [| easy].
  simpl. intros ->. apply assoc_Some_in in E. exfalso.
  unfold RENAMES, DERIVED in *.
  repeat (apply elem_of_cons in E as [E | E]; [injection E as -> ->;
    repeat (apply elem_of_cons in Hd as [Hd | Hd]; [discriminate |]);
    now apply elem_of_nil in Hd |]).
  now apply elem_of_nil in E.
Qed.

Lemma rename_column_of_derived (d : string) :
  d ∈ DERIVED -> rename_column d = d.
Proof.
  unfold DERIVED. rewrite !elem_of_cons.
  intros [-> | [-> | [-> | [-> | H]]]]; try reflexivity.
  now apply elem_of_nil in H.
Qed.

Lemma index_of_rename_derived (cols : list string) (d : string) :
  d ∈ DERIVED -> index_of (map rename_column cols) d = index_of cols d.
Proof.
  intros Hd. induction cols as [| c cols IH]; [reflexivity |]. simpl.
  rewrite IH.
  destruct (String.eqb_spec (rename_column c) d) as [Hr | Hr];
    destruct (String.eqb_spec c d) as [Hc | Hc]; try reflexivity.
  - exfalso. apply Hc. eapply rename_column_derived; eassumption.
  - exfalso. apply Hr. subst c. now apply rename_column_of_derived.
Qed.

Lemma NoDup_columns_5 (cols : list string) (incl_html : bool) :
  NoDup cols -> NoDup (columns_5 cols incl_html).
Proof.
  intros H. unfold columns_5, columns_4, columns_3, columns_2, columns_1.
  destruct incl_html; repeat apply NoDup_columns_set; exact H.
Qed.

Lemma is_Some_index_of_columns_set (cols : list string) (c : string) :
  is_Some (index_of (columns_set cols c) c).
Proof. destruct (index_of_columns_set cols c) as (j & Hj & _). eauto. Qed.

Lemma is_Some_index_of_columns_set_old (cols : list string) (c c' : string) :
  is_Some (index_of cols c) -> is_Some (index_of (columns_set cols c') c).
Proof. intros [i Hi]. exists i. now apply index_of_columns_set_old. Qed.

(** Each derived column has its place among the columns that the
    format pass leaves. *)
Lemma index_of_columns_5 (cols : list string) (incl_html : bool) (d : string) :
  d ∈ DERIVED -> is_Some (index_of (columns_5 cols incl_html) d).
Proof.
  unfold DERIVED, columns_5, columns_4, columns_3, columns_2, columns_1.
  rewrite !elem_of_cons. intros [-> | [-> | [-> | [-> | H]]]];
    [| | | | now apply elem_of_nil in H];
    destruct incl_html;
    repeat first [ apply is_Some_index_of_columns_set
                 | apply is_Some_index_of_columns_set_old ].
Qed.

(** Reading a derived column of the formatted dataframe, when each
    formatted row holds under that column what [g] makes of the row it
    came from. *)
Lemma pd_getitem_derived (cols : list string) (incl_html : bool)
    (rs rs' : list (list value)) (d : string)
    (g : list value -> result value) :
  NoDup cols ->
  d ∈ DERIVED ->
  Forall2 (fun row row' =>
             ∃ v j, g row = Ok v
                    ∧ row_kept j d v (columns_5 cols incl_html) row') rs rs' ->
  pd_getitem
    (mkDataFrame (map rename_column (columns_5 cols incl_html)) rs') d
  = mapM g rs.
Proof.
  intros Hnd Hd Hrows. unfold pd_getitem, locate. cbn [columns rows].
  rewrite index_of_rename_derived by assumption.
  destruct (index_of_columns_5 cols incl_html d Hd) as [j Hj]. rewrite Hj.
  cbn [mbind result_bind].
  induction Hrows as [| row row' rs rs' (v & j0 & Hg & _ & Hcol & Hcell) _ IH].
  - reflexivity.
  - rewrite mapM_cons, Hg, <- IH. cbn [mbind result_bind map]. do 2 f_equal.
    apply (NoDup_index_of _ _ _ (NoDup_columns_5 cols incl_html Hnd)) in Hcol.
    congruence.
Qed.

(** The rows and column names that the format pass returns. *)
Lemma format_df_ok_inv (cols : list string) (rs : list (list value))
    (incl_html : bool) (out : DataFrame) :
  format_df (mkDataFrame cols rs) incl_html = Ok out ->
  ∃ rs', mapM (format_row cols incl_html) rs = Ok rs'
         ∧ is_Some (index_of cols (username_of cols))
         ∧ is_Some (index_of cols "id")
         ∧ is_Some (index_of (columns_1 cols) "attachments.media")
         ∧ out = mkDataFrame (map rename_column (columns_5 cols incl_html)) rs'.
Proof.
  intros Hout. pose proof (format_df_rowwise cols incl_html rs) as H.
  cbn beta in H. rewrite Hout in H. cbn [outcome] in H.
  destruct (format_columns cols incl_html) as [cols' |] eqn:Ecols;
    [| discriminate].
  cbn [mbind result_bind] in H.
  destruct (mapM (format_row cols incl_html) rs) as [rs' |]; [| discriminate].
  injection H as ->. exists rs'. split; [reflexivity |].
  unfold format_columns in Ecols.
  apply bind_ok_inv in Ecols as (? & E1 & Ecols).
  apply bind_ok_inv in Ecols as (? & E2 & Ecols).
  apply bind_ok_inv in Ecols as (? & _ & Ecols).
  cbn [mbind result_bind] in Ecols. injection Ecols as <-.
  unfold check_tweet_url in E1. apply bind_ok_inv in E1 as (idxs & E1 & _).
  rewrite mapM_cons in E1. apply bind_ok_inv in E1 as (u & Eu & E1).
  apply bind_ok_inv in E1 as (? & E1 & _).
  rewrite mapM_cons in E1. apply bind_ok_inv in E1 as (iid & Eid & _).
  unfold check_media in E2. apply bind_ok_inv in E2 as (im & Em & _).
  unfold locate in *.
  destruct (index_of cols (username_of cols)); [| discriminate].
  destruct (index_of cols "id"); [| discriminate].
  destruct (index_of (columns_1 cols) "attachments.media"); [| discriminate].
  repeat split; eauto.
Qed.

Lemma index_of_app_other (cols : list string) (c c' : string) :
  c ≠ c' -> index_of (cols ++ [c']) c = index_of cols c.
Proof.
  intros Hne. induction cols as [| d cols IH]; simpl.
  - destruct (String.eqb_spec c' c); [congruence | reflexivity].
  - now rewrite IH.
Qed.

Lemma index_of_columns_set_other (cols : list string) (c c' : string) :
  c ≠ c' -> index_of (columns_set cols c') c = index_of cols c.
Proof.
  intros Hne. unfold columns_set. destruct (index_of cols c'); [reflexivity |].
  now apply index_of_app_other.
Qed.

(** The cell of a row under [c] is what the row's [Series] holds at
    label [c]. *)
Lemma row_series_lookup (cols : list string) (row : list value) (c : string) :
  length row = length cols ->
  row_series cols row !! c = (fun i => cell i row) <$> index_of cols c.
Proof.
  unfold row_series. revert row.
  induction cols as [| c0 cols IH]; intros row Hlen.
  - reflexivity.
  - destruct row as [| v0 row]; [discriminate |].
    cbn [zip zip_with list_to_map foldr fst snd index_of].
    destruct (String.eqb_spec c0 c) as [-> | Hne].
    + now rewrite lookup_insert_eq.
    + rewrite lookup_insert_ne by assumption. rewrite IH by (simpl in Hlen; lia).
      destruct (index_of cols c); reflexivity.
Qed.

(** [find_tweet_type] reads the three referenced-tweet ids of a row
    and nothing else. *)
Lemma find_tweet_type_ext (tweet tweet' : Series) :
  tweet !! RETWEETED_ID = tweet' !! RETWEETED_ID ->
  tweet !! QUOTED_ID = tweet' !! QUOTED_ID ->
  tweet !! REPLIED_TO_ID = tweet' !! REPLIED_TO_ID ->
  find_tweet_type tweet = find_tweet_type tweet'.
Proof.
  intros Hr Hq Hp. unfold find_tweet_type, series_get.
  now rewrite Hr, Hq, Hp.
Qed.

(** A column that was just set holds the cell it was given. *)
Lemma row_kept_new (cols : list string) (c : string) (v : value)
    (row : list value) :
  length row = length cols ->
  ∃ j, row_kept j c v (columns_set cols c) (row_set cols c v row).
Proof.
  intros Hlen. destruct (index_of_columns_set cols c) as (j & Hj & _).
  exists j. repeat split.
  - now apply length_row_set.
  - now apply index_of_lookup.
  - now apply cell_row_set.
Qed.

Lemma make_tweet_url_pair (username tweet_id : value) :
  make_tweet_url [username; tweet_id]
  = Ok (VStr ("https://twitter.com/" +:+ py_str username
              +:+ "/status/" +:+ py_str tweet_id)).
Proof. reflexivity. Qed.

(** The steps that a formatted row went through. *)
Lemma format_row_inv (cols : list string) (incl_html : bool)
    (row row' : list value) :
  format_row cols incl_html row = Ok row' ->
  ∃ im media row3 ty,
    index_of (columns_1 cols) "attachments.media" = Some im
    ∧ get_image_url
        (cell im (row_set cols "tweet_url" (tweet_url_of cols row) row))
      = Ok media
    ∧ row_html incl_html (columns_2 cols)
        (row_set (columns_1 cols) "media" media
           (row_set cols "tweet_url" (tweet_url_of cols row) row))
      = Ok row3
    ∧ find_tweet_type (row_series (columns_3 cols incl_html) row3) = Ok ty
    ∧ row' = row_set (columns_4 cols incl_html) "tweet_count" (VInt 1)
               (row_set (columns_3 cols incl_html) "type" ty row3).
Proof.
  unfold format_row. intros H.
  apply bind_ok_inv in H as (row1 & H1 & H).
  apply bind_ok_inv in H as (row2 & H2 & H).
  apply bind_ok_inv in H as (row3 & H3 & H).
  apply bind_ok_inv in H as (row4 & H4 & H).
  unfold row_count in H. injection H as <-.
  unfold row_tweet_url in H1. apply bind_ok_inv in H1 as (idxs & Hidx & H1).
  rewrite mapM_cons in Hidx. apply bind_ok_inv in Hidx as (u & Hu & Hidx).
  apply bind_ok_inv in Hidx as (k & Hidx & [= <-]).
  rewrite mapM_cons in Hidx. apply bind_ok_inv in Hidx as (iid & Hid & Hidx).
  cbn [mapM mbind result_bind mret result_ret] in Hidx. injection Hidx as <-.
  unfold row_step in H1. cbn [map] in H1. rewrite make_tweet_url_pair in H1.
  cbn [mbind result_bind] in H1. injection H1 as <-.
  unfold locate in Hu, Hid.
  destruct (index_of cols (username_of cols)) as [u' |] eqn:Eu; [| discriminate].
  destruct (index_of cols "id") as [iid' |] eqn:Eid; [| discriminate].
  injection Hu as ->. injection Hid as ->.
  assert (VStr ("https://twitter.com/" +:+ py_str (cell u row)
                +:+ "/status/" +:+ py_str (cell iid row))
          = tweet_url_of cols row) as Hurl.
  { unfold tweet_url_of, cell_of. now rewrite Eu, Eid. }
  rewrite Hurl in *.
  unfold row_media in H2. apply bind_ok_inv in H2 as (im & Him & H2).
  unfold row_step in H2. apply bind_ok_inv in H2 as (media & Hmedia & [= <-]).
  unfold locate in Him.
  destruct (index_of (columns_1 cols) "attachments.media") as [im' |];
    [| discriminate].
  injection Him as ->.
  unfold row_type, row_step in H4.
  apply bind_ok_inv in H4 as (ty & Hty & [= <-]).
  exists im, media, row3, ty. repeat split; assumption.
Qed.

Lemma row_html_kept (i : nat) (c : string) (v : value) (cols : list string)
    (incl_html : bool) (row row' : list value) :
  c ≠ "media" ->
  row_html incl_html (columns_2 cols) row = Ok row' ->
  row_kept i c v (columns_2 cols) row ->
  row_kept i c v (columns_3 cols incl_html) row'.
Proof.
  unfold row_html, columns_3. intros Hne H Hkept. destruct incl_html.
  - apply bind_ok_inv in H as (k & _ & H).
    eapply row_kept_step; eassumption.
  - now injection H as <-.
Qed.

Lemma row_html_length (cols : list string) (incl_html : bool)
    (row row' : list value) :
  row_html incl_html (columns_2 cols) row = Ok row' ->
  length row = length (columns_2 cols) ->
  length row' = length (columns_3 cols incl_html).
Proof.
  unfold row_html, columns_3, row_step. intros H Hlen. destruct incl_html.
  - apply bind_ok_inv in H as (k & _ & H).
    apply bind_ok_inv in H as (v & _ & [= <-]). now apply length_row_set.
  - now injection H as <-.
Qed.

(** The lengths of a row while it is formatted. *)
Lemma format_row_lengths (cols : list string) (incl_html : bool)
    (row row3 : list value) (media : value) :
  length row = length cols ->
  row_html incl_html (columns_2 cols)
    (row_set (columns_1 cols) "media" media
       (row_set cols "tweet_url" (tweet_url_of cols row) row))
  = Ok row3 ->
  length (row_set cols "tweet_url" (tweet_url_of cols row) row)
  = length (columns_1 cols)
  ∧ length row3 = length (columns_3 cols incl_html).
Proof.
  intros Hlen H3.
  assert (length (row_set cols "tweet_url" (tweet_url_of cols row) row)
          = length (columns_1 cols)) as H1 by now apply length_row_set.
  split; [exact H1 |].
  eapply row_html_length; [exact H3 |]. now apply length_row_set.
Qed.

Lemma format_row_tweet_url (cols : list string) (incl_html : bool)
    (row row' : list value) :
  length row = length cols ->
  format_row cols incl_html row = Ok row' ->
  ∃ v j, Ok (tweet_url_of cols row) = Ok v
         ∧ row_kept j "tweet_url" v (columns_5 cols incl_html) row'.
Proof.
  intros Hlen (im & media & row3 & ty & _ & _ & H3 & _ & ->)%format_row_inv.
  destruct (row_kept_new cols "tweet_url" (tweet_url_of cols row) row Hlen)
    as [j Hkept].
  exists (tweet_url_of cols row), j. split; [reflexivity |].
  unfold columns_5, columns_4.
  apply row_kept_set; [discriminate |]. apply row_kept_set; [discriminate |].
  eapply row_html_kept; [discriminate | exact H3 |].
  apply row_kept_set; [discriminate | exact Hkept].
Qed.

Lemma format_row_tweet_count (cols : list string) (incl_html : bool)
    (row row' : list value) :
  length row = length cols ->
  format_row cols incl_html row = Ok row' ->
  ∃ v j, Ok (VInt 1) = Ok v
         ∧ row_kept j "tweet_count" v (columns_5 cols incl_html) row'.
Proof.
  intros Hlen (im & media & row3 & ty & _ & _ & H3 & _ & ->)%format_row_inv.
  destruct (format_row_lengths _ _ _ _ _ Hlen H3) as [_ Hlen3].
  destruct (row_kept_new (columns_4 cols incl_html) "tweet_count" (VInt 1)
              (row_set (columns_3 cols incl_html) "type" ty row3)) as [j Hj].
  { now apply length_row_set. }
  exists (VInt 1), j. split; [reflexivity | exact Hj].
Qed.

(** The raw media cell is read from the row as it came: setting
    tweet_url does not touch it. *)
Lemma raw_media_cell (cols : list string) (row : list value) (im : nat)
    (v : value) :
  length row = length cols ->
  index_of (columns_1 cols) "attachments.media" = Some im ->
  cell im (row_set cols "tweet_url" v row)
  = cell_of cols "attachments.media" row.
Proof.
  intros Hlen Him. unfold columns_1 in Him.
  rewrite index_of_columns_set_other in Him by discriminate.
  unfold cell_of. rewrite Him.
  eapply cell_row_set_other;
    [exact Hlen | eapply index_of_lookup, Him | discriminate].
Qed.

Lemma format_row_media (cols : list string) (incl_html : bool)
    (row row' : list value) :
  length row = length cols ->
  format_row cols incl_html row = Ok row' ->
  ∃ v j, media_of cols incl_html row = Ok v
         ∧ row_kept j "media" v (columns_5 cols incl_html) row'.
Proof.
  intros Hlen (im & media & row3 & ty & Him & Hm & H3 & _ & ->)%format_row_inv.
  rewrite (raw_media_cell _ _ _ _ Hlen Him) in Hm.
  destruct (format_row_lengths _ _ _ _ _ Hlen H3) as [Hlen1 _].
  set (row1 := row_set cols "tweet_url" (tweet_url_of cols row) row) in *.
  destruct (row_kept_new (columns_1 cols) "media" media row1 Hlen1)
    as [j Hkept].
  fold (columns_2 cols) in Hkept.
  unfold media_of. rewrite Hm. cbn [mbind result_bind].
  unfold columns_5, columns_4.
  unfold row_html, columns_3 in *. destruct incl_html.
  - apply bind_ok_inv in H3 as (k & Hk & H3).
    unfold row_step in H3. apply bind_ok_inv in H3 as (html & Hhtml & [= <-]).
    assert (cell k (row_set (columns_1 cols) "media" media row1) = media)
      as Hcell.
    { unfold locate in Hk.
      destruct (index_of (columns_2 cols) "media") as [k' |] eqn:Ek;
        [| discriminate].
      injection Hk as ->. apply cell_row_set; [exact Ek | exact Hlen1]. }
    rewrite Hcell in Hhtml.
    destruct (row_kept_new (columns_2 cols) "media" html
                (row_set (columns_1 cols) "media" media row1)) as [j' Hj'].
    { now apply length_row_set. }
    exists html, j'. split; [exact Hhtml |].
    apply row_kept_set; [discriminate |].
    apply row_kept_set; [discriminate | exact Hj'].
  - injection H3 as <-. exists media, j. split; [reflexivity |].
    apply row_kept_set; [discriminate |].
    apply row_kept_set; [discriminate | exact Hkept].
Qed.

(** The row handed to [find_tweet_type] holds, under every label
    other than tweet_url and media, what the row held as it came. *)
Lemma row_series_before_type (cols : list string) (incl_html : bool)
    (row row3 : list value) (media : value) (k : string) :
  k ≠ "tweet_url" ->
  k ≠ "media" ->
  length row = length cols ->
  row_html incl_html (columns_2 cols)
    (row_set (columns_1 cols) "media" media
       (row_set cols "tweet_url" (tweet_url_of cols row) row))
  = Ok row3 ->
  row_series (columns_3 cols incl_html) row3 !! k = row_series cols row !! k.
Proof.
  intros Hurl Hmedia Hlen H3.
  destruct (format_row_lengths _ _ _ _ _ Hlen H3) as [_ Hlen3].
  rewrite !row_series_lookup by assumption.
  assert (index_of (columns_3 cols incl_html) k = index_of cols k) as ->.
  { unfold columns_3, columns_2, columns_1.
    destruct incl_html; now rewrite !index_of_columns_set_other. }
  destruct (index_of cols k) as [i |] eqn:Ei; [| reflexivity].
  cbn [fmap option_fmap option_map]. f_equal.
  assert (row_kept i k (cell i row) (columns_3 cols incl_html) row3)
    as (_ & _ & Hcell).
  { eapply row_html_kept; [exact Hmedia | exact H3 |].
    apply row_kept_set; [exact Hmedia |].
    apply row_kept_set; [exact Hurl |].
    repeat split; [exact Hlen | now apply index_of_lookup]. }
  exact Hcell.
Qed.

Lemma format_row_type (cols : list string) (incl_html : bool)
    (row row' : list value) :
  length row = length cols ->
  format_row cols incl_html row = Ok row' ->
  ∃ v j, find_tweet_type (row_series cols row) = Ok v
         ∧ row_kept j "type" v (columns_5 cols incl_html) row'.
Proof.
  intros Hlen (im & media & row3 & ty & _ & _ & H3 & Hty & ->)%format_row_inv.
  destruct (format_row_lengths _ _ _ _ _ Hlen H3) as [_ Hlen3].
  destruct (row_kept_new (columns_3 cols incl_html) "type" ty row3 Hlen3)
    as [j Hkept].
  exists ty, j. split.
  - rewrite <- Hty. symmetry.
    apply find_tweet_type_ext;
      eapply row_series_before_type; try eassumption; discriminate.
  - unfold columns_5, columns_4.
    apply row_kept_set; [discriminate | exact Hkept].
Qed.

(** From the rows as they came to the rows as they are formatted, one
    by one. *)
Lemma format_rows_Forall2 (cols : list string) (incl_html : bool)
    (rs rs' : list (list value))
    (P : list value -> list value -> Prop) :
  Forall (fun row => length row = length cols) rs ->
  mapM (format_row cols incl_html) rs = Ok rs' ->
  (∀ row row', length row = length cols ->
               format_row cols incl_html row = Ok row' -> P row row') ->
  Forall2 P rs rs'.
Proof.
  intros Hrows Hmap HP. apply mapM_ok_Forall2 in Hmap.
  induction Hmap as [| row row' rs rs' Hrow _ IH]; [constructor |].
  apply Forall_cons in Hrows as [Hlen Hrows].
  constructor; [now apply HP | now apply IH].
Qed.

(** The tweet_url column of the formatted dataframe holds, row by
    row, the link made of the row's username and id, the username being
    that of "author.username" when the dataframe has that column and
    that of "username" otherwise. *)
Theorem format_df_tweet_url_column (df out : DataFrame) (incl_html : bool) :
  well_formed df ->
  format_df df incl_html = Ok out ->
  pd_getitem out "tweet_url"
  = Ok (map (tweet_url_of (columns df)) (rows df)).
Proof.
  destruct df as [cols rs]. intros [Hnd Hrows] Hout. cbn [columns rows] in *.
  apply format_df_ok_inv in Hout as (rs' & Hmap & _ & _ & _ & ->).
  rewrite <- (mapM_all_ok (fun row => Ok (tweet_url_of cols row))) by easy.
  apply pd_getitem_derived; [exact Hnd | |].
  - unfold DERIVED. rewrite !elem_of_cons. tauto.
  - eapply format_rows_Forall2; [exact Hrows | exact Hmap |].
    intros row row'. apply format_row_tweet_url.
Qed.


(** The type column of the formatted dataframe holds, row by row, the
    type that [find_tweet_type] gives the row as it came: the columns
    added before it do not change the classification. *)
Theorem format_df_type_column (df out : DataFrame) (incl_html : bool) :
  well_formed df ->
  format_df df incl_html = Ok out ->
  pd_getitem out "type"
  = mapM (fun row => find_tweet_type (row_series (columns df) row)) (rows df).
Proof.
  destruct df as [cols rs]. intros [Hnd Hrows] Hout. cbn [columns rows] in *.
  apply format_df_ok_inv in Hout as (rs' & Hmap & _ & _ & _ & ->).
  apply pd_getitem_derived; [exact Hnd | |].
  - unfold DERIVED. rewrite !elem_of_cons. tauto.
  - eapply format_rows_Forall2; [exact Hrows | exact Hmap |].
    intros row row'. apply format_row_type.
Qed.

(** The tweet_count column of the formatted dataframe holds 1 in
    every row, and the formatted dataframe has as many rows as the
    dataframe that came. *)
Theorem format_df_tweet_count_column (df out : DataFrame) (incl_html : bool) :
  well_formed df ->
  format_df df incl_html = Ok out ->
  pd_getitem out "tweet_count" = Ok (replicate (length (rows df)) (VInt 1))
  ∧ length (rows out) = length (rows df).
Proof.
  destruct df as [cols rs]. intros [Hnd Hrows] Hout. cbn [columns rows] in *.
  apply format_df_ok_inv in Hout as (rs' & Hmap & _ & _ & _ & ->).
  split; [| eapply mapM_ok_length, Hmap].
  transitivity (mapM (fun _ : list value => Ok (VInt 1)) rs).
  - apply pd_getitem_derived; [exact Hnd | |].
    + unfold DERIVED. rewrite !elem_of_cons. tauto.
    + eapply format_rows_Forall2; [exact Hrows | exact Hmap |].
      intros row row'. apply format_row_tweet_count.
  - rewrite (mapM_all_ok _ (fun _ => VInt 1)) by easy. f_equal.
    clear. induction rs as [| row rs IH]; [reflexivity |].
    simpl. now rewrite IH.
Qed.

Lemma format_df_tweet_url_column_witness :
  pd_getitem three_tweets_formatted "tweet_url"
  = Ok [ VStr "https://twitter.com/ann/status/1";
         VStr "https://twitter.com/bob/status/2";
         VStr "https://twitter.com/cy/status/3" ].
Proof.
  apply (format_df_tweet_url_column three_tweets three_tweets_formatted false).
  - exact well_formed_three_tweets.
  - exact format_df_three_tweets.
Defined.


Lemma format_df_type_column_witness :
  pd_getitem three_tweets_formatted "type"
  = mapM (fun row => find_tweet_type (row_series (columns three_tweets) row))
         (rows three_tweets).
Proof.
  apply (format_df_type_column three_tweets three_tweets_formatted false).
  - exact well_formed_three_tweets.
  - exact format_df_three_tweets.
Defined.

Lemma format_df_tweet_count_column_witness :
  pd_getitem three_tweets_formatted "tweet_count"
  = Ok (replicate (length (rows three_tweets)) (VInt 1))
  ∧ length (rows three_tweets_formatted) = length (rows three_tweets).
Proof.
  apply (format_df_tweet_count_column three_tweets three_tweets_formatted false).
  - exact well_formed_three_tweets.
  - exact format_df_three_tweets.
Defined.

(** ** The columns that the format pass renames *)

Lemma rename_column_of_source (s t : string) :
  (s, t) ∈ RENAMES -> rename_column s = t ∧ s ∉ DERIVED.
Proof.
  unfold RENAMES. intros H.
  repeat (apply elem_of_cons in H as [H | H];
          [injection H as -> ->; split;
           [reflexivity
           | unfold DERIVED; rewrite !not_elem_of_cons;
             repeat split; (discriminate || apply not_elem_of_nil)] |]).
  now apply elem_of_nil in H.
Qed.

(** A column that the rename table names keeps its place and its
    cells through the format pass, and is named as the table says. *)
Theorem format_df_renames_column (df out : DataFrame) (incl_html : bool)
    (i : nat) (s t : string) :
  well_formed df ->
  format_df df incl_html = Ok out ->
  (s, t) ∈ RENAMES ->
  columns df !! i = Some s ->
  columns out !! i = Some t
  ∧ map (cell i) (rows out) = map (cell i) (rows df).
Proof.
  destruct df as [cols rs]. intros [_ Hrows] Hout Hst Hi.
  cbn [columns rows] in *.
  apply rename_column_of_source in Hst as [Hrename Hder].
  apply format_df_ok_inv in Hout as (rs' & Hmap & _ & _ & _ & ->).
  cbn [columns rows].
  assert (Forall2 (fun row row' =>
            row_kept i s (cell i row) (columns_5 cols incl_html) row')
            rs rs') as Hkept.
  { eapply format_rows_Forall2; [exact Hrows | exact Hmap |].
    intros row row' Hlen Hrow.
    eapply format_row_kept; [exact Hder | exact Hrow |].
    repeat split; assumption. }
  split.
  - rewrite list_lookup_fmap.
    assert (columns_5 cols incl_html !! i = Some s) as ->.
    { unfold columns_5, columns_4, columns_3, columns_2, columns_1.
      destruct incl_html; repeat apply lookup_columns_set; exact Hi. }
    simpl. now rewrite Hrename.
  - clear Hmap Hrows.
    induction Hkept as [| row row' rs rs' (_ & _ & Hcell) _ IH];
      [reflexivity |].
    simpl. now rewrite Hcell, IH.
Qed.

Lemma well_formed_named_tweets : well_formed named_tweets.
Proof.
  split.
  - apply (bool_decide_unpack _). reflexivity.
  - repeat constructor.
Qed.

Lemma format_df_named_tweets :
  format_df named_tweets false = Ok named_tweets_formatted.
Proof. vm_compute. reflexivity. Qed.

Lemma format_df_renames_column_witness :
  columns named_tweets_formatted !! 2%nat = Some "name"
  ∧ map (cell 2) (rows named_tweets_formatted)
    = map (cell 2) (rows named_tweets).
Proof.
  apply (format_df_renames_column named_tweets named_tweets_formatted false
           2 "author.name" "name").
  - exact well_formed_named_tweets.
  - exact format_df_named_tweets.
  - apply (bool_decide_unpack _). reflexivity.
  - reflexivity.
Defined.

(** ** Missing columns *)

Lemma mapM_make_tweet_url_pairs (idxs : list nat) (rs : list (list value)) :
  length idxs = 2%nat ->
  is_Some (outcome
    (mapM make_tweet_url (map (fun row => map (fun i => cell i row) idxs) rs))).
Proof.
  intros Hlen. destruct idxs as [| u [| iid [| ? ?]]]; try discriminate.
  rewrite (mapM_all_ok _
    (fun cells => VStr ("https://twitter.com/" +:+ py_str (cell 0 cells)
                        +:+ "/status/" +:+ py_str (cell 1 cells)))).
  - simpl. eauto.
  - intros cells (row & -> & _)%list_elem_of_fmap. reflexivity.
Qed.

(** The column names that the format pass looks up: when one of them
    is missing the name checks raise [KeyError]. *)
Lemma format_columns_missing (cols : list string) (incl_html : bool) :
  index_of cols (username_of cols) = None
  ∨ index_of cols "id" = None
  ∨ index_of cols "attachments.media" = None ->
  format_columns cols incl_html = Raise KeyError.
Proof.
  intros H. unfold format_columns.
  destruct (check_tweet_url cols) as [cols1 | e] eqn:E1;
    [| now apply check_tweet_url_raise in E1 as ->].
  cbn [mbind result_bind].
  destruct (check_media cols) as [cols2 | e] eqn:E2;
    [| now apply check_media_raise in E2 as ->].
  exfalso. unfold check_tweet_url in E1.
  apply bind_ok_inv in E1 as (idxs & E1 & _).
  rewrite mapM_cons in E1. apply bind_ok_inv in E1 as (u & Eu & E1).
  apply bind_ok_inv in E1 as (? & E1 & _).
  rewrite mapM_cons in E1. apply bind_ok_inv in E1 as (iid & Eid & _).
  unfold check_media in E2. apply bind_ok_inv in E2 as (im & Em & _).
  unfold locate, columns_1 in *.
  rewrite index_of_columns_set_other in Em by discriminate.
  destruct H as [H | [H | H]]; rewrite H in *; discriminate.
Qed.

(** pandas does not call a row function on a dataframe without rows:
    [apply] tries the function on one row of NaN and, when that raises,
    returns the dataframe itself.  The embedding of [apply] calls the
    function on each row, which on no rows gives an empty series.  What
    the format pass returns or raises is therefore stated, from here on,
    for dataframes and partitions that have rows. *)

(** When the dataframe has no username column ("author.username" or
    "username"), no "id" column or no "attachments.media" column, the
    format pass raises [KeyError], on a pandas dataframe with rows and
    on a Dask dataframe (there, before anything is computed). *)
Theorem format_df_missing_column (cols : list string)
    (rs : list (list value)) (chunks : list (list (list value)))
    (incl_html : bool) :
  rs ≠ [] ->
  index_of cols (username_of cols) = None
  ∨ index_of cols "id" = None
  ∨ index_of cols "attachments.media" = None ->
  format_df (mkDataFrame cols rs) incl_html = Raise KeyError
  ∧ format_df (dd_from_partitions cols chunks) incl_html = Raise KeyError.
Proof.
  intros _ H. split.
  - rewrite format_df_pandas_unfold, add_columns_stages.
    cbn [columns]. unfold add_tweet_url. pandas_ops. unfold pd_select.
    cbn [columns rows].
    destruct (mapM (locate cols) [username_of cols; "id"]) as [idxs | e] eqn:E.
    + cbn [mbind result_bind]. unfold pd_apply, positional. cbn [rows].
      destruct (mapM_make_tweet_url_pairs idxs rs) as [urls Hurls].
      { apply mapM_ok_length in E. exact E. }
      destruct (mapM make_tweet_url _) as [urls' |]; [| discriminate].
      cbn [mbind result_bind]. unfold add_media. pandas_ops.
      unfold pd_getitem, pd_setitem. cbn [columns rows].
      assert (locate (columns_set cols "tweet_url") "attachments.media"
              = Raise KeyError) as ->; [| reflexivity].
      unfold locate. rewrite index_of_columns_set_other by discriminate.
      destruct H as [H | [H | H]]; [| | now rewrite H].
      * exfalso. rewrite mapM_cons in E.
        apply bind_ok_inv in E as (? & Eu & _).
        unfold locate in Eu. rewrite H in Eu. discriminate.
      * exfalso. rewrite mapM_cons in E.
        apply bind_ok_inv in E as (? & _ & E).
        apply bind_ok_inv in E as (? & E & _). rewrite mapM_cons in E.
        apply bind_ok_inv in E as (? & Eid & _).
        unfold locate in Eid. rewrite H in Eid. discriminate.
    + now apply mapM_locate_raise in E as ->.
  - rewrite format_df_dask, format_columns_missing by assumption. reflexivity.
Qed.

Lemma format_df_missing_column_witness :
  format_df
    (mkDataFrame tweets_without_id [[VStr "ann"; VNaN; VNaN; VNaN; VNaN]])
    true
  = Raise KeyError
  ∧ format_df
      (dd_from_partitions tweets_without_id
         [[[VStr "ann"; VNaN; VNaN; VNaN; VNaN]]])
      true
    = Raise KeyError.
Proof.
  apply (format_df_missing_column tweets_without_id).
  - discriminate.
  - right. left. reflexivity.
Defined.

(** ** What a Dask dataframe defers *)

Lemma locate_Some (cols : list string) (c : string) (i : nat) :
  index_of cols c = Some i -> locate cols c = Ok i.
Proof. intros H. unfold locate. now rewrite H. Qed.

Lemma format_columns_present (cols : list string) (incl_html : bool) :
  is_Some (index_of cols (username_of cols)) ->
  is_Some (index_of cols "id") ->
  is_Some (index_of cols "attachments.media") ->
  format_columns cols incl_html
  = Ok (map rename_column (columns_5 cols incl_html)).
Proof.
  intros [u Hu] [iid Hid] [im Him].
  unfold format_columns, check_tweet_url, check_media, check_html.
  rewrite !mapM_cons, (locate_Some _ _ _ Hu), (locate_Some _ _ _ Hid).
  cbn [mbind result_bind mapM mret result_ret].
  rewrite (locate_Some (columns_1 cols) "attachments.media" im).
  2: { unfold columns_1. now rewrite index_of_columns_set_other. }
  cbn [mbind result_bind].
  destruct incl_html; [| reflexivity].
  destruct (is_Some_index_of_columns_set (columns_1 cols) "media") as [k Hk].
  fold (columns_2 cols) in Hk. rewrite (locate_Some _ _ _ Hk). reflexivity.
Qed.

(** On a Dask dataframe that has the columns the format pass reads
    (and rows in every partition), the format pass returns whatever the
    rows hold: what it returns has the formatted column names, and each
    of its partitions will be what the format pass makes of that
    partition as a pandas dataframe, an exception included. *)
Theorem format_df_dask_defers (cols : list string)
    (chunks : list (list (list value))) (incl_html : bool) :
  Forall (fun chunk => chunk ≠ []) chunks ->
  is_Some (index_of cols (username_of cols)) ->
  is_Some (index_of cols "id") ->
  is_Some (index_of cols "attachments.media") ->
  format_df (dd_from_partitions cols chunks) incl_html
  = Ok (mkDaskDataFrame (map rename_column (columns_5 cols incl_html))
          (map (fun chunk => format_df (mkDataFrame cols chunk) incl_html)
               chunks)).
Proof.
  intros _ Hu Hid Hm. rewrite format_df_dask.
  rewrite format_columns_present by assumption. reflexivity.
Qed.

Lemma format_df_dask_defers_witness :
  format_df (dd_from_partitions tweets_columns [good_chunk; bad_chunk]) false
  = Ok (mkDaskDataFrame
          (map rename_column (columns_5 tweets_columns false))
          (map (fun chunk => format_df (mkDataFrame tweets_columns chunk) false)
               [good_chunk; bad_chunk])).
Proof.
  apply (format_df_dask_defers tweets_columns [good_chunk; bad_chunk] false).
  - repeat constructor; discriminate.
  - apply (bool_decide_unpack _). reflexivity.
  - apply (bool_decide_unpack _). reflexivity.
  - apply (bool_decide_unpack _). reflexivity.
Defined.

(** The second partition raises when it is computed, and so does the
    whole; the same rows in a pandas dataframe raise at once. *)
Example format_df_bad_chunk :
  format_df (mkDataFrame tweets_columns bad_chunk) false = Raise IndexError
  ∧ (ddf ← format_df (dd_from_partitions tweets_columns [good_chunk; bad_chunk])
             false;
     dd_compute ddf) = Raise IndexError
  ∧ format_df (mkDataFrame tweets_columns (good_chunk ++ bad_chunk)) false
    = Raise IndexError.
Proof. repeat split; vm_compute; reflexivity. Qed.




(** ** When the format pass returns *)

Lemma value_of_literal_not_NA (x : literal) : value_of_literal x ≠ VNA.
Proof. destruct x; discriminate. Qed.

Lemma get_image_url_not_NA (media url : value) :
  get_image_url media = Ok url -> url ≠ VNA.
Proof.
  unfold get_image_url. intros H.
  apply bind_ok_inv in H as (c & _ & H). destruct c.
  - apply bind_ok_inv in H as (x & _ & H).
    apply bind_ok_inv in H as (y & _ & H).
    apply bind_ok_inv in H as (z & _ & [= <-]).
    apply value_of_literal_not_NA.
  - injection H as <-. discriminate.
Qed.

Lemma get_image_html_not_NA (url : value) :
  url ≠ VNA -> ∃ html, get_image_html url = Ok html.
Proof.
  intros Hna. unfold get_image_html, ne_NO_IMAGE.
  destruct url; try congruence; cbn [mbind result_bind]; eauto.
  destruct (negb (String.eqb s NO_IMAGE)); eauto.
Qed.

(** What [get_image_url] returns, [get_image_html] accepts: the markup
    step raises on [pd.NA] only, which the url step never returns. *)
Theorem get_image_html_after_url (media url : value) :
  get_image_url media = Ok url ->
  url ≠ VNA ∧ ∃ html, get_image_html url = Ok html.
Proof.
  intros H. pose proof (get_image_url_not_NA _ _ H) as Hna.
  split; [exact Hna | now apply get_image_html_not_NA].
Qed.

Lemma get_image_html_after_url_witness :
  VStr "http://x/y.png" ≠ VNA
  ∧ ∃ html, get_image_html (VStr "http://x/y.png") = Ok html.
Proof.
  apply (get_image_html_after_url (VStr "[{'url': 'http://x/y.png'}]")).
  reflexivity.
Defined.

(** A row is formatted when the columns exist, its media cell decodes
    and it can be classified. *)
Lemma format_row_ok (cols : list string) (incl_html : bool)
    (row : list value) (media ty : value) :
  length row = length cols ->
  is_Some (index_of cols (username_of cols)) ->
  is_Some (index_of cols "id") ->
  is_Some (index_of cols "attachments.media") ->
  get_image_url (cell_of cols "attachments.media" row) = Ok media ->
  find_tweet_type (row_series cols row) = Ok ty ->
  ∃ row', format_row cols incl_html row = Ok row'.
Proof.
  intros Hlen [u Hu] [iid Hid] [im Him] Hmedia Hty.
  unfold format_row, row_tweet_url.
  rewrite !mapM_cons, (locate_Some _ _ _ Hu), (locate_Some _ _ _ Hid).
  cbn [mbind result_bind mapM mret result_ret].
  unfold row_step at 1. cbn [map]. rewrite make_tweet_url_pair.
  cbn [mbind result_bind].
  assert (VStr ("https://twitter.com/" +:+ py_str (cell u row)
                +:+ "/status/" +:+ py_str (cell iid row))
          = tweet_url_of cols row) as ->.
  { unfold tweet_url_of, cell_of. now rewrite Hu, Hid. }
  set (row1 := row_set cols "tweet_url" (tweet_url_of cols row) row).
  assert (index_of (columns_1 cols) "attachments.media" = Some im) as Him1.
  { unfold columns_1. now rewrite index_of_columns_set_other. }
  unfold row_media. rewrite (locate_Some _ _ _ Him1). cbn [mbind result_bind].
  unfold row_step at 1.
  assert (cell im row1 = cell_of cols "attachments.media" row) as ->
    by (apply raw_media_cell; assumption).
  rewrite Hmedia.
  cbn [mbind result_bind].
  set (row2 := row_set (columns_1 cols) "media" media row1).
  assert (∃ row3, row_html incl_html (columns_2 cols) row2 = Ok row3)
    as [row3 H3].
  { unfold row_html. destruct incl_html; [| eauto].
    destruct (is_Some_index_of_columns_set (columns_1 cols) "media")
      as [k Hk].
    fold (columns_2 cols) in Hk. rewrite (locate_Some _ _ _ Hk).
    cbn [mbind result_bind]. unfold row_step.
    assert (cell k row2 = media) as ->.
    { apply cell_row_set; [exact Hk | now apply length_row_set]. }
    destruct (get_image_html_not_NA media
                (get_image_url_not_NA _ _ Hmedia)) as [html ->].
    cbn [mbind result_bind]. eauto. }
  rewrite H3. cbn [mbind result_bind]. unfold row_type, row_step, labelled.
  fold (row_series (columns_3 cols incl_html) row3).
  assert (find_tweet_type (row_series (columns_3 cols incl_html) row3)
          = Ok ty) as ->.
  { rewrite <- Hty.
    apply find_tweet_type_ext;
      eapply row_series_before_type; try eassumption; discriminate. }
  cbn [mbind result_bind]. unfold row_count. eauto.
Qed.

Lemma outcome_is_Some {A : Type} (r : result A) :
  is_Some (outcome r) ↔ ∃ a, r = Ok a.
Proof.
  destruct r as [a | e]; simpl; split.
  - eauto.
  - intros _. eauto.
  - intros [a H]. discriminate.
  - intros [a H]. discriminate.
Qed.

Lemma format_row_formattable (cols : list string) (incl_html : bool)
    (row row' : list value) :
  length row = length cols ->
  format_row cols incl_html row = Ok row' ->
  formattable_row cols row.
Proof.
  intros Hlen Hrow. split; apply outcome_is_Some.
  - destruct (format_row_media _ _ _ _ Hlen Hrow) as (v & j & Hm & _).
    unfold media_of in Hm. apply bind_ok_inv in Hm as (url & Hurl & _). eauto.
  - destruct (format_row_type _ _ _ _ Hlen Hrow) as (v & j & Hty & _). eauto.
Qed.

Lemma format_rows_ok (cols : list string) (incl_html : bool)
    (rs : list (list value)) :
  has_read_columns cols ->
  Forall (fun row => length row = length cols) rs ->
  Forall (formattable_row cols) rs ->
  ∃ rs', mapM (format_row cols incl_html) rs = Ok rs'.
Proof.
  intros (Hu & Hid & Hm) Hlens Hrows.
  induction rs as [| row rs IH]; [eexists; reflexivity |].
  apply Forall_cons in Hlens as [Hlen Hlens].
  apply Forall_cons in Hrows as [[Hmedia Hty] Hrows].
  apply outcome_is_Some in Hmedia as [media Hmedia].
  apply outcome_is_Some in Hty as [ty Hty].
  destruct (format_row_ok cols incl_html row media ty) as [row' Hrow];
    try assumption.
  destruct (IH Hlens Hrows) as [rs' Hrs].
  exists (row' :: rs'). rewrite mapM_cons, Hrow, Hrs. reflexivity.
Qed.

(** The format pass returns on a well-formed pandas dataframe with
    rows exactly when the dataframe has the columns that the pass reads
    (a username column, "id" and "attachments.media"), the media cell of
    every row decodes and every row can be classified; [incl_html] plays
    no part. *)
Theorem format_df_returns_iff (df : DataFrame) (incl_html : bool) :
  rows df ≠ [] ->
  well_formed df ->
  is_Some (outcome (format_df df incl_html))
  ↔ has_read_columns (columns df)
    ∧ Forall (formattable_row (columns df)) (rows df).
Proof.
  destruct df as [cols rs]. intros _ [_ Hlens]. cbn [columns rows] in *. split.
  - intros [out Hout]. apply outcome_ok_inv in Hout.
    apply format_df_ok_inv in Hout as (rs' & Hmap & Hu & Hid & Hm & _).
    split.
    + repeat split; try assumption.
      unfold columns_1 in Hm.
      now rewrite index_of_columns_set_other in Hm.
    + assert (Forall2 (fun row _ => formattable_row cols row) rs rs') as H2.
      { eapply format_rows_Forall2; [exact Hlens | exact Hmap |].
        intros row row'. apply format_row_formattable. }
      clear Hmap Hlens. induction H2; constructor; assumption.
  - intros [Hcols Hrows].
    destruct (format_rows_ok cols incl_html rs Hcols Hlens Hrows)
      as [rs' Hrs].
    destruct Hcols as (Hu & Hid & Hm).
    rewrite (format_df_rowwise cols incl_html rs).
    rewrite format_columns_present, Hrs by assumption.
    simpl. eauto.
Qed.

Lemma format_df_returns_iff_witness :
  is_Some (outcome (format_df three_tweets true))
  ↔ has_read_columns (columns three_tweets)
    ∧ Forall (formattable_row (columns three_tweets)) (rows three_tweets).
Proof.
  apply (format_df_returns_iff three_tweets true).
  - discriminate.
  - exact well_formed_three_tweets.
Defined.

(** ** Removing "date" from the tracked datetime columns *)

Lemma list_remove_first (l l' : list string) (x : string) :
  TWITTER_DT.list_remove l x = Ok l' ->
  ∃ before after,
    occurrences x before = O ∧ l = before ++ x :: after ∧ l' = before ++ after.
Proof.
  revert l'. induction l as [| y l IH]; intros l' H; [discriminate |].
  simpl in H. destruct (String.eqb_spec y x) as [-> | Hne].
  - injection H as <-. exists [], l. repeat split.
  - apply bind_ok_inv in H as (rest & Hrest & [= <-]).
    destruct (IH rest Hrest) as (before & after & Hocc & -> & ->).
    exists (y :: before), after. repeat split. simpl.
    destruct (String.eqb_spec y x); [contradiction | exact Hocc].
Qed.

Lemma list_remove_raise (l : list string) (x : string) (e : exn) :
  TWITTER_DT.list_remove l x = Raise e -> occurrences x l = O.
Proof.
  induction l as [| y l IH]; [reflexivity |]. simpl.
  destruct (String.eqb y x); [discriminate |].
  destruct (TWITTER_DT.list_remove l x) as [rest | e'];
    cbn [mbind result_bind]; [discriminate |].
  intros [= ->]. now apply IH.
Qed.

(** [remove_date] takes the first "date" entry out of the tracked
    list and leaves every other entry, later "date" entries included,
    where it is; a list without a "date" entry is left as it is. *)
Theorem remove_date_first_entry (cols : list string) :
  (occurrences "date" cols = O ∧ TWITTER_DT.remove_date cols = cols)
  ∨ ∃ before after,
      occurrences "date" before = O
      ∧ cols = before ++ "date" :: after
      ∧ TWITTER_DT.remove_date cols = before ++ after.
Proof.
  unfold TWITTER_DT.remove_date.
  destruct (TWITTER_DT.list_remove cols "date") as [cols' | e] eqn:E.
  - right. apply list_remove_first in E as (before & after & H0 & -> & ->).
    eauto.
  - left. split; [eapply list_remove_raise, E | reflexivity].
Qed.

Lemma list_remove_append_absent (l : list string) (x : string) :
  occurrences x l = O -> TWITTER_DT.list_remove (l ++ [x]) x = Ok l.
Proof.
  induction l as [| y l IH]; simpl; intros H.
  - now rewrite String.eqb_refl.
  - destruct (String.eqb y x); [discriminate |].
    now rewrite IH.
Qed.

(** On a tracked list without a "date" entry, [remove_date] undoes
    [incl_date]; it undoes one call only: after two calls of
    [incl_date], one "date" entry is left. *)
Theorem remove_date_undoes_incl_date (cols : list string) :
  occurrences "date" cols = O ->
  TWITTER_DT.remove_date (TWITTER_DT.incl_date cols) = cols
  ∧ TWITTER_DT.remove_date (TWITTER_DT.incl_date (TWITTER_DT.incl_date cols))
    = TWITTER_DT.incl_date cols.
Proof.
  intros H. unfold TWITTER_DT.remove_date, TWITTER_DT.incl_date,
    TWITTER_DT.list_append.
  split.
  - now rewrite list_remove_append_absent.
  - assert (TWITTER_DT.list_remove ((cols ++ ["date"]) ++ ["date"]) "date"
            = Ok (cols ++ ["date"])) as ->; [| reflexivity].
    rewrite <- app_assoc. simpl.
    clear -H. induction cols as [| y cols IH]; simpl in *; [reflexivity |].
    destruct (String.eqb y "date"); [discriminate |].
    now rewrite IH.
Qed.

Lemma remove_date_undoes_incl_date_witness :
  TWITTER_DT.remove_date (TWITTER_DT.incl_date TWITTER_DT._columns)
  = TWITTER_DT._columns
  ∧ TWITTER_DT.remove_date
      (TWITTER_DT.incl_date (TWITTER_DT.incl_date TWITTER_DT._columns))
    = TWITTER_DT.incl_date TWITTER_DT._columns.
Proof.
  apply (remove_date_undoes_incl_date TWITTER_DT._columns). reflexivity.
Defined.

(** When "date" is tracked already, [incl_date] followed by
    [remove_date] does not give the list back: the first entry goes,
    the appended one stays. *)
Example remove_date_after_incl_date_moves_date :
  TWITTER_DT.remove_date (TWITTER_DT.incl_date ["date"; "created_at"])
  = ["created_at"; "date"].
Proof. reflexivity. Qed.

(** ** What [add_date] leaves and what it raises *)

(** Reading a column other than the one that was just set. *)
Lemma pd_getitem_setitem_other (df : DataFrame) (c c' : string)
    (vals : list value) :
  well_formed df ->
  length vals = length (rows df) ->
  c ≠ c' ->
  pd_getitem (pd_setitem df c' vals) c = pd_getitem df c.
Proof.
  intros [_ Hrows] Hlen Hne. unfold pd_getitem, locate. cbn [columns rows pd_setitem].
  rewrite index_of_columns_set_other by assumption.
  destruct (index_of (columns df) c) as [i |] eqn:E; [| reflexivity].
  cbn [mbind result_bind]. f_equal.
  apply index_of_lookup in E.
  revert vals Hlen. induction Hrows as [| row rs Hrow _ IH]; intros vals Hlen.
  - reflexivity.
  - destruct vals as [| v vals]; [discriminate |]. simpl.
    rewrite (cell_row_set_other _ _ _ _ _ _ Hrow E Hne). f_equal.
    apply IH. simpl in Hlen. lia.
Qed.

Lemma columns_set_twice (cols : list string) (c : string) :
  columns_set (columns_set cols c) c = columns_set cols c.
Proof.
  destruct (index_of_columns_set cols c) as (j & Hj & _).
  unfold columns_set at 1. now rewrite Hj.
Qed.

Lemma row_set_twice (cols : list string) (c : string) (v v' : value)
    (row : list value) :
  length row = length cols ->
  row_set (columns_set cols c) c v' (row_set cols c v row)
  = row_set cols c v' row.
Proof.
  intros Hlen. unfold row_set at 1. unfold columns_set, row_set.
  destruct (index_of cols c) as [i |] eqn:E.
  - rewrite E. apply list_insert_insert_eq.
  - rewrite index_of_app_fresh by assumption. rewrite <- Hlen.
    rewrite insert_app_r_alt by lia. now rewrite Nat.sub_diag.
Qed.

(** Setting a column twice is setting it to the second series. *)
Lemma pd_setitem_twice (df : DataFrame) (c : string) (vals vals' : list value) :
  well_formed df ->
  length vals = length (rows df) ->
  length vals' = length (rows df) ->
  pd_setitem (pd_setitem df c vals) c vals' = pd_setitem df c vals'.
Proof.
  intros [_ Hrows] Hlen Hlen'. unfold pd_setitem. cbn [columns rows].
  rewrite columns_set_twice. f_equal.
  revert vals vals' Hlen Hlen'.
  induction Hrows as [| row rs Hrow _ IH]; intros vals vals' Hlen Hlen'.
  - reflexivity.
  - destruct vals as [| v vals]; [discriminate |].
    destruct vals' as [| v' vals']; [discriminate |]. simpl.
    rewrite row_set_twice by assumption. f_equal.
    apply IH; simpl in *; lia.
Qed.

(** What [add_date] returns on a datetime series: the dataframe with
    its "date" column set to the midnights. *)
Lemma add_date_unfold (df : DataFrame) (created_at : list value)
    (cells : list (option Timestamp)) :
  well_formed df ->
  pd_getitem df "created_at" = Ok created_at ->
  TWITTER_DT.dt created_at = Ok cells ->
  TWITTER_DT.add_date df
  = Ok (pd_setitem df "date"
          (map (fun c => TWITTER_DT.of_datetime (midnight <$> c)) cells)).
Proof.
  intros Hwf Hget Hdt.
  destruct (dt_zones_agree _ _ Hdt) as [Hz Hlen].
  pose proof (pd_getitem_length _ _ _ Hget) as Hrows.
  unfold TWITTER_DT.add_date, TWITTER_DT.dt_normalize,
    TWITTER_DT.dt_tz_localize_None.
  rewrite Hget. cbn [mbind result_bind]. rewrite Hdt. cbn [mbind result_bind].
  set (date := map (fun c => TWITTER_DT.of_datetime (TWITTER_DT.normalize <$> c))
                   cells).
  assert (length date = length (rows df)) as Hdate.
  { unfold date. rewrite length_map. congruence. }
  rewrite (pd_getitem_setitem df "date" date Hwf Hdate).
  cbn [mbind result_bind].
  assert (TWITTER_DT.dt date = Ok (map (fmap TWITTER_DT.normalize) cells)) as ->.
  { apply dt_of_datetime_map; [| assumption].
    intros t t' H. now rewrite !ts_tz_normalize. }
  cbn [mbind result_bind]. f_equal. rewrite map_map.
  rewrite pd_setitem_twice; [| assumption | assumption |].
  - f_equal. apply map_ext. intros [t |]; simpl; [| reflexivity].
    now rewrite tz_localize_None_normalize.
  - rewrite length_map. congruence.
Qed.

Lemma mapM_as_datetime_raise (series : list value) (e : exn) :
  mapM TWITTER_DT.as_datetime series = Raise e -> e = AttributeError.
Proof.
  induction series as [| v series IH]; [discriminate |]. rewrite mapM_cons.
  destruct (TWITTER_DT.as_datetime v) as [c | e'] eqn:E; cbn [mbind result_bind].
  - destruct (mapM TWITTER_DT.as_datetime series); cbn [mbind result_bind];
      [discriminate |].
    intros [= <-]. now apply IH.
  - intros [= <-]. destruct v; simpl in E; congruence.
Qed.

Lemma dt_raise (series : list value) (e : exn) :
  TWITTER_DT.dt series = Raise e -> e = AttributeError.
Proof.
  unfold TWITTER_DT.dt.
  destruct (mapM TWITTER_DT.as_datetime series) as [cells | e'] eqn:E;
    cbn [mbind result_bind].
  - destruct (TWITTER_DT.zones_agree cells); congruence.
  - intros [= <-]. eapply mapM_as_datetime_raise, E.
Qed.

(** The three ways [add_date] ends on a well-formed dataframe. *)
Lemma add_date_cases (df : DataFrame) :
  well_formed df ->
  (index_of (columns df) "created_at" = None
   ∧ TWITTER_DT.add_date df = Raise KeyError)
  ∨ (∃ created_at,
        pd_getitem df "created_at" = Ok created_at
        ∧ TWITTER_DT.dt created_at = Raise AttributeError
        ∧ TWITTER_DT.add_date df = Raise AttributeError)
  ∨ (∃ created_at cells,
        pd_getitem df "created_at" = Ok created_at
        ∧ TWITTER_DT.dt created_at = Ok cells
        ∧ TWITTER_DT.add_date df
          = Ok (pd_setitem df "date"
                  (map (fun c => TWITTER_DT.of_datetime (midnight <$> c))
                       cells))).
Proof.
  intros Hwf.
  destruct (index_of (columns df) "created_at") as [i |] eqn:Ei.
  - right.
    assert (pd_getitem df "created_at" = Ok (map (cell i) (rows df))) as Hget.
    { unfold pd_getitem, locate. now rewrite Ei. }
    destruct (TWITTER_DT.dt (map (cell i) (rows df))) as [cells | e] eqn:Edt.
    + right. exists (map (cell i) (rows df)), cells.
      repeat split; try assumption.
      now apply (add_date_unfold df (map (cell i) (rows df))).
    + left. exists (map (cell i) (rows df)).
      pose proof (dt_raise _ _ Edt) as ->. repeat split; try assumption.
      unfold TWITTER_DT.add_date, TWITTER_DT.dt_normalize.
      rewrite Hget. cbn [mbind result_bind]. now rewrite Edt.
  - left. split; [reflexivity |].
    unfold TWITTER_DT.add_date, pd_getitem, locate. now rewrite Ei.
Qed.

(** When [add_date] returns on a well-formed dataframe, what it
    returns is well formed, has the same number of rows, has the
    columns of the dataframe with "date" added at the end unless it is
    there already, and holds in every column other than "date" the
    cells that the dataframe held. *)
Theorem add_date_keeps_other_columns (df df' : DataFrame) :
  well_formed df ->
  TWITTER_DT.add_date df = Ok df' ->
  well_formed df'
  ∧ columns df' = columns_set (columns df) "date"
  ∧ length (rows df') = length (rows df)
  ∧ ∀ c, c ≠ "date" -> pd_getitem df' c = pd_getitem df c.
Proof.
  intros Hwf Hadd.
  destruct (add_date_cases df Hwf)
    as [[_ H] | [(s & _ & _ & H) | (s & cells & Hget & Hdt & H)]];
    rewrite H in Hadd; try discriminate.
  injection Hadd as <-.
  assert (length (map (fun c => TWITTER_DT.of_datetime (midnight <$> c)) cells)
          = length (rows df)) as Hlen.
  { rewrite length_map. destruct (dt_zones_agree _ _ Hdt) as [_ ->].
    eapply pd_getitem_length, Hget. }
  repeat split.
  - apply well_formed_setitem, Hwf.
  - apply well_formed_setitem, Hwf.
  - now apply length_rows_setitem.
  - intros c Hc. now apply pd_getitem_setitem_other.
Qed.

Lemma add_date_keeps_other_columns_witness :
  well_formed (pd_setitem may_day_tweets "date"
                 [VTimestamp (timestamp_of_civil 2023 5 1 0 0 0 0); VNaT])
  ∧ columns (pd_setitem may_day_tweets "date"
               [VTimestamp (timestamp_of_civil 2023 5 1 0 0 0 0); VNaT])
    = columns_set (columns may_day_tweets) "date"
  ∧ length (rows (pd_setitem may_day_tweets "date"
                    [VTimestamp (timestamp_of_civil 2023 5 1 0 0 0 0); VNaT]))
    = length (rows may_day_tweets)
  ∧ ∀ c, c ≠ "date" ->
         pd_getitem (pd_setitem may_day_tweets "date"
                       [VTimestamp (timestamp_of_civil 2023 5 1 0 0 0 0); VNaT])
                    c
         = pd_getitem may_day_tweets c.
Proof.
  apply (add_date_keeps_other_columns may_day_tweets).
  - exact well_formed_may_day_tweets.
  - vm_compute. reflexivity.
Defined.

(** [add_date] is idempotent: on the dataframe that it returned, it
    returns that dataframe. *)
Theorem add_date_idempotent (df df' : DataFrame) :
  well_formed df ->
  TWITTER_DT.add_date df = Ok df' ->
  TWITTER_DT.add_date df' = Ok df'.
Proof.
  intros Hwf Hadd.
  destruct (add_date_cases df Hwf)
    as [[_ H] | [(s & _ & _ & H) | (s & cells & Hget & Hdt & H)]];
    rewrite H in Hadd; try discriminate.
  injection Hadd as <-.
  set (date := map (fun c => TWITTER_DT.of_datetime (midnight <$> c)) cells).
  assert (length date = length (rows df)) as Hlen.
  { unfold date. rewrite length_map. destruct (dt_zones_agree _ _ Hdt) as [_ ->].
    eapply pd_getitem_length, Hget. }
  rewrite (add_date_unfold (pd_setitem df "date" date) s cells).
  - fold date. now rewrite pd_setitem_twice.
  - now apply well_formed_setitem.
  - rewrite pd_getitem_setitem_other; [exact Hget | | | discriminate];
      assumption.
  - exact Hdt.
Qed.

Lemma add_date_idempotent_witness :
  TWITTER_DT.add_date
    (pd_setitem may_day_tweets "date"
       [VTimestamp (timestamp_of_civil 2023 5 1 0 0 0 0); VNaT])
  = Ok (pd_setitem may_day_tweets "date"
          [VTimestamp (timestamp_of_civil 2023 5 1 0 0 0 0); VNaT]).
Proof.
  apply (add_date_idempotent may_day_tweets).
  - exact well_formed_may_day_tweets.
  - vm_compute. reflexivity.
Defined.

(** [add_date] raises on a well-formed dataframe with rows in two
    cases only: [KeyError] when the dataframe has no "created_at"
    column, and [AttributeError] when that column is not a datetime
    series (a cell that is neither a timestamp nor [NaT], or timestamps
    of different time zones). *)
Theorem add_date_raises (df : DataFrame) (e : exn) :
  rows df ≠ [] ->
  well_formed df ->
  TWITTER_DT.add_date df = Raise e ->
  (e = KeyError ∧ index_of (columns df) "created_at" = None)
  ∨ (e = AttributeError
     ∧ ∃ created_at,
         pd_getitem df "created_at" = Ok created_at
         ∧ TWITTER_DT.dt created_at = Raise AttributeError).
Proof.
  intros _ Hwf Hadd.
  destruct (add_date_cases df Hwf)
    as [[Hi H] | [(s & Hget & Hdt & H) | (s & cells & _ & _ & H)]];
    rewrite H in Hadd; try discriminate; injection Hadd as <-.
  - left. split; [reflexivity | exact Hi].
  - right. split; [reflexivity |]. eauto.
Qed.

Lemma add_date_raises_witness :
  (AttributeError = KeyError
   ∧ index_of (columns (mkDataFrame ["id"; "created_at"]
                          [[VStr "1"; VStr "2023-05-01T14:32:00.000Z"]]))
              "created_at" = None)
  ∨ (AttributeError = AttributeError
     ∧ ∃ created_at,
         pd_getitem (mkDataFrame ["id"; "created_at"]
                       [[VStr "1"; VStr "2023-05-01T14:32:00.000Z"]])
                    "created_at" = Ok created_at
         ∧ TWITTER_DT.dt created_at = Raise AttributeError).
Proof.
  apply (add_date_raises
           (mkDataFrame ["id"; "created_at"]
              [[VStr "1"; VStr "2023-05-01T14:32:00.000Z"]])).
  - discriminate.
  - split; [apply (bool_decide_unpack _); reflexivity | repeat constructor].
  - reflexivity.
Defined.

(** ** The schema map and the other tables *)

(** A column that the format pass renames has the same dtype under
    its new name as under its old one, wherever the schema map has an
    entry for both. *)
Theorem rename_keeps_dtype (s t ds dt : string) :
  (s, t) ∈ RENAMES ->
  create_dtypes !! s = Some ds ->
  create_dtypes !! t = Some dt ->
  ds = dt.
Proof.
  unfold RENAMES. intros H.
  repeat (apply elem_of_cons in H as [H | H];
          [injection H as -> ->; vm_compute; congruence |]).
  now apply elem_of_nil in H.
Qed.

Lemma rename_keeps_dtype_witness : "boolean" = "boolean".
Proof.
  apply (rename_keeps_dtype "author.verified" "verified").
  - apply (bool_decide_unpack _). reflexivity.
  - reflexivity.
  - reflexivity.
Defined.

(** Every tracked datetime column, "date" included once it is
    tracked, is read with the dtype "object": the schema map leaves the
    conversion to the date parser. *)
Theorem datetime_columns_are_objects (c : string) :
  c ∈ TWITTER_DT.incl_date TWITTER_DT._columns ->
  TWITTER_DTYPES !! c = Some "object".
Proof.
  unfold TWITTER_DT.incl_date, TWITTER_DT.list_append, TWITTER_DT._columns.
  simpl. intros H.
  repeat (apply elem_of_cons in H as [-> | H]; [reflexivity |]).
  now apply elem_of_nil in H.
Qed.

Lemma datetime_columns_are_objects_witness :
  TWITTER_DTYPES !! "created_at" = Some "object".
Proof.
  apply (datetime_columns_are_objects "created_at").
  apply (bool_decide_unpack _). reflexivity.
Defined.

(** ** What [find_tweet_type] returns and raises *)

Lemma not_isna_cases (v : value) :
  (∃ b, not_isna v = Ok b) ∨ not_isna v = Raise ValueError.
Proof.
  destruct v; simpl; eauto. destruct (sole_element l); eauto.
Qed.

Lemma series_get_cases (tweet : Series) (label : string) :
  (∃ v, series_get tweet label = Ok v) ∨ series_get tweet label = Raise KeyError.
Proof. unfold series_get. destruct (tweet !! label); eauto. Qed.

(** On any row whatever, [find_tweet_type] returns one of the five
    types or raises: [KeyError] for a referenced-tweet id column that
    the row lacks, [ValueError] for an id cell that is a list without a
    truth value. *)
Theorem find_tweet_type_outcomes (tweet : Series) :
  match find_tweet_type tweet with
  | Ok v => ∃ s, v = VStr s ∧ s ∈ TWEET_TYPES
  | Raise e => e = KeyError ∨ e = ValueError
  end.
Proof.
  assert (∀ s, s ∈ TWEET_TYPES -> ∃ s', VStr s = VStr s' ∧ s' ∈ TWEET_TYPES)
    as Hin by eauto.
  assert ("retweet" ∈ TWEET_TYPES ∧ "quote/reply" ∈ TWEET_TYPES
          ∧ "quote" ∈ TWEET_TYPES ∧ "reply" ∈ TWEET_TYPES
          ∧ "original" ∈ TWEET_TYPES) as (H1 & H2 & H3 & H4 & H5).
  { unfold TWEET_TYPES. rewrite !elem_of_cons. tauto. }
  unfold find_tweet_type.
  destruct (series_get_cases tweet RETWEETED_ID) as [[r ->] | ->];
    cbn [mbind result_bind]; [| tauto].
  destruct (not_isna_cases r) as [[[] ->] | ->];
    cbn [mbind result_bind]; [eauto | | tauto].
  destruct (series_get_cases tweet QUOTED_ID) as [[q ->] | ->];
    cbn [mbind result_bind]; [| tauto].
  destruct (not_isna_cases q) as [[[] ->] | ->];
    cbn [mbind result_bind]; [| | tauto];
    (destruct (series_get_cases tweet REPLIED_TO_ID) as [[p ->] | ->];
     cbn [mbind result_bind]; [| tauto];
     destruct (not_isna_cases p) as [[[] ->] | ->];
     cbn [mbind result_bind]; eauto).
Qed.

(** ** Tweet links *)

Lemma append_cons (c : ascii) (a b : string) :
  String c a +:+ b = String c (a +:+ b).
Proof. reflexivity. Qed.

Lemma append_inj_r (p a b : string) : p +:+ a = p +:+ b -> a = b.
Proof.
  induction p as [| c p IH]; intros H; [exact H |].
  rewrite !append_cons in H. injection H as H. now apply IH.
Qed.

(** Text without a slash before "/status/": the places of the first
    slash agree. *)
Lemma append_status_inj (u u' i i' : string) :
  string_mem "/" u = false ->
  string_mem "/" u' = false ->
  u +:+ "/status/" +:+ i = u' +:+ "/status/" +:+ i' ->
  u = u' ∧ i = i'.
Proof.
  revert u'. induction u as [| c u IH]; intros [| c' u'] Hu Hu' H.
  - split; [reflexivity |]. now apply (append_inj_r "/status/").
  - exfalso. rewrite append_cons in H.
    change (EmptyString +:+ "/status/" +:+ i) with (String "/" ("status/" +:+ i)) in H.
    injection H as <- _. simpl in Hu'. discriminate.
  - exfalso. rewrite append_cons in H.
    change (EmptyString +:+ "/status/" +:+ i') with (String "/" ("status/" +:+ i')) in H.
    injection H as -> _. simpl in Hu. discriminate.
  - rewrite !append_cons in H. injection H as -> H.
    simpl in Hu, Hu'. apply orb_false_iff in Hu as [_ Hu].
    apply orb_false_iff in Hu' as [_ Hu'].
    destruct (IH u' Hu Hu' H) as [-> ->]. split; reflexivity.
Qed.

(** Two tweets have the same link only when they have the same
    username and the same id, usernames having no slash in them. *)
Theorem make_tweet_url_injective (u i u' i' : string) :
  string_mem "/" u = false ->
  string_mem "/" u' = false ->
  make_tweet_url [VStr u; VStr i] = make_tweet_url [VStr u'; VStr i'] ->
  u = u' ∧ i = i'.
Proof.
  intros Hu Hu' H. rewrite !make_tweet_url_pair in H. injection H as H.
  cbn [py_str] in H. apply append_inj_r in H.
  now apply append_status_inj.
Qed.

Lemma make_tweet_url_injective_witness : "ann" = "ann" ∧ "1" = "1".
Proof.
  apply (make_tweet_url_injective "ann" "1" "ann" "1"); reflexivity.
Defined.

(** A username with a slash in it can give the link of another
    tweet. *)
Example make_tweet_url_slash :
  make_tweet_url [VStr "a/status/1"; VStr "2"]
  = make_tweet_url [VStr "a"; VStr "1/status/2"].
Proof. reflexivity. Qed.

(** ** Witnesses on small datasets *)

(** A retweet whose row has neither a quoted nor a replied-to id
    column. *)
Lemma find_tweet_type_retweet_witness :
  find_tweet_type {[ RETWEETED_ID := VStr "1" ]} = Ok (VStr "retweet").
Proof.
  apply (find_tweet_type_retweet {[ RETWEETED_ID := VStr "1" ]} (VStr "1"));
    reflexivity.
Defined.

(** The "text" column of three tweets cut into two partitions. *)
Lemma format_df_dask_keeps_other_columns_witness :
  columns three_tweets_formatted !! 6%nat = Some "text"
  ∧ map (cell 6) (rows three_tweets_formatted)
    = map (cell 6)
          (concat [take 1 (rows three_tweets); drop 1 (rows three_tweets)]).
Proof.
  apply (format_df_dask_keeps_other_columns (columns three_tweets)
           [take 1 (rows three_tweets); drop 1 (rows three_tweets)]
           three_tweets_formatted false 6 "text").
  - repeat constructor.
  - vm_compute. reflexivity.
  - reflexivity.
  - apply (bool_decide_unpack _). reflexivity.
  - apply (bool_decide_unpack _). reflexivity.
Defined.

(** ** The shape of the formatted dataframe *)

Lemma NoDup_rename_columns_set (cols : list string) (d : string) :
  d ∈ DERIVED ->
  NoDup (map rename_column cols) ->
  NoDup (map rename_column (columns_set cols d)).
Proof.
  intros Hd Hnd. unfold columns_set.
  destruct (index_of cols d) eqn:E; [assumption |].
  rewrite map_app. apply NoDup_app. split; [assumption |]. split.
  - intros x Hx Hx'. simpl in Hx'. apply list_elem_of_singleton in Hx' as ->.
    apply list_elem_of_fmap in Hx as (c & Hc & Hin).
    rewrite (rename_column_of_derived d Hd) in Hc. symmetry in Hc.
    apply (rename_column_derived c d Hd) in Hc as ->.
    now apply index_of_None in E.
  - apply NoDup_singleton.
Qed.

Lemma NoDup_rename_columns_5 (cols : list string) (incl_html : bool) :
  NoDup (map rename_column cols) ->
  NoDup (map rename_column (columns_5 cols incl_html)).
Proof.
  intros H. unfold columns_5, columns_4, columns_3, columns_2, columns_1.
  destruct incl_html;
    repeat (apply NoDup_rename_columns_set;
            [unfold DERIVED; rewrite !elem_of_cons; tauto |]);
    exact H.
Qed.

Lemma format_row_length (cols : list string) (incl_html : bool)
    (row row' : list value) :
  length row = length cols ->
  format_row cols incl_html row = Ok row' ->
  length row' = length (columns_5 cols incl_html).
Proof.
  intros Hlen Hrow.
  destruct (format_row_tweet_count _ _ _ _ Hlen Hrow) as (v & j & _ & H & _).
  exact H.
Qed.

(** The formatted dataframe has a cell per column in every row, and
    its column names are distinct when renaming does not make two
    columns of the dataframe that came share a name. *)
Theorem format_df_well_formed (df out : DataFrame) (incl_html : bool) :
  well_formed df ->
  NoDup (map rename_column (columns df)) ->
  format_df df incl_html = Ok out ->
  well_formed out.
Proof.
  destruct df as [cols rs]. intros [_ Hrows] Hnd Hout. cbn [columns rows] in *.
  apply format_df_ok_inv in Hout as (rs' & Hmap & _ & _ & _ & ->).
  split; cbn [columns rows].
  - now apply NoDup_rename_columns_5.
  - rewrite length_map.
    assert (Forall2 (fun _ row' =>
              length row' = length (columns_5 cols incl_html)) rs rs') as H2.
    { eapply format_rows_Forall2; [exact Hrows | exact Hmap |].
      intros row row'. apply format_row_length. }
    clear Hmap Hrows. induction H2; constructor; assumption.
Qed.

Lemma format_df_well_formed_witness : well_formed three_tweets_formatted.
Proof.
  apply (format_df_well_formed three_tweets three_tweets_formatted false).
  - exact well_formed_three_tweets.
  - apply (bool_decide_unpack _). reflexivity.
  - exact format_df_three_tweets.
Defined.

(** A dataframe with an "author.username" and a "username" column
    comes out with two columns named "username". *)
Example format_df_two_usernames :
  columns <$>
    format_df
      (mkDataFrame
         [ "id"; "author.username"; "username"; "attachments.media";
           RETWEETED_ID ]
         [ [ VStr "1"; VStr "ann"; VStr "a"; VNaN; VStr "2" ] ])
      false
  = Ok [ "id"; "username"; "username"; "attachments.media"; RETWEETED_ID;
         "tweet_url"; "media"; "type"; "tweet_count" ].
Proof. vm_compute. reflexivity. Qed.

(** ** Formatting a formatted dataframe *)

Lemma cell_lookup (i : nat) (row : list value) :
  (i < length row)%nat -> row !! i = Some (cell i row).
Proof.
  intros H. unfold cell. destruct (lookup_lt_is_Some_2 row i H) as [v ->].
  reflexivity.
Qed.

Lemma columns_set_present (cols : list string) (c : string) :
  is_Some (index_of cols c) -> columns_set cols c = cols.
Proof. intros [j Hj]. unfold columns_set. now rewrite Hj. Qed.

(** Setting a column to the cell it holds leaves the row as it is. *)
Lemma row_set_same (cols : list string) (c : string) (row : list value) :
  length row = length cols ->
  is_Some (index_of cols c) ->
  row_set cols c (cell_of cols c row) row = row.
Proof.
  intros Hlen [j Hj]. unfold row_set, cell_of. rewrite Hj.
  apply list_insert_id, cell_lookup. rewrite Hlen. eapply index_of_lt, Hj.
Qed.

Lemma row_set_set (cols : list string) (c : string) (v v' : value)
    (row : list value) :
  is_Some (index_of cols c) ->
  row_set cols c v' (row_set cols c v row) = row_set cols c v' row.
Proof.
  intros [j Hj]. unfold row_set. rewrite Hj. apply list_insert_insert_eq.
Qed.

Lemma cell_of_row_set (cols : list string) (c : string) (v : value)
    (row : list value) :
  length row = length cols ->
  is_Some (index_of cols c) ->
  cell_of cols c (row_set cols c v row) = v.
Proof.
  intros Hlen [j Hj]. unfold cell_of, row_set, cell. rewrite Hj.
  rewrite list_lookup_insert_eq; [reflexivity |].
  rewrite Hlen. eapply index_of_lt, Hj.
Qed.

(** A row that holds its derived cells already is left as it is. *)
Lemma format_row_fixed (cols : list string) (incl_html : bool)
    (row : list value) :
  length row = length cols ->
  has_read_columns cols ->
  (∀ d, d ∈ DERIVED -> is_Some (index_of cols d)) ->
  cell_of cols "tweet_url" row = tweet_url_of cols row ->
  media_of cols incl_html row = Ok (cell_of cols "media" row) ->
  find_tweet_type (row_series cols row) = Ok (cell_of cols "type" row) ->
  cell_of cols "tweet_count" row = VInt 1 ->
  format_row cols incl_html row = Ok row.
Proof.
  intros Hlen ([u Hu] & [iid Hid] & [im Him]) Hder Hurl Hmedia Hty Hcount.
  assert (is_Some (index_of cols "tweet_url")) as H1
    by (apply Hder; unfold DERIVED; rewrite !elem_of_cons; tauto).
  assert (is_Some (index_of cols "media")) as H2
    by (apply Hder; unfold DERIVED; rewrite !elem_of_cons; tauto).
  assert (is_Some (index_of cols "type")) as H3
    by (apply Hder; unfold DERIVED; rewrite !elem_of_cons; tauto).
  assert (is_Some (index_of cols "tweet_count")) as H4
    by (apply Hder; unfold DERIVED; rewrite !elem_of_cons; tauto).
  assert (columns_1 cols = cols) as E1
    by (unfold columns_1; now apply columns_set_present).
  assert (columns_2 cols = cols) as E2
    by (unfold columns_2; rewrite E1; now apply columns_set_present).
  assert (columns_3 cols incl_html = cols) as E3.
  { unfold columns_3. rewrite E2. destruct incl_html; [| reflexivity].
    now apply columns_set_present. }
  assert (columns_4 cols incl_html = cols) as E4
    by (unfold columns_4; rewrite E3; now apply columns_set_present).
  unfold format_row. rewrite E1, E2, E3, E4.
  (* tweet_url *)
  unfold row_tweet_url.
  rewrite !mapM_cons, (locate_Some _ _ _ Hu), (locate_Some _ _ _ Hid).
  cbn [mbind result_bind mapM mret result_ret].
  unfold row_step at 1. cbn [map]. rewrite make_tweet_url_pair.
  cbn [mbind result_bind].
  assert (VStr ("https://twitter.com/" +:+ py_str (cell u row)
                +:+ "/status/" +:+ py_str (cell iid row))
          = cell_of cols "tweet_url" row) as ->.
  { rewrite Hurl. unfold tweet_url_of, cell_of. now rewrite Hu, Hid. }
  rewrite row_set_same by assumption.
  (* media *)
  unfold media_of in Hmedia. apply bind_ok_inv in Hmedia as (m & Hm & Hhtml).
  unfold row_media. rewrite (locate_Some _ _ _ Him). cbn [mbind result_bind].
  unfold row_step at 1.
  assert (cell im row = cell_of cols "attachments.media" row) as ->
    by (unfold cell_of; now rewrite Him).
  rewrite Hm. cbn [mbind result_bind].
  assert (row_html incl_html cols (row_set cols "media" m row) = Ok row) as ->.
  { unfold row_html. destruct incl_html.
    - destruct H2 as [j2 Hj2]. rewrite (locate_Some _ _ _ Hj2).
      cbn [mbind result_bind]. unfold row_step.
      assert (cell j2 (row_set cols "media" m row) = m) as ->.
      { pose proof (cell_of_row_set cols "media" m row Hlen (mk_is_Some _ _ Hj2))
          as H.
        unfold cell_of in H. now rewrite Hj2 in H. }
      rewrite Hhtml. cbn [mbind result_bind].
      rewrite row_set_set by eauto. f_equal. now apply row_set_same.
    - injection Hhtml as ->. f_equal. now apply row_set_same. }
  cbn [mbind result_bind].
  (* type *)
  unfold row_type, row_step, labelled. fold (row_series cols row).
  rewrite Hty. cbn [mbind result_bind]. rewrite row_set_same by assumption.
  (* tweet_count *)
  unfold row_count. rewrite <- Hcount. f_equal. now apply row_set_same.
Qed.

Lemma rename_column_cases (c : string) :
  ((c ∉ RENAME_SOURCES) ∧ rename_column c = c)
  ∨ (c ∈ RENAME_SOURCES ∧ rename_column c ∈ RENAME_TARGETS).
Proof.
  unfold rename_column. destruct (assoc RENAMES c) as [t |] eqn:E.
  - right. apply assoc_Some_in in E. split.
    + apply list_elem_of_fmap. exists (c, t). split; [reflexivity | exact E].
    + apply list_elem_of_fmap. exists (c, t). split; [reflexivity | exact E].
  - left. split; [| reflexivity]. intros Hin.
    unfold RENAME_SOURCES, RENAMES in Hin. simpl in Hin.
    repeat (apply elem_of_cons in Hin as [-> | Hin]; [discriminate |]).
    now apply elem_of_nil in Hin.
Qed.

(** No rename target is itself renamed. *)
Lemma rename_column_target (t : string) :
  t ∈ RENAME_TARGETS -> rename_column t = t.
Proof.
  unfold RENAME_TARGETS, RENAMES. simpl. intros H.
  repeat (apply elem_of_cons in H as [-> | H]; [reflexivity |]).
  now apply elem_of_nil in H.
Qed.

Lemma rename_column_idem (c : string) :
  rename_column (rename_column c) = rename_column c.
Proof.
  destruct (rename_column_cases c) as [[_ H] | [_ H]].
  - now rewrite !H.
  - now apply rename_column_target.
Qed.

(** A name that the rename table does not mention is where it was
    after renaming. *)
Lemma index_of_rename_plain (cols : list string) (k : string) :
  k ∉ RENAME_SOURCES ->
  k ∉ RENAME_TARGETS ->
  index_of (map rename_column cols) k = index_of cols k.
Proof.
  intros Hs Ht. induction cols as [| c cols IH]; [reflexivity |]. simpl.
  rewrite IH.
  destruct (String.eqb_spec (rename_column c) k) as [Hr | Hr];
    destruct (String.eqb_spec c k) as [Hc | Hc]; try reflexivity.
  - exfalso. destruct (rename_column_cases c) as [[_ H] | [_ H]]; congruence.
  - exfalso. subst c. now rewrite rename_column_other in Hr.
Qed.

Lemma index_of_rename_NoDup (cols : list string) (c : string) (i : nat) :
  NoDup (map rename_column cols) ->
  index_of cols c = Some i ->
  index_of (map rename_column cols) (rename_column c) = Some i.
Proof.
  intros Hnd Hi. apply NoDup_index_of; [exact Hnd |].
  rewrite list_lookup_fmap. apply index_of_lookup in Hi. now rewrite Hi.
Qed.

Lemma username_of_renamed (cols : list string) :
  username_of (map rename_column cols) = "username".
Proof.
  unfold username_of. rewrite bool_decide_eq_false_2; [reflexivity |].
  intros [i Hi]. apply index_of_lookup in Hi.
  rewrite list_lookup_fmap in Hi.
  destruct (cols !! i) as [c |]; [| discriminate]. simpl in Hi.
  injection Hi as Hi.
  destruct (rename_column_cases c) as [[Hs H] | [_ H]].
  - rewrite H in Hi. subst c. apply Hs.
    unfold RENAME_SOURCES, RENAMES. simpl. rewrite !elem_of_cons. tauto.
  - rewrite Hi in H. unfold RENAME_TARGETS, RENAMES in H. simpl in H.
    repeat (apply elem_of_cons in H as [H | H]; [discriminate |]).
    now apply elem_of_nil in H.
Qed.

Lemma rename_username_of (cols : list string) :
  rename_column (username_of cols) = "username".
Proof. unfold username_of. destruct (bool_decide _); reflexivity. Qed.

Lemma index_of_columns_5_old (cols : list string) (incl_html : bool)
    (c : string) (i : nat) :
  index_of cols c = Some i -> index_of (columns_5 cols incl_html) c = Some i.
Proof.
  intros H. unfold columns_5, columns_4, columns_3, columns_2, columns_1.
  destruct incl_html; repeat apply index_of_columns_set_old; exact H.
Qed.

Lemma index_of_columns_5_other (cols : list string) (incl_html : bool)
    (k : string) :
  k ∉ DERIVED -> index_of (columns_5 cols incl_html) k = index_of cols k.
Proof.
  unfold DERIVED. rewrite !not_elem_of_cons. intros (H1 & H2 & H3 & H4 & _).
  unfold columns_5, columns_4, columns_3, columns_2, columns_1.
  destruct incl_html; now rewrite !index_of_columns_set_other.
Qed.

Section formatted_row.
Variables (cols : list string) (incl_html : bool) (row row' : list value).
Hypothesis Hnd : NoDup (map rename_column cols).
Hypothesis Hlen : length row = length cols.
Hypothesis Hrow : format_row cols incl_html row = Ok row'.

Let cols5 := columns_5 cols incl_html.
Let colsO := map rename_column cols5.

Lemma formatted_row_length : length row' = length (map rename_column cols5).
Proof. rewrite length_map. eapply format_row_length; eassumption. Qed.

(** A cell of the row as it came, under the column's new name. *)
Lemma formatted_row_old_cell (c : string) :
  c ∉ DERIVED ->
  is_Some (index_of cols c) ->
  is_Some (index_of (map rename_column cols5) (rename_column c))
  ∧ cell_of (map rename_column cols5) (rename_column c) row'
    = cell_of cols c row.
Proof.
  intros Hc [i Hi].
  assert (index_of (map rename_column cols5) (rename_column c) = Some i) as Hi'.
  { apply index_of_rename_NoDup.
    - now apply NoDup_rename_columns_5.
    - now apply index_of_columns_5_old. }
  split; [eauto |]. unfold cell_of. rewrite Hi', Hi.
  destruct (format_row_kept i c (cell i row) cols incl_html row row' Hc Hrow)
    as (_ & _ & H); [| exact H].
  repeat split; [exact Hlen | now apply index_of_lookup].
Qed.

(** A derived cell, under the column's name. *)
Lemma formatted_row_derived_cell (d : string) (v : value) (j : nat) :
  d ∈ DERIVED ->
  row_kept j d v cols5 row' ->
  cell_of (map rename_column cols5) d row' = v.
Proof.
  intros Hd (_ & Hj & Hv). unfold cell_of.
  rewrite index_of_rename_derived by assumption.
  rewrite (NoDup_index_of cols5 d j); [exact Hv | | exact Hj].
  apply NoDup_columns_5. eapply NoDup_fmap_1, Hnd.
Qed.

(** What the row's [Series] holds under a name that the rename table
    does not mention and the format pass does not add. *)
Lemma formatted_row_series (k : string) :
  k ∉ DERIVED ->
  k ∉ RENAME_SOURCES ->
  k ∉ RENAME_TARGETS ->
  row_series (map rename_column cols5) row' !! k = row_series cols row !! k.
Proof.
  intros Hd Hs Ht.
  rewrite (row_series_lookup _ row' k formatted_row_length).
  rewrite (row_series_lookup cols row k Hlen).
  rewrite index_of_rename_plain by assumption.
  unfold cols5. rewrite index_of_columns_5_other by assumption.
  destruct (index_of cols k) as [i |] eqn:Ei; [| reflexivity].
  cbn [fmap option_fmap option_map]. f_equal.
  destruct (format_row_kept i k (cell i row) cols incl_html row row' Hd Hrow)
    as (_ & _ & H); [| exact H].
  repeat split; [exact Hlen | now apply index_of_lookup].
Qed.

Lemma formatted_row_fixed :
  has_read_columns cols ->
  format_row (map rename_column cols5) incl_html row' = Ok row'.
Proof.
  intros (Hu & Hid & Hm).
  assert (("id" ∉ DERIVED) ∧ ("attachments.media" ∉ DERIVED)
          ∧ (username_of cols ∉ DERIVED)) as (Did & Dm & Du).
  { unfold DERIVED, username_of. rewrite !not_elem_of_cons.
    destruct (bool_decide _);
      repeat split; (discriminate || apply not_elem_of_nil). }
  destruct (formatted_row_old_cell "id" Did Hid) as [Iid Cid].
  destruct (formatted_row_old_cell "attachments.media" Dm Hm) as [Im Cm].
  destruct (formatted_row_old_cell (username_of cols) Du Hu) as [Iu Cu].
  rewrite rename_username_of in Iu, Cu.
  change (rename_column "id") with "id" in Iid, Cid.
  change (rename_column "attachments.media") with "attachments.media" in Im, Cm.
  destruct (format_row_tweet_url _ _ _ _ Hlen Hrow) as (v1 & j1 & [= <-] & K1).
  destruct (format_row_media _ _ _ _ Hlen Hrow) as (v2 & j2 & E2 & K2).
  destruct (format_row_type _ _ _ _ Hlen Hrow) as (v3 & j3 & E3 & K3).
  destruct (format_row_tweet_count _ _ _ _ Hlen Hrow) as (v4 & j4 & [= <-] & K4).
  apply format_row_fixed.
  - exact formatted_row_length.
  - unfold has_read_columns. rewrite username_of_renamed. tauto.
  - intros d Hd. rewrite index_of_rename_derived by assumption.
    now apply index_of_columns_5.
  - rewrite (formatted_row_derived_cell "tweet_url" (tweet_url_of cols row) j1);
      [| | exact K1].
    + unfold tweet_url_of. rewrite username_of_renamed, Cu, Cid. reflexivity.
    + unfold DERIVED. rewrite !elem_of_cons. tauto.
  - rewrite (formatted_row_derived_cell "media" v2 j2); [| | exact K2].
    + rewrite <- E2. unfold media_of. now rewrite Cm.
    + unfold DERIVED. rewrite !elem_of_cons. tauto.
  - rewrite (formatted_row_derived_cell "type" v3 j3); [| | exact K3].
    + rewrite <- E3.
      apply find_tweet_type_ext; apply formatted_row_series;
        try (unfold DERIVED; rewrite !not_elem_of_cons;
             repeat split; (discriminate || apply not_elem_of_nil));
        apply (bool_decide_unpack _); reflexivity.
    + unfold DERIVED. rewrite !elem_of_cons. tauto.
  - apply (formatted_row_derived_cell "tweet_count" (VInt 1) j4); [| exact K4].
    unfold DERIVED. rewrite !elem_of_cons. tauto.
Qed.

End formatted_row.

(** The format pass is idempotent: on the dataframe that it returned
    (from a dataframe with rows) it returns that dataframe, when
    renaming does not make two columns of the dataframe that came share
    a name. *)
Theorem format_df_idempotent (df out : DataFrame) (incl_html : bool) :
  rows df ≠ [] ->
  well_formed df ->
  NoDup (map rename_column (columns df)) ->
  format_df df incl_html = Ok out ->
  format_df out incl_html = Ok out.
Proof.
  destruct df as [cols rs]. intros _ [_ Hrows] Hnd Hout.
  cbn [columns rows] in *.
  apply format_df_ok_inv in Hout as (rs' & Hmap & Hu & Hid & Hm & ->).
  assert (has_read_columns cols) as Hread.
  { repeat split; try assumption. unfold columns_1 in Hm.
    now rewrite index_of_columns_set_other in Hm. }
  set (colsO := map rename_column (columns_5 cols incl_html)).
  assert (Forall (fun row' => format_row colsO incl_html row' = Ok row') rs')
    as Hfixed.
  { assert (Forall2 (fun _ row' => format_row colsO incl_html row' = Ok row')
              rs rs') as H2.
    { eapply format_rows_Forall2; [exact Hrows | exact Hmap |].
      intros row row' Hlen Hrow.
      now apply (formatted_row_fixed cols incl_html row row'). }
    clear Hmap Hrows. induction H2; constructor; assumption. }
  assert (has_read_columns colsO) as (Hu' & Hid' & Hm').
  { destruct Hread as ([u Eu] & [iid Eid] & [im Em]).
    assert (NoDup colsO) as HndO by now apply NoDup_rename_columns_5.
    unfold has_read_columns, colsO. rewrite username_of_renamed.
    rewrite <- (rename_username_of cols).
    change "id" with (rename_column "id").
    change "attachments.media" with (rename_column "attachments.media").
    repeat split; eexists;
      (apply index_of_rename_NoDup; [exact HndO |]);
      apply index_of_columns_5_old; eassumption. }
  apply outcome_ok_inv.
  rewrite (format_df_rowwise colsO incl_html rs').
  rewrite format_columns_present by assumption.
  cbn [mbind result_bind].
  rewrite (mapM_all_ok _ id).
  2: { intros row' Hin. rewrite Forall_forall in Hfixed. now apply Hfixed. }
  rewrite map_id. cbn [mbind result_bind outcome]. do 2 f_equal.
  assert (columns_5 colsO incl_html = colsO) as ->.
  { assert (∀ d, d ∈ DERIVED -> is_Some (index_of colsO d)) as Hder.
    { intros d Hd. unfold colsO. rewrite index_of_rename_derived by assumption.
      now apply index_of_columns_5. }
    assert (∀ l c, l = colsO -> c ∈ DERIVED -> columns_set l c = colsO) as Hset.
    { intros l c -> Hc. now apply columns_set_present, Hder. }
    unfold columns_5, columns_4, columns_3, columns_2, columns_1.
    destruct incl_html;
      repeat (apply Hset; [| unfold DERIVED; rewrite !elem_of_cons; tauto]);
      reflexivity. }
  unfold colsO. rewrite map_map. apply map_ext. intros c.
  apply rename_column_idem.
Qed.

Lemma format_df_idempotent_witness :
  format_df three_tweets_formatted false = Ok three_tweets_formatted.
Proof.
  apply (format_df_idempotent three_tweets three_tweets_formatted false).
  - discriminate.
  - exact well_formed_three_tweets.
  - apply (bool_decide_unpack _). reflexivity.
  - exact format_df_three_tweets.
Defined.

(** ** Copies of the tracked datetime columns *)

Lemma list_copy_fresh (h : Shared.heap) (a : nat) :
  h !! (Shared.list_copy h a).1 = None.
Proof.
  unfold Shared.list_copy. simpl.
  apply (not_elem_of_dom (D := gset nat)), is_fresh.
Qed.

(** The list that [columns] returns is a copy: it has the items of the
    tracked list, at another address; a later [incl_date] or
    [remove_date] does not change it, and appending to it does not
    change the tracked list. *)
Theorem columns_returns_a_copy (st st' : Shared.state) (a : nat) (x : string) :
  is_Some (Shared.lists st !! Shared._columns st) ->
  Shared.columns st = (a, st') ->
  a ≠ Shared._columns st'
  ∧ Shared.lists st' !!! a = Shared.lists st !!! Shared._columns st
  ∧ Shared.lists st' !!! Shared._columns st'
    = Shared.lists st !!! Shared._columns st
  ∧ Shared.lists (Shared.incl_date st') !!! a
    = Shared.lists st !!! Shared._columns st
  ∧ Shared.lists (Shared.remove_date st') !!! a
    = Shared.lists st !!! Shared._columns st
  ∧ Shared.list_append (Shared.lists st') a x !!! Shared._columns st'
    = Shared.lists st !!! Shared._columns st.
Proof.
  intros [l Hl] Hcopy. unfold Shared.columns in Hcopy.
  pose proof (list_copy_fresh (Shared.lists st) (Shared._columns st)) as Hfresh.
  destruct (Shared.list_copy (Shared.lists st) (Shared._columns st))
    as [a' h] eqn:E.
  injection Hcopy as <- <-. simpl in Hfresh.
  unfold Shared.list_copy in E. injection E as Ea <-.
  assert (a' ≠ Shared._columns st) as Hne by congruence.
  rewrite Ea.
  cbn [Shared.lists Shared._columns Shared.incl_date Shared.remove_date].
  unfold Shared.list_append.
  repeat split.
  - exact Hne.
  - now rewrite lookup_total_insert_eq.
  - now rewrite lookup_total_insert_ne.
  - rewrite lookup_total_insert_ne by congruence.
    now rewrite lookup_total_insert_eq.
  - rewrite lookup_total_insert_ne by congruence.
    now rewrite lookup_total_insert_eq.
  - rewrite lookup_total_insert_ne by congruence.
    now rewrite lookup_total_insert_ne.
Qed.

Lemma columns_returns_a_copy_witness :
  1%nat ≠ O
  ∧ Shared.lists (Shared.columns Shared.initial).2 !!! 1%nat
    = TWITTER_DT._columns
  ∧ Shared.lists (Shared.columns Shared.initial).2 !!! O = TWITTER_DT._columns
  ∧ Shared.lists (Shared.incl_date (Shared.columns Shared.initial).2) !!! 1%nat
    = TWITTER_DT._columns
  ∧ Shared.lists (Shared.remove_date (Shared.columns Shared.initial).2) !!! 1%nat
    = TWITTER_DT._columns
  ∧ Shared.list_append (Shared.lists (Shared.columns Shared.initial).2)
      1%nat "date" !!! O
    = TWITTER_DT._columns.
Proof.
  apply (columns_returns_a_copy Shared.initial
           (Shared.columns Shared.initial).2 1%nat "date").
  - apply (bool_decide_unpack _). reflexivity.
  - vm_compute. reflexivity.
Defined.

(** [incl_date] and [remove_date] act on the tracked list as the
    functions on lists above do. *)
Lemma shared_incl_remove (st : Shared.state) :
  Shared.lists (Shared.incl_date st) !!! Shared._columns st
  = TWITTER_DT.incl_date (Shared.lists st !!! Shared._columns st)
  ∧ Shared.lists (Shared.remove_date st) !!! Shared._columns st
    = TWITTER_DT.remove_date (Shared.lists st !!! Shared._columns st).
Proof.
  unfold Shared.incl_date, Shared.remove_date, Shared.list_append.
  cbn [Shared.lists Shared._columns].
  now rewrite !lookup_total_insert_eq.
Qed.
